(** * LOL-VibeCoder: the repository analyzer and the metrics merger

    A shallow embedding of [backend/src/analyzer.js] (class [RepoAnalyzer])
    and [backend/src/pythonIntegration.js] (class [PythonIntegration]),
    followed by the properties of the metrics they compute.

    Modelling conventions.
    - A JavaScript string is its sequence of UTF-16 code units, [list N].
    - Counters are natural numbers: they count files and lines, far below
      2^53, where a JavaScript number is an exact integer.
    - A non-integer JavaScript number is a rational, and every operation
      that rounds in binary64 applies the rounding operator [fl] of the
      class [Float64] to the exact result.
    - The file system, the child process and the engine's built-ins that
      the repository does not define ([toLowerCase], [JSON.parse]) are
      inputs of the model. *)

From Stdlib Require Import String Ascii DecimalString.
From Stdlib Require Import List Bool Arith NArith ZArith QArith Qround Qabs.
From Stdlib Require Import Lia Lqa Morphisms.
Import ListNotations.

Set Warnings "-register-all".
Close Scope Q_scope.
Open Scope nat_scope.

(** ** JavaScript strings *)

Module JsString.

Definition jsstring := list N.

(** [js "abc"] is the JavaScript string of an ASCII literal. *)
Definition js (s : string) : jsstring :=
  List.map N_of_ascii (list_ascii_of_string s).

Fixpoint eqb (a b : jsstring) : bool :=
  match a, b with
  | [], [] => true
  | x :: a', y :: b' => N.eqb x y && eqb a' b'
  | _, _ => false
  end.

Definition eq_dec : forall a b : jsstring, {a = b} + {a <> b} :=
  list_eq_dec N.eq_dec.

(** WhiteSpace and LineTerminator of ECMAScript: what [trim] strips and
    what the regular expression class [\s] matches. *)
Definition isWhiteSpace (c : N) : bool :=
  ((c =? 9) || (c =? 10) || (c =? 11) || (c =? 12) || (c =? 13) ||
   (c =? 32) || (c =? 160) || (c =? 5760) ||
   ((8192 <=? c) && (c <=? 8202)) ||
   (c =? 8232) || (c =? 8233) || (c =? 8239) || (c =? 8287) ||
   (c =? 12288) || (c =? 65279))%N.

(** The class [\w] of a regular expression without the [u] flag. *)
Definition isWordChar (c : N) : bool :=
  (((48 <=? c) && (c <=? 57)) || ((65 <=? c) && (c <=? 90)) ||
   ((97 <=? c) && (c <=? 122)) || (c =? 95))%N.

Fixpoint dropWhile (p : N -> bool) (s : jsstring) : jsstring :=
  match s with
  | [] => []
  | c :: s' => if p c then dropWhile p s' else s
  end.

Fixpoint takeWhile (p : N -> bool) (s : jsstring) : jsstring :=
  match s with
  | [] => []
  | c :: s' => if p c then c :: takeWhile p s' else []
  end.

Definition trimStart (s : jsstring) : jsstring := dropWhile isWhiteSpace s.
Definition trimEnd (s : jsstring) : jsstring :=
  rev (dropWhile isWhiteSpace (rev s)).

(** [String.prototype.trim] *)
Definition trim (s : jsstring) : jsstring := trimEnd (trimStart s).

(** [s.split(sep)] for a separator of one code unit: never empty. *)
Fixpoint split (sep : N) (s : jsstring) : list jsstring :=
  match s with
  | [] => [[]]
  | c :: s' =>
      if (c =? sep)%N then [] :: split sep s'
      else match split sep s' with
           | l :: ls => (c :: l) :: ls
           | [] => [[c]]
           end
  end.

(** [parts.join(sep)] *)
Fixpoint join (sep : jsstring) (parts : list jsstring) : jsstring :=
  match parts with
  | [] => []
  | [p] => p
  | p :: ps => p ++ sep ++ join sep ps
  end.

Fixpoint startsWith (s prefix : jsstring) : bool :=
  match prefix, s with
  | [], _ => true
  | p :: prefix', c :: s' => N.eqb c p && startsWith s' prefix'
  | _ :: _, [] => false
  end.

Definition endsWith (s suffix : jsstring) : bool :=
  startsWith (rev s) (rev suffix).

(** [arr.includes(x)] on an array of strings. *)
Definition includes (arr : list jsstring) (x : jsstring) : bool :=
  existsb (eqb x) arr.

(** Truthiness of a string: the empty string is the only falsy one. *)
Definition truthy (s : jsstring) : bool :=
  match s with [] => false | _ :: _ => true end.

(** [String(n)] of an integer. *)
Definition ofZ (n : Z) : jsstring :=
  js (NilZero.string_of_int (Z.to_int n)).

Definition LF : N := 10.
Definition SPACE : N := 32.
Definition DOT : N := 46.
Definition SLASH : N := 47.

End JsString.
Import JsString.

(** ** Regular expressions

    The fragment of ECMAScript regular expressions that the analyzer
    writes, with the backtracking order of the language: alternatives left
    to right, a greedy star the longest iteration first, a lazy star the
    shortest first, and an iteration of a star that consumes nothing is
    refused. *)

Module Regex.

Inductive regex : Type :=
| Chr (p : N -> bool)
| Eps
| Seq (a b : regex)
| Alt (a b : regex)
| Star (greedy : bool) (a : regex)
| WordBoundary.

(** A position: the code unit before it, and the input left. *)
Definition pos : Type := (option N * jsstring)%type.

Definition isWordBefore (prev : option N) : bool :=
  match prev with Some c => isWordChar c | None => false end.

Definition isWordAt (s : jsstring) : bool :=
  match s with c :: _ => isWordChar c | [] => false end.

Fixpoint rmatch (r : regex) (prev : option N) (s : jsstring)
    (k : option N -> jsstring -> option pos) {struct r} : option pos :=
  match r with
  | Chr p =>
      match s with
      | c :: s' => if p c then k (Some c) s' else None
      | [] => None
      end
  | Eps => k prev s
  | Seq a b => rmatch a prev s (fun prev' s' => rmatch b prev' s' k)
  | Alt a b =>
      match rmatch a prev s k with
      | Some e => Some e
      | None => rmatch b prev s k
      end
  | Star greedy a =>
      (fix loop (fuel : nat) (prev : option N) (s : jsstring) {struct fuel}
         : option pos :=
         match fuel with
         | O => k prev s
         | S fuel' =>
             let again prev' s' :=
               if (length s' <? length s)%nat then loop fuel' prev' s'
               else None in
             if greedy then
               match rmatch a prev s again with
               | Some e => Some e
               | None => k prev s
               end
             else
               match k prev s with
               | Some e => Some e
               | None => rmatch a prev s again
               end
         end) (S (length s)) prev s
  | WordBoundary =>
      if xorb (isWordBefore prev) (isWordAt s) then k prev s else None
  end.

(** One attempt at a position: the position after the match. *)
Definition matchAt (r : regex) (prev : option N) (s : jsstring) : option pos :=
  rmatch r prev s (fun prev' s' => Some (prev', s')).

(** [str.match(r)] with the [g] flag, counted: the scan restarts after
    each match, and one code unit further after an empty match or a
    failure. *)
Fixpoint countFrom (fuel : nat) (r : regex) (prev : option N) (s : jsstring)
  : nat :=
  match fuel with
  | O => 0
  | S fuel' =>
      match matchAt r prev s with
      | Some (prev', s') =>
          if (length s' <? length s)%nat
          then S (countFrom fuel' r prev' s')
          else match s with
               | [] => 1
               | c :: t => S (countFrom fuel' r (Some c) t)
               end
      | None =>
          match s with
          | [] => 0
          | c :: t => countFrom fuel' r (Some c) t
          end
      end
  end.

Definition matchCount (r : regex) (s : jsstring) : nat :=
  countFrom (S (length s)) r None s.

(** [r.test(str)] without the [g] flag: is there a match anywhere. *)
Fixpoint testFrom (r : regex) (prev : option N) (s : jsstring) : bool :=
  match matchAt r prev s with
  | Some _ => true
  | None =>
      match s with
      | [] => false
      | c :: t => testFrom r (Some c) t
      end
  end.

Definition test (r : regex) (s : jsstring) : bool := testFrom r None s.

(** Building blocks. *)
Definition chr (c : N) : regex := Chr (N.eqb c).

Fixpoint lit (s : jsstring) : regex :=
  match s with
  | [] => Eps
  | [c] => chr c
  | c :: s' => Seq (chr c) (lit s')
  end.

(** Canonicalize of the [i] flag without [u]: an ASCII letter is compared
    through its upper case, and a code unit above 127 never folds onto an
    ASCII one. *)
Definition canonicalize (c : N) : N :=
  if ((97 <=? c) && (c <=? 122))%N then (c - 32)%N else c.

Definition chr_i (c : N) : regex :=
  Chr (fun x => N.eqb (canonicalize x) (canonicalize c)).

Fixpoint lit_i (s : jsstring) : regex :=
  match s with
  | [] => Eps
  | [c] => chr_i c
  | c :: s' => Seq (chr_i c) (lit_i s')
  end.

Fixpoint alts (rs : list regex) : regex :=
  match rs with
  | [] => Chr (fun _ => false)
  | [r] => r
  | r :: rs' => Alt r (alts rs')
  end.

Fixpoint seqs (rs : list regex) : regex :=
  match rs with
  | [] => Eps
  | [r] => r
  | r :: rs' => Seq r (seqs rs')
  end.

Definition star (a : regex) : regex := Star true a.
Definition plus (a : regex) : regex := Seq a (Star true a).
Definition lazyStar (a : regex) : regex := Star false a.

Definition ws : regex := Chr isWhiteSpace.          (* \s *)
Definition word : regex := Chr isWordChar.          (* \w *)
Definition any : regex := Chr (fun _ => true).      (* [\s\S] *)

End Regex.

(** ** Numbers that round

    [commentLines / totalLines], [x * 100] and the two ratios of the
    pattern detector are binary64 operations: the exact result, rounded.
    The class states what the analysis needs of the rounding operator:
    it is monotone, it keeps zero, and on the normal range its relative
    error is at most the unit roundoff 2^-53.  Rounding to nearest of
    IEEE 754 has the three properties; so has exact arithmetic. *)

Module Number.

Local Open Scope Q_scope.

Definition unit_roundoff : Q := 1 # (2 ^ 53).
Definition min_normal : Q := 1 # (2 ^ 1022).
Definition max_normal : Q := inject_Z (2 ^ 1023).

Class Float64 : Type := {
  fl : Q -> Q;
  fl_mono : forall x y : Q, x <= y -> fl x <= fl y;
  fl_zero : fl 0 == 0;
  fl_error : forall x : Q,
      min_normal <= Qabs x -> Qabs x <= max_normal ->
      Qabs (fl x - x) <= unit_roundoff * Qabs x
}.

(** [Math.round]: the nearest integer, a tie going up. *)
Definition Math_round (x : Q) : Z := Qfloor (x + (1 # 2)).

(** [x > y] *)
Definition gt (x y : Q) : bool := negb (Qle_bool x y).

Definition ofNat (n : nat) : Q := inject_Z (Z.of_nat n).

End Number.
Import Number.

(** ** Plain objects used as counting tables

    [obj[k] = (obj[k] || 0) + 1] on an object literal [{}].  A key that is
    not an own property is looked up in [Object.prototype]: for the name
    of one of its members the read is truthy and [+ 1] makes a string of
    it, which [count > 1] never accepts; an assignment of a string to
    [__proto__] is ignored. *)

Module JsObject.

Inductive value : Type :=
| VNum (n : nat)
| VStr.

(** Own enumerable properties, in insertion order. *)
Definition t : Type := list (jsstring * value).

Definition empty : t := [].

Definition prototypeKeys : list jsstring :=
  List.map js
    ["constructor"; "__defineGetter__"; "__defineSetter__"; "hasOwnProperty";
     "__lookupGetter__"; "__lookupSetter__"; "isPrototypeOf";
     "propertyIsEnumerable"; "toString"; "valueOf"; "__proto__";
     "toLocaleString"]%string.

Fixpoint getOwn (o : t) (k : jsstring) : option value :=
  match o with
  | [] => None
  | (k', v) :: o' => if JsString.eqb k k' then Some v else getOwn o' k
  end.

Fixpoint setOwn (o : t) (k : jsstring) (v : value) : t :=
  match o with
  | [] => [(k, v)]
  | (k', v') :: o' =>
      if JsString.eqb k k' then (k', v) :: o' else (k', v') :: setOwn o' k v
  end.

Definition increment (o : t) (k : jsstring) : t :=
  match getOwn o k with
  | Some (VNum n) => setOwn o k (VNum (S n))
  | Some VStr => setOwn o k VStr
  | None =>
      if JsString.eqb k (js "__proto__") then o
      else if includes prototypeKeys k then setOwn o k VStr
      else setOwn o k (VNum 1)
  end.

(** [Object.values(o)] *)
Definition values (o : t) : list value := List.map snd o.

(** [count > 1] *)
Definition gt1 (v : value) : bool :=
  match v with
  | VNum n => (1 <? n)%nat
  | VStr => false
  end.

End JsObject.

(** ** [path] *)

Module Path.

(** [path.join(dir, name)] for a normalized directory and an entry name. *)
Definition join (dir name : jsstring) : jsstring := dir ++ SLASH :: name.

(** [path.basename(p)] for a path that does not end with a slash. *)
Definition basename (p : jsstring) : jsstring := last (split SLASH p) [].

(** [path.extname(p)]: from the last dot of the base name, and empty when
    there is no dot, when the only dot is the first character, or for
    [..]. *)
Definition extname (p : jsstring) : jsstring :=
  let b := basename p in
  match rev (split DOT b) with
  | [] | [_] => []
  | suffix :: before =>
      match before with
      | [[]] => []
      | _ => if JsString.eqb b [DOT; DOT] then [] else DOT :: suffix
      end
  end.

End Path.

(** ** The file tree

    What [fs.stat], [fs.readdir] and [fs.readFile] answer for the cloned
    repository. *)

Module Fs.

Inductive node : Type :=
| File (name : jsstring) (content : option jsstring)
                                      (* [None]: [readFile] throws *)
| Dir (name : jsstring) (entries : list node)
| UnreadableDir (name : jsstring)     (* a directory whose [readdir] throws *)
| Other (name : jsstring)             (* neither a file nor a directory *)
| Broken (name : jsstring).           (* [stat] throws *)

Definition name (n : node) : jsstring :=
  match n with
  | File nm _ | Dir nm _ | UnreadableDir nm | Other nm | Broken nm => nm
  end.

End Fs.

(** ** [RepoAnalyzer] *)

Module Analyzer.

Record AiPatterns : Type := {
  genericNames : nat;
  perfectFormatting : nat;
  boilerplateCode : nat;
  repetitivePatterns : nat
}.

Record CodeSample : Type := {
  file : jsstring;
  extension : jsstring;
  sample : jsstring;
  lines : nat
}.

(** The accumulator [stats] of [computeMetrics]. *)
Record Stats : Type := {
  totalFiles : nat;
  totalLines : nat;
  commentLines : nat;
  hasReadme : bool;
  hasTests : bool;
  fileTypes : JsObject.t;
  codeSamples : list CodeSample;
  aiPatterns : AiPatterns
}.

(** What [computeMetrics] returns, with the [usedBranch] that
    [analyzeRepository] adds and the [highlights] that [mergeMetrics]
    reads ([None]: the property is absent). *)
Record Metrics : Type := {
  m_totalFiles : nat;
  m_totalLines : nat;
  m_commentLines : nat;
  m_commentsRatio : Q;
  m_hasReadme : bool;
  m_hasTests : bool;
  m_fileTypes : JsObject.t;
  m_codeSamples : list CodeSample;
  m_aiPatterns : AiPatterns;
  m_usedBranch : option jsstring;
  m_highlights : option (list jsstring)
}.

Import Regex.

Definition testPatterns : list regex :=
  [ lit_i (js "test");
    lit_i (js "spec");
    lit_i (js "__tests__");
    lit_i (js ".test.");
    lit_i (js ".spec.") ].

Definition isTestFile (fileName filePath : jsstring) : bool :=
  existsb (fun pattern => test pattern fileName || test pattern filePath)
    testPatterns.

Definition textExtensions : list jsstring :=
  List.map js
    [".js"; ".jsx"; ".ts"; ".tsx"; ".py"; ".java"; ".cpp"; ".c"; ".h";
     ".cs"; ".php"; ".rb"; ".go"; ".rs"; ".swift"; ".kt"; ".scala";
     ".html"; ".css"; ".scss"; ".sass"; ".less"; ".vue"; ".svelte";
     ".json"; ".xml"; ".yaml"; ".yml"; ".md"; ".txt"; ".sh"; ".bat";
     ".ps1"; ".sql"; ".r"; ".m"; ".scm"; ".lisp"; ".clj"; ".hs";
     ".ml"; ".fs"; ".vb"; ".dart"; ".elm"; ".ex"; ".exs"; ".erl"]%string.

Definition isTextFile (ext : jsstring) : bool := includes textExtensions ext.

Definition mainCodeExtensions : list jsstring :=
  List.map js
    [".js"; ".jsx"; ".ts"; ".tsx"; ".py"; ".java"; ".cpp"; ".c"; ".h";
     ".cs"; ".php"; ".rb"; ".go"; ".rs"; ".swift"; ".kt"; ".scala";
     ".vue"; ".svelte"; ".dart"; ".elm"; ".ex"; ".exs"; ".erl"]%string.

Definition isMainCodeFile (ext : jsstring) : bool :=
  includes mainCodeExtensions ext.

Definition extIs (ext : jsstring) (s : string) : bool :=
  JsString.eqb ext (js s).

Definition starts (trimmed : jsstring) (s : string) : bool :=
  startsWith trimmed (js s).

(** The branch of [countCommentLines] for one non-empty trimmed line. *)
Definition isCommentLine (ext trimmed : jsstring) : bool :=
  if extIs ext ".js" || extIs ext ".jsx" || extIs ext ".ts" || extIs ext ".tsx" then
    starts trimmed "//" || starts trimmed "/*" || starts trimmed "*"
  else if extIs ext ".py" then
    starts trimmed "#"
  else if extIs ext ".java" || extIs ext ".cpp" || extIs ext ".c" || extIs ext ".h"
          || extIs ext ".cs" then
    starts trimmed "//" || starts trimmed "/*" || starts trimmed "*"
  else if extIs ext ".html" || extIs ext ".xml" then
    starts trimmed "<!--"
  else if extIs ext ".css" || extIs ext ".scss" || extIs ext ".sass" then
    starts trimmed "/*" || starts trimmed "*"
  else if extIs ext ".sh" || extIs ext ".bat" || extIs ext ".ps1" then
    starts trimmed "#"
  else false.

Fixpoint countCommentLoop (ext : jsstring) (ls : list jsstring)
    (commentCount : nat) : nat :=
  match ls with
  | [] => commentCount
  | line :: rest =>
      let trimmed := trim line in
      if negb (truthy trimmed) then countCommentLoop ext rest commentCount
      else if isCommentLine ext trimmed
           then countCommentLoop ext rest (S commentCount)
           else countCommentLoop ext rest commentCount
  end.

Definition countCommentLines (content ext : jsstring) : nat :=
  countCommentLoop ext (split LF content) 0.

(** [line.trim().length > 0] *)
Definition nonBlank (line : jsstring) : bool :=
  (0 <? length (trim line))%nat.

(** [/\b(data|result|...)\b/g] and its two companions. *)
Definition wordList (words : list string) : regex :=
  alts (List.map (fun w => lit (js w)) words).

Definition genericPatterns : list regex :=
  [ seqs [WordBoundary;
          wordList ["data"; "result"; "value"; "item"; "temp"; "tempVar";
                    "tempValue"; "tempData"]%string;
          WordBoundary];
    seqs [WordBoundary;
          wordList ["user"; "users"; "item"; "items"; "data"; "datas";
                    "list"; "lists"]%string;
          WordBoundary];
    seqs [WordBoundary;
          wordList ["handle"; "process"; "execute"; "perform"; "do";
                    "run"]%string;
          star word;
          WordBoundary] ].

Definition LPAREN : N := 40.
Definition RPAREN : N := 41.
Definition LBRACE : N := 123.
Definition RBRACE : N := 125.

Definition boilerplatePatterns : list regex :=
  [ (* /function\s+\w+\s*\(\s*\)\s*\{[\s\S]*?\}/g *)
    seqs [lit (js "function"); plus ws; plus word; star ws; chr LPAREN;
          star ws; chr RPAREN; star ws; chr LBRACE; lazyStar any;
          chr RBRACE];
    (* /class\s+\w+\s*\{[\s\S]*?\}/g *)
    seqs [lit (js "class"); plus ws; plus word; star ws; chr LBRACE;
          lazyStar any; chr RBRACE];
    (* /const\s+\w+\s*=\s*\([^)]*\)\s*=>\s*\{[\s\S]*?\}/g *)
    seqs [lit (js "const"); plus ws; plus word; star ws; chr 61; star ws;
          chr LPAREN; star (Chr (fun c => negb (N.eqb c RPAREN)));
          chr RPAREN; star ws; lit (js "=>"); star ws; chr LBRACE;
          lazyStar any; chr RBRACE] ].

(** [patterns.forEach(p => { m = content.match(p); if (m) n += m.length })] *)
Definition sumMatches (patterns : list regex) (content : jsstring) : nat :=
  fold_left (fun n pattern => n + matchCount pattern content) patterns 0.

Definition genericCount (content : jsstring) : nat :=
  sumMatches genericPatterns content.

Definition boilerplateCount (content : jsstring) : nat :=
  sumMatches boilerplatePatterns content.

(** The length of the leading run of [\s] that [line.match] captures. *)
Definition indentation (line : jsstring) : nat :=
  length (takeWhile isWhiteSpace line).

Definition indentationsOf (ls : list jsstring) : list nat :=
  List.map indentation (filter nonBlank ls).

Definition spacesOf (indentations : list nat) : nat :=
  length (filter (fun indent => indent mod 4 =? 0) indentations).

Definition tabsOf (indentations : list nat) : nat :=
  length (filter (fun indent => (indent mod 1 =? 0) && (0 <? indent))
            indentations).

(** [line.trim().replace(/\s+/g, ' ')] *)
Definition normalize (line : jsstring) : jsstring :=
  let fix collapse (inRun : bool) (s : jsstring) : jsstring :=
    match s with
    | [] => []
    | c :: s' =>
        if isWhiteSpace c
        then if inRun then collapse true s' else SPACE :: collapse true s'
        else c :: collapse false s'
    end in
  collapse false (trim line).

(** The table [lineCounts] that [detectRepetitivePatterns] fills, and the
    number of its values above 1. *)
Definition lineCountsOf (ls : list jsstring) : JsObject.t :=
  fold_left (fun lineCounts line => JsObject.increment lineCounts (normalize line))
    ls JsObject.empty.

Definition repeatedLinesOf (ls : list jsstring) : nat :=
  length (filter JsObject.gt1 (JsObject.values (lineCountsOf ls))).

Definition extractCodeSample (content ext : jsstring) : option jsstring :=
  let ls := split LF content in
  let sample := join [LF] (firstn 50 ls) in
  let sample :=
    if (2000 <? length sample)%nat then firstn 2000 sample ++ js "..."
    else sample in
  if (100 <? length (trim sample))%nat then Some sample else None.

Section WithRuntime.

Context {F : Float64}.

(** [String.prototype.toLowerCase], the engine's. *)
Variable toLowerCase : jsstring -> jsstring.

Definition checkIndentationConsistency (ls : list jsstring) : Q :=
  let indentations := indentationsOf ls in
  if length indentations =? 0 then 1%Q
  else
    let spaces := spacesOf indentations in
    let tabs := tabsOf indentations in
    fl (Number.ofNat (Nat.max spaces tabs)
        / Number.ofNat (length indentations))%Q.

Definition detectRepetitivePatterns (content : jsstring) : Q :=
  let ls := filter nonBlank (split LF content) in
  if length ls <? 5 then 0%Q
  else fl (Number.ofNat (repeatedLinesOf ls) / Number.ofNat (length ls))%Q.

(** The four tests of [analyzeCodeContent]. *)
Definition tripsGenericNames (content : jsstring) : bool :=
  (5 <? genericCount content)%nat.

Definition tripsPerfectFormatting (content : jsstring) : bool :=
  Number.gt (checkIndentationConsistency (split LF content)) (fl (95 # 100)).

Definition tripsBoilerplateCode (content : jsstring) : bool :=
  (3 <? boilerplateCount content)%nat.

Definition tripsRepetitivePatterns (content : jsstring) : bool :=
  Number.gt (detectRepetitivePatterns content) (fl (3 # 10)).

(** [if (b) n++] *)
Definition bump (b : bool) (n : nat) : nat := if b then S n else n.

Definition analyzeCodeContent (content ext : jsstring) (stats : Stats)
  : Stats :=
  let p := aiPatterns stats in
  {| totalFiles := totalFiles stats;
     totalLines := totalLines stats;
     commentLines := commentLines stats;
     hasReadme := hasReadme stats;
     hasTests := hasTests stats;
     fileTypes := fileTypes stats;
     codeSamples := codeSamples stats;
     aiPatterns :=
       {| genericNames := bump (tripsGenericNames content) (genericNames p);
          perfectFormatting :=
            bump (tripsPerfectFormatting content) (perfectFormatting p);
          boilerplateCode :=
            bump (tripsBoilerplateCode content) (boilerplateCode p);
          repetitivePatterns :=
            bump (tripsRepetitivePatterns content) (repetitivePatterns p) |} |}.

(** [analyzeFile]: [content] is what [fs.readFile(filePath, 'utf8')]
    answers.  A failed read is caught at the end of the function, after
    the README flag, the test flag and the extension table are updated. *)
Definition analyzeFile (filePath : jsstring) (content : option jsstring)
    (stats : Stats) : Stats :=
  let fileName := Path.basename filePath in
  let ext := toLowerCase (Path.extname filePath) in
  let readme := startsWith (toLowerCase fileName) (js "readme") in
  let stats :=
    {| totalFiles := totalFiles stats;
       totalLines := totalLines stats;
       commentLines := commentLines stats;
       hasReadme := if readme then true else hasReadme stats;
       hasTests := if isTestFile fileName filePath then true
                   else hasTests stats;
       fileTypes := if truthy ext then JsObject.increment (fileTypes stats) ext
                    else fileTypes stats;
       codeSamples := codeSamples stats;
       aiPatterns := aiPatterns stats |} in
  if isTextFile ext then
    match content with
    | None => stats
    | Some content =>
        let ls := split LF content in
        let stats :=
          {| totalFiles := S (totalFiles stats);
             totalLines := totalLines stats + length ls;
             commentLines := commentLines stats + countCommentLines content ext;
             hasReadme := hasReadme stats;
             hasTests := hasTests stats;
             fileTypes := fileTypes stats;
             codeSamples := codeSamples stats;
             aiPatterns := aiPatterns stats |} in
        let stats := analyzeCodeContent content ext stats in
        if isMainCodeFile ext && (length (codeSamples stats) <? 20) then
          match extractCodeSample content ext with
          | Some sample =>
              {| totalFiles := totalFiles stats;
                 totalLines := totalLines stats;
                 commentLines := commentLines stats;
                 hasReadme := hasReadme stats;
                 hasTests := hasTests stats;
                 fileTypes := fileTypes stats;
                 codeSamples :=
                   codeSamples stats ++
                   [{| file := fileName; extension := ext; sample := sample;
                       lines := length ls |}];
                 aiPatterns := aiPatterns stats |}
          | None => stats
          end
        else stats
    end
  else stats.

Definition ignored : list jsstring :=
  List.map js ["node_modules"; "dist"; "build"; ".git"]%string.

(** [item.startsWith('.') || [...].includes(item)] *)
Definition skipped (item : jsstring) : bool :=
  startsWith item [DOT] || includes ignored item.

Definition statThrows (item : Fs.node) : bool :=
  match item with Fs.Broken _ => true | _ => false end.

(** One entry that the loop of [analyzeDirectory] does not skip, found at
    [itemPath]; for a directory, the recursive call.  [fs.stat] comes
    before the test of the name, and when it throws the [catch] of the
    enclosing call ends the loop over that directory. *)
Fixpoint analyzeItem (itemPath : jsstring) (item : Fs.node) (stats : Stats)
    {struct item} : Stats :=
  match item with
  | Fs.Dir _ entries =>
      (fix each (items : list Fs.node) (stats : Stats) {struct items}
         : Stats :=
         match items with
         | [] => stats
         | i :: rest =>
             if statThrows i then stats
             else if skipped (Fs.name i) then each rest stats
             else each rest
                    (analyzeItem (Path.join itemPath (Fs.name i)) i stats)
         end) entries stats
  | Fs.File _ content => analyzeFile itemPath content stats
  | Fs.UnreadableDir _ | Fs.Other _ | Fs.Broken _ => stats
  end.

(** [analyzeDirectory(dirPath, stats)], where [fs.readdir(dirPath)]
    answers [items]. *)
Definition analyzeDirectory (dirPath : jsstring) (items : list Fs.node)
    (stats : Stats) : Stats :=
  analyzeItem dirPath (Fs.Dir [] items) stats.

Definition emptyStats : Stats :=
  {| totalFiles := 0;
     totalLines := 0;
     commentLines := 0;
     hasReadme := false;
     hasTests := false;
     fileTypes := JsObject.empty;
     codeSamples := [];
     aiPatterns := {| genericNames := 0; perfectFormatting := 0;
                      boilerplateCode := 0; repetitivePatterns := 0 |} |}.

(** The derived metric of [computeMetrics]. *)
Definition commentsRatioOf (stats : Stats) : Q :=
  let commentsRatio :=
    if 0 <? totalLines stats
    then fl (Number.ofNat (commentLines stats)
             / Number.ofNat (totalLines stats))%Q
    else 0%Q in
  fl (inject_Z (Math_round (fl (commentsRatio * 100)%Q)) / 100)%Q.

(** [computeMetrics(repoPath)] on a repository whose root holds [root].
    Nothing inside its [try] throws: [analyzeDirectory] catches. *)
Definition computeMetrics (repoPath : jsstring) (root : list Fs.node)
  : Metrics :=
  let stats := analyzeDirectory repoPath root emptyStats in
  {| m_totalFiles := totalFiles stats;
     m_totalLines := totalLines stats;
     m_commentLines := commentLines stats;
     m_commentsRatio := commentsRatioOf stats;
     m_hasReadme := hasReadme stats;
     m_hasTests := hasTests stats;
     m_fileTypes := fileTypes stats;
     m_codeSamples := firstn 10 (codeSamples stats);
     m_aiPatterns := aiPatterns stats;
     m_usedBranch := None;
     m_highlights := None |}.

End WithRuntime.

End Analyzer.

(** ** Exceptions *)

Inductive result (A : Type) : Type :=
| Ok (a : A)
| Throw (message : jsstring).

Arguments Ok {A} a.
Arguments Throw {A} message.

(** ** [PythonIntegration] *)

Module PythonIntegration.

Import Analyzer.

(** The object that the Python analyzer prints, or the marker that
    [RepoAnalyzer.analyzeRepository] builds when the analyzer fails.
    [None]: the property is absent. *)
Record PythonMetrics : Type := {
  error : option jsstring;
  comments_score : option Q;
  naming_score : option Q;
  tests_score : option Q;
  examples_score : option Q;
  highlights : option (list jsstring)
}.

(** The marker [{ error: message }]. *)
Definition errorMarker (message : jsstring) : PythonMetrics :=
  {| error := Some message;
     comments_score := None;
     naming_score := None;
     tests_score := None;
     examples_score := None;
     highlights := None |}.

(** What [JSON.parse] answers for a line between braces: an object, of
    which [mergeMetrics] reads the six properties above.  [Typed]: the
    properties that are there have the types that the Python analyzer
    gives them, a string, four numbers and an array of strings.
    [NotIterable]: [highlights] holds a truthy value that cannot be
    spread, a number, [true] or an object, as in [{ highlights: 5 }];
    [error] is the property of that name and [typeError] the message of
    the [TypeError] that the engine throws for the spread.  A property
    of yet another type is copied by [mergeMetrics] without a look at
    it: such records are not described here. *)
Inductive ParsedRecord : Type :=
| Typed (value : PythonMetrics)
| NotIterable (error : option jsstring) (typeError : jsstring).

(** The nested property [pythonAnalysis]. *)
Inductive PythonAnalysis : Type :=
| AnalysisError (error : jsstring)
| AnalysisScores (comments_score naming_score tests_score examples_score : Q)
                 (highlights : list jsstring).

(** What [mergeMetrics] returns.  The spread of [nodeMetrics] in the error
    branch copies its [highlights] too, and that branch has no
    [combinedHighlights]. *)
Record CombinedMetrics : Type := {
  c_totalFiles : nat;
  c_totalLines : nat;
  c_commentLines : nat;
  c_commentsRatio : Q;
  c_hasReadme : bool;
  c_hasTests : bool;
  c_fileTypes : JsObject.t;
  c_usedBranch : option jsstring;
  c_codeSamples : list CodeSample;
  c_aiPatterns : AiPatterns;
  c_highlights : option (list jsstring);
  pythonAnalysis : PythonAnalysis;
  combinedHighlights : option (list jsstring);
  combined : bool
}.

(** [x || 0] on an optional number. *)
Definition orZero (x : option Q) : Q :=
  match x with
  | Some q => if Qeq_bool q 0 then 0%Q else q
  | None => 0%Q
  end.

(** [x || []] on an optional array. *)
Definition orEmpty (x : option (list jsstring)) : list jsstring :=
  match x with
  | Some l => l
  | None => []
  end.

(** [arr.indexOf(x)], from index [i] on: -1 when [x] is absent. *)
Fixpoint indexOfFrom (arr : list jsstring) (x : jsstring) (i : nat) : Z :=
  match arr with
  | [] => (-1)%Z
  | y :: arr' =>
      if JsString.eqb y x then Z.of_nat i else indexOfFrom arr' x (S i)
  end.

Definition indexOf (arr : list jsstring) (x : jsstring) : Z :=
  indexOfFrom arr x 0.

(** [arr.filter((x, index) => f x index)], from index [i] on. *)
Fixpoint filterFrom (f : jsstring -> nat -> bool) (l : list jsstring)
    (i : nat) : list jsstring :=
  match l with
  | [] => []
  | x :: l' =>
      if f x i then x :: filterFrom f l' (S i) else filterFrom f l' (S i)
  end.

(** [arr.filter((highlight, index, arr) => arr.indexOf(highlight) === index)] *)
Definition removeDuplicates (arr : list jsstring) : list jsstring :=
  filterFrom (fun highlight index => (indexOf arr highlight =? Z.of_nat index)%Z)
    arr 0.

Definition mergeMetrics (nodeMetrics : Metrics) (pythonMetrics : PythonMetrics)
  : CombinedMetrics :=
  let merged :=
    {| c_totalFiles := m_totalFiles nodeMetrics;
       c_totalLines := m_totalLines nodeMetrics;
       c_commentLines := m_commentLines nodeMetrics;
       c_commentsRatio := m_commentsRatio nodeMetrics;
       c_hasReadme := m_hasReadme nodeMetrics;
       c_hasTests := m_hasTests nodeMetrics;
       c_fileTypes := m_fileTypes nodeMetrics;
       c_usedBranch := m_usedBranch nodeMetrics;
       c_codeSamples := m_codeSamples nodeMetrics;
       c_aiPatterns := m_aiPatterns nodeMetrics;
       c_highlights := None;
       pythonAnalysis :=
         AnalysisScores (orZero (comments_score pythonMetrics))
                        (orZero (naming_score pythonMetrics))
                        (orZero (tests_score pythonMetrics))
                        (orZero (examples_score pythonMetrics))
                        (orEmpty (highlights pythonMetrics));
       combinedHighlights :=
         Some (removeDuplicates (orEmpty (m_highlights nodeMetrics)
                                 ++ orEmpty (highlights pythonMetrics)));
       combined := true |} in
  match error pythonMetrics with
  | Some message =>
      if truthy message then
        {| c_totalFiles := m_totalFiles nodeMetrics;
           c_totalLines := m_totalLines nodeMetrics;
           c_commentLines := m_commentLines nodeMetrics;
           c_commentsRatio := m_commentsRatio nodeMetrics;
           c_hasReadme := m_hasReadme nodeMetrics;
           c_hasTests := m_hasTests nodeMetrics;
           c_fileTypes := m_fileTypes nodeMetrics;
           c_usedBranch := m_usedBranch nodeMetrics;
           c_codeSamples := m_codeSamples nodeMetrics;
           c_aiPatterns := m_aiPatterns nodeMetrics;
           c_highlights := m_highlights nodeMetrics;
           pythonAnalysis := AnalysisError message;
           combinedHighlights := None;
           combined := true |}
      else merged
  | None => merged
  end.

(** [mergeMetrics] on what the adapter resolved with.  The test of
    [pythonMetrics.error] comes first; on the ordinary branch the spread
    [...(pythonMetrics.highlights || [])] throws when the property is
    truthy and not iterable, and nothing else in the function throws. *)
Definition mergeParsed (nodeMetrics : Metrics) (pythonMetrics : ParsedRecord)
  : result CombinedMetrics :=
  match pythonMetrics with
  | Typed value => Ok (mergeMetrics nodeMetrics value)
  | NotIterable error typeError =>
      match error with
      | Some message =>
          if truthy message
          then Ok (mergeMetrics nodeMetrics (errorMarker message))
          else Throw typeError
      | None => Throw typeError
      end
  end.

(** *** The child process

    The promise of [analyzeRepository] is settled by the first of: the
    [close] event, the [error] event, and the timer of 60000 ms.  The
    input is what the process does before the timer fires, in order; at
    the end of the list the timer fires. *)

Inductive event : Type :=
| StdoutData (data : jsstring)
| StderrData (data : jsstring)
| Close (code : option Z)        (* [None]: ended by a signal, [code] is null *)
| ProcessError (message : jsstring).

Inductive settlement : Type :=
| Resolved (value : ParsedRecord)
| Rejected (message : jsstring).

(** The last line that starts with an opening and ends with a closing
    brace, scanning from the end; the empty string when there is none. *)
Fixpoint findJsonLine (reversedLines : list jsstring) : jsstring :=
  match reversedLines with
  | [] => []
  | l :: rest =>
      let line := trim l in
      if startsWith line (js "{") && endsWith line (js "}") then line
      else findJsonLine rest
  end.

Definition codeToString (code : option Z) : jsstring :=
  match code with
  | Some n => JsString.ofZ n
  | None => js "null"
  end.

Section WithJson.

(** [JSON.parse], the engine's: the value, or the message of the
    [SyntaxError]. *)
Variable JSON_parse : jsstring -> result ParsedRecord.

(** The body of the [try] of the [close] handler, with its [catch]. *)
Definition parseOutput (stdout : jsstring) : settlement :=
  let ls := split LF (trim stdout) in
  let jsonLine := findJsonLine (rev ls) in
  let parsed :=
    if negb (truthy jsonLine)
    then Throw (js "No valid JSON found in Python output")
    else JSON_parse jsonLine in
  match parsed with
  | Ok value => Resolved value
  | Throw message =>
      Rejected (js "Failed to parse Python analyzer output: " ++ message)
  end.

Definition onClose (code : option Z) (stdout stderr : jsstring) : settlement :=
  match code with
  | Some 0%Z => parseOutput stdout
  | _ =>
      Rejected (js "Python analyzer failed with code " ++ codeToString code
                ++ js ": " ++ stderr)
  end.

Fixpoint settle (events : list event) (stdout stderr : jsstring)
  : settlement :=
  match events with
  | [] => Rejected (js "Python analyzer timeout")
  | StdoutData data :: rest => settle rest (stdout ++ data) stderr
  | StderrData data :: rest => settle rest stdout (stderr ++ data)
  | Close code :: _ => onClose code stdout stderr
  | ProcessError message :: _ =>
      Rejected (js "Failed to start Python analyzer: " ++ message)
  end.

(** [analyzeRepository(repoPath)], awaited. *)
Definition analyzeRepository (events : list event) : settlement :=
  settle events [] [].

End WithJson.

End PythonIntegration.

(** ** [RepoAnalyzer.analyzeRepository] *)

Module RepoAnalyzer.

Import Analyzer PythonIntegration.

Section WithRuntime.

Context {F : Float64}.
Variable toLowerCase : jsstring -> jsstring.
Variable JSON_parse : jsstring -> result ParsedRecord.

(** [nodeMetrics.usedBranch = usedBranch] *)
Definition withBranch (nodeMetrics : Metrics) (usedBranch : jsstring)
  : Metrics :=
  {| m_totalFiles := m_totalFiles nodeMetrics;
     m_totalLines := m_totalLines nodeMetrics;
     m_commentLines := m_commentLines nodeMetrics;
     m_commentsRatio := m_commentsRatio nodeMetrics;
     m_hasReadme := m_hasReadme nodeMetrics;
     m_hasTests := m_hasTests nodeMetrics;
     m_fileTypes := m_fileTypes nodeMetrics;
     m_codeSamples := m_codeSamples nodeMetrics;
     m_aiPatterns := m_aiPatterns nodeMetrics;
     m_usedBranch := Some usedBranch;
     m_highlights := m_highlights nodeMetrics |}.

(** The inner [try] of [analyzeRepository]: the Python metrics, or the
    marker of the failure that is caught. *)
Definition runPython (events : list event) : ParsedRecord :=
  match PythonIntegration.analyzeRepository JSON_parse events with
  | Resolved value => value
  | Rejected message => Typed (errorMarker message)
  end.

(** [analyzeRepository(repoUrl, branch)]: [cloned] is what [cloneRepo]
    answers (the branch it used, or what it throws), [root] the content of
    the clone at [tempRepoPath], [events] the run of the Python
    analyzer.  The clone and the merge are both inside the outer [try]:
    what either throws is thrown again by the [catch], behind its
    prefix. *)
Definition analyzeRepository (cloned : result jsstring)
    (tempRepoPath : jsstring) (root : list Fs.node) (events : list event)
  : result CombinedMetrics :=
  match cloned with
  | Throw message => Throw (js "Failed to analyze repository: " ++ message)
  | Ok usedBranch =>
      let nodeMetrics :=
        withBranch (computeMetrics toLowerCase tempRepoPath root) usedBranch in
      let pythonMetrics := runPython events in
      match mergeParsed nodeMetrics pythonMetrics with
      | Ok combinedMetrics => Ok combinedMetrics
      | Throw message =>
          Throw (js "Failed to analyze repository: " ++ message)
      end
  end.

End WithRuntime.

End RepoAnalyzer.

(** ** [RepoAnalyzer.cloneRepo] *)

Module Cloning.

(** The branches that [cloneRepo] tries when no branch is asked for, or
    when the branch asked for cannot be cloned. *)
Definition defaultBranches : list jsstring :=
  List.map js ["main"; "master"; "develop"; "dev"; "trunk"]%string.

Section WithGit.

(** [fs.ensureDir(this.tempDir)] and [simpleGit()]: what they throw. *)
Variable setup : result unit.

(** [git.clone(repoUrl, targetPath, options)]: what the call number [n]
    of one run of [cloneRepo] answers, with [--branch b] for [Some b]
    and without the option for [None]. *)
Variable git : nat -> option jsstring -> result unit.

(** The loop over the branches: the first branch that clones, the calls
    being numbered from [n]. *)
Fixpoint tryBranches (n : nat) (branches : list jsstring) : option jsstring :=
  match branches with
  | [] => None
  | branch :: rest =>
      match git n (Some branch) with
      | Ok _ => Some branch
      | Throw _ => tryBranches (S n) rest
      end
  end.

(** [cloneRepo(repoUrl, targetPath, specificBranch)]: the branch used, or
    what the outer [catch] throws. *)
Definition cloneRepo (specificBranch : option jsstring) : result jsstring :=
  match setup with
  | Throw message => Throw (js "Failed to clone repository: " ++ message)
  | Ok _ =>
      let asked :=
        match specificBranch with
        | Some branch => truthy branch
        | None => false
        end in
      let specific :=
        match specificBranch with
        | Some branch =>
            if truthy branch then
              match git 0 (Some branch) with
              | Ok _ => Some branch
              | Throw _ => None
              end
            else None
        | None => None
        end in
      let n := if asked then 1 else 0 in
      match specific with
      | Some branch => Ok branch
      | None =>
          match tryBranches n defaultBranches with
          | Some branch => Ok branch
          | None =>
              match git (n + length defaultBranches) None with
              | Ok _ => Ok (js "default")
              | Throw message =>
                  Throw (js "Failed to clone repository: "
                         ++ js "Failed to clone repository with any branch: "
                         ++ message)
              end
          end
      end
  end.

End WithGit.

End Cloning.

(** ** The server: [backend/index.js] *)

Module Server.

(** [str.includes(part)] *)
Fixpoint includesText (s part : jsstring) : bool :=
  startsWith s part ||
  match s with
  | [] => false
  | _ :: s' => includesText s' part
  end.

(** The status code that the [catch] of the [/analyze] handler chooses
    for the message of an error. *)
Definition statusCode (message : jsstring) : nat :=
  if includesText message (js "Invalid GitHub URL")
     || includesText message (js "Missing required parameter")
  then 400
  else if includesText message (js "Failed to clone repository") then 404
  else 500.

(** [urlObj.pathname.split('/').filter(part => part.length > 0)] *)
Definition pathPartsOf (pathname : jsstring) : list jsstring :=
  filter (fun part => 0 <? length part) (split SLASH pathname).

(** [repo.slice(0, -4)] *)
Definition dropLast4 (repo : jsstring) : jsstring :=
  firstn (length repo - 4) repo.

Record RepoInfo : Type := {
  baseUrl : jsstring;
  branch : option jsstring
}.

Section WithUrl.

(** [new URL(url)], the engine's: the host name and the path name, or
    [None] when the constructor throws. *)
Variable URL_parse : jsstring -> option (jsstring * jsstring).

Definition isValidGitHubUrl (url : jsstring) : bool :=
  match URL_parse url with
  | None => false
  | Some (hostname, pathname) =>
      let isValidHost :=
        JsString.eqb hostname (js "github.com")
        || JsString.eqb hostname (js "www.github.com") in
      if negb isValidHost then false
      else
        let pathParts := pathPartsOf pathname in
        (2 <=? length pathParts)
        && negb (endsWith (nth 1 pathParts []) (js ".git"))
  end.

(** [extractRepoInfo(url)]. With fewer than two parts [repo] is
    undefined, [repo.endsWith] throws and the [catch] answers the
    original URL. *)
Definition extractRepoInfo (url : jsstring) : RepoInfo :=
  match URL_parse url with
  | None => {| baseUrl := url; branch := None |}
  | Some (_, pathname) =>
      match pathPartsOf pathname with
      | user :: repo :: rest =>
          let cleanRepo :=
            if endsWith repo (js ".git") then dropLast4 repo else repo in
          {| baseUrl := js "https://github.com/" ++ user ++ js "/" ++ cleanRepo;
             branch :=
               match rest with
               | kind :: name :: _ =>
                   if JsString.eqb kind (js "tree")
                      || JsString.eqb kind (js "blob")
                   then Some name else None
               | _ => None
               end |}
      | _ => {| baseUrl := url; branch := None |}
      end
  end.

End WithUrl.

End Server.

(** * The vocabulary of the properties *)

Import Analyzer PythonIntegration.

(** ** Instances of the runtime, for closed examples *)

(** Exact arithmetic is a rounding operator: nothing is rounded. *)
#[export] Instance ExactArithmetic : Float64 :=
  {| fl := fun x => x;
     fl_mono := fun x y H => H;
     fl_zero := Qeq_refl 0;
     fl_error := fun x _ _ =>
       ltac:(setoid_replace (x - x)%Q with 0%Q by ring;
             apply Qmult_le_0_compat; [discriminate | apply Qabs_nonneg]) |}.

(** [toLowerCase] on ASCII strings. *)
Definition asciiLowerCase (s : jsstring) : jsstring :=
  List.map (fun c => if ((65 <=? c) && (c <=? 90))%N then (c + 32)%N else c) s.

(** A [JSON.parse] that refuses every text. *)
Definition rejectingParse (text : jsstring)
  : result PythonIntegration.ParsedRecord :=
  Throw (js "Unexpected token").

(** The metrics of an empty repository cloned from [main]. *)
Definition emptyRepositoryMetrics : Analyzer.Metrics :=
  RepoAnalyzer.withBranch
    (Analyzer.computeMetrics asciiLowerCase (js "/tmp/repo") [])
    (js "main").

(** ** The comment counter *)

(** The extensions that [countCommentLines] has a prefix table for. *)
Definition commentExtensions : list jsstring :=
  List.map js
    [".js"; ".jsx"; ".ts"; ".tsx"; ".py"; ".java"; ".cpp"; ".c"; ".h";
     ".cs"; ".html"; ".xml"; ".css"; ".scss"; ".sass"; ".sh"; ".bat";
     ".ps1"]%string.

(** Text formats without a prefix table. *)
Definition uncommentedTextExtensions : list jsstring :=
  List.map js [".md"; ".json"; ".yaml"; ".go"; ".rb"; ".rs"; ".php"]%string.

(** No more comment lines than lines. *)
Definition commentsWithinLines (stats : Stats) : Prop :=
  commentLines stats <= totalLines stats.

(** ** The pattern detector *)

(** What one file adds to the counter of a signal. *)
Definition once (tripped : bool) : nat := if tripped then 1 else 0.

(** The non-empty lines whose leading whitespace holds a tab. *)
Definition tabIndented (content : jsstring) : list jsstring :=
  filter (fun line => existsb (N.eqb 9) (takeWhile isWhiteSpace line))
    (filter Analyzer.nonBlank (split LF content)).

(** The number of times a form occurs among the normalized lines. *)
Definition occurrences (forms : list jsstring) (form : jsstring) : nat :=
  count_occ JsString.eq_dec forms form.

(** The lines whose form occurs more than once. *)
Definition linesOfRepeatedForms (forms : list jsstring) : list jsstring :=
  filter (fun form => 1 <? occurrences forms form) forms.

(** ** Lists of strings without duplicates *)

(** The strings of a list in the order of their first occurrence:
    [seen] holds the strings that came before. *)
Fixpoint firstOccurrences (seen l : list jsstring) : list jsstring :=
  match l with
  | [] => []
  | x :: l' =>
      if includes seen x then firstOccurrences seen l'
      else x :: firstOccurrences (x :: seen) l'
  end.

(** The distinct forms that occur more than once. *)
Definition repeatedForms (forms : list jsstring) : list jsstring :=
  filter (fun form => 1 <? occurrences forms form) (firstOccurrences [] forms).

(** The table that counts every key of [keys] with [count]. *)
Definition tableOf (count : jsstring -> nat) (keys : list jsstring)
  : JsObject.t :=
  List.map (fun k => (k, JsObject.VNum (count k))) keys.

(** ** The metrics merger *)

(** Every field of the repository metrics is in the combined metrics,
    unchanged. *)
Definition carries (c : CombinedMetrics) (m : Metrics) : Prop :=
  c_totalFiles c = m_totalFiles m /\
  c_totalLines c = m_totalLines m /\
  c_commentLines c = m_commentLines m /\
  c_commentsRatio c = m_commentsRatio m /\
  c_hasReadme c = m_hasReadme m /\
  c_hasTests c = m_hasTests m /\
  c_fileTypes c = m_fileTypes m /\
  c_usedBranch c = m_usedBranch m /\
  c_codeSamples c = m_codeSamples m /\
  c_aiPatterns c = m_aiPatterns m.

(** The score that the merger nests for a score of the Python metrics:
    the score, and 0 when it is missing. *)
Definition scoreOrZero (score : option Q) : Q :=
  match score with
  | Some q => q
  | None => 0%Q
  end.

(** ** The run of the Python analyzer *)

Definition isData (e : event) : bool :=
  match e with
  | StdoutData _ | StderrData _ => true
  | Close _ | ProcessError _ => false
  end.

(** What the handlers of [data] have accumulated. *)
Fixpoint stdoutOf (events : list event) : jsstring :=
  match events with
  | [] => []
  | StdoutData data :: rest => data ++ stdoutOf rest
  | _ :: rest => stdoutOf rest
  end.

Fixpoint stderrOf (events : list event) : jsstring :=
  match events with
  | [] => []
  | StderrData data :: rest => data ++ stderrOf rest
  | _ :: rest => stderrOf rest
  end.

(** A line that looks like a record: [{ ... }] once trimmed. *)
Definition looksLikeRecord (line : jsstring) : bool :=
  startsWith (trim line) (js "{") && endsWith (trim line) (js "}").

Section FailureModes.

Variable JSON_parse : jsstring -> result ParsedRecord.

(** The three failures of the secondary analyzer: a non-zero exit, an
    output without a record that parses, and the timeout. [output] is
    what the process wrote before the event that settles the promise. *)
Inductive Fails : list event -> Prop :=
| fails_exit (output rest : list event) (code : option Z) :
    forallb isData output = true -> code <> Some 0%Z ->
    Fails (output ++ Close code :: rest)
| fails_parse (output rest : list event) :
    forallb isData output = true ->
    (forall line, In line (split LF (trim (stdoutOf output))) ->
                  looksLikeRecord line = true ->
                  exists message, JSON_parse (trim line) = Throw message) ->
    Fails (output ++ Close (Some 0%Z) :: rest)
| fails_timeout (output : list event) :
    forallb isData output = true ->
    Fails output.

End FailureModes.

(** ** The directory walker *)

(** The names that the walker passes over. *)
Definition ignoredName (item : jsstring) : Prop :=
  startsWith item (js ".") = true \/
  In item (List.map js ["node_modules"; "dist"; "build"; ".git"]%string).

(** Two listings that differ at most below entries with an ignored name:
    such an entry may be any file or directory on either side, as long as
    [stat] answers on both. *)
Inductive sameOutsideIgnored : list Fs.node -> list Fs.node -> Prop :=
| same_nil : sameOutsideIgnored [] []
| same_ignored (a b : Fs.node) (rest1 rest2 : list Fs.node) :
    Fs.name a = Fs.name b -> ignoredName (Fs.name a) ->
    statThrows a = false -> statThrows b = false ->
    sameOutsideIgnored rest1 rest2 ->
    sameOutsideIgnored (a :: rest1) (b :: rest2)
| same_dir (name : jsstring) (entries1 entries2 rest1 rest2 : list Fs.node) :
    sameOutsideIgnored entries1 entries2 ->
    sameOutsideIgnored rest1 rest2 ->
    sameOutsideIgnored (Fs.Dir name entries1 :: rest1)
                       (Fs.Dir name entries2 :: rest2)
| same_entry (a : Fs.node) (rest1 rest2 : list Fs.node) :
    sameOutsideIgnored rest1 rest2 ->
    sameOutsideIgnored (a :: rest1) (a :: rest2).

(** ** Code samples *)

(** [first] is the content up to the end of its [n]th line: the whole
    content when it has fewer than [n] line feeds, and otherwise what
    comes before its [n]th line feed. *)
Definition upToLine (n : nat) (content first : jsstring) : Prop :=
  (count_occ N.eq_dec content LF < n /\ first = content) \/
  (exists rest,
      content = first ++ LF :: rest /\
      S (count_occ N.eq_dec first LF) = n).

(** [first], cut after 2000 code units and marked with three dots when
    it is longer. *)
Definition cutAt2000 (first : jsstring) : jsstring :=
  if 2000 <? length first then firstn 2000 first ++ js "..." else first.

(** Sixty times the same line, and fifty times. *)
Definition sixtyLines : jsstring :=
  join [LF] (repeat (js "  total += price * quantity;") 60).

Definition fiftyLines : jsstring :=
  join [LF] (repeat (js "  total += price * quantity;") 50).

(** ** The statistics along the walk *)

(** The counters of [b] are at least those of [a], a flag that is set in
    [a] is set in [b], and the samples of [a] open the samples of [b]. *)
Definition statsLe (a b : Stats) : Prop :=
  totalFiles a <= totalFiles b /\
  totalLines a <= totalLines b /\
  commentLines a <= commentLines b /\
  (hasReadme a = true -> hasReadme b = true) /\
  (hasTests a = true -> hasTests b = true) /\
  genericNames (aiPatterns a) <= genericNames (aiPatterns b) /\
  perfectFormatting (aiPatterns a) <= perfectFormatting (aiPatterns b) /\
  boilerplateCode (aiPatterns a) <= boilerplateCode (aiPatterns b) /\
  repetitivePatterns (aiPatterns a) <= repetitivePatterns (aiPatterns b) /\
  exists more, codeSamples b = codeSamples a ++ more.

(** Every counted file has a line, and no signal is counted more often
    than files are. *)
Definition countersWithinFiles (stats : Stats) : Prop :=
  totalFiles stats <= totalLines stats /\
  genericNames (aiPatterns stats) <= totalFiles stats /\
  perfectFormatting (aiPatterns stats) <= totalFiles stats /\
  boilerplateCode (aiPatterns stats) <= totalFiles stats /\
  repetitivePatterns (aiPatterns stats) <= totalFiles stats /\
  length (codeSamples stats) <= totalFiles stats.

(** A sample as [analyzeFile] stores it. *)
Definition wellFormedSample (s : CodeSample) : Prop :=
  isMainCodeFile (extension s) = true /\
  isTextFile (extension s) = true /\
  length (sample s) <= 2003 /\
  100 < length (trim (sample s)) /\
  1 <= lines s.

Definition samplesWithinCap (stats : Stats) : Prop :=
  length (codeSamples stats) <= 20 /\
  Forall wellFormedSample (codeSamples stats).

(** The walk of [items], found at [dirPath], reaches the file at
    [filePath]: the entries before it in its directory answer [stat],
    and neither the file nor a directory above it has a name that is
    skipped. *)
Inductive reaches : jsstring -> list Fs.node -> jsstring -> option jsstring
                    -> Prop :=
| reaches_file (dirPath name : jsstring) (content : option jsstring)
    (before rest : list Fs.node) :
    existsb statThrows before = false -> skipped name = false ->
    reaches dirPath (before ++ Fs.File name content :: rest)
      (Path.join dirPath name) content
| reaches_below (dirPath name filePath : jsstring)
    (content : option jsstring) (entries before rest : list Fs.node) :
    existsb statThrows before = false -> skipped name = false ->
    reaches (Path.join dirPath name) entries filePath content ->
    reaches dirPath (before ++ Fs.Dir name entries :: rest) filePath content.

(** ** Test files *)

(** [part] occurs in [s], the ASCII letters compared without their
    case. *)
Definition containsIgnoringCase (s part : jsstring) : Prop :=
  exists before found after,
    s = before ++ found ++ after /\
    List.map Regex.canonicalize found = List.map Regex.canonicalize part.

(** The same, decided the way the matcher proceeds: at this position,
    or further on. *)
Fixpoint foldStarts (s part : jsstring) : bool :=
  match part, s with
  | [], _ => true
  | c :: part', x :: s' =>
      N.eqb (Regex.canonicalize x) (Regex.canonicalize c) && foldStarts s' part'
  | _ :: _, [] => false
  end.

Fixpoint foldContains (s part : jsstring) : bool :=
  foldStarts s part ||
  match s with
  | [] => false
  | _ :: s' => foldContains s' part
  end.

(** A [JSON.parse] that is known at one text, and refuses every other. *)
Definition parseKnownAt (known : jsstring)
    (value : PythonIntegration.ParsedRecord) (text : jsstring)
  : result PythonIntegration.ParsedRecord :=
  if JsString.eqb text known then Ok value else Throw (js "Unexpected token").

(** The record [{ highlights: [a, a] }] and its text, with code unit 34
    for the quotation mark. *)
Definition twoHighlights : PythonIntegration.PythonMetrics :=
  {| error := None;
     comments_score := None;
     naming_score := None;
     tests_score := None;
     examples_score := None;
     highlights := Some [js "a"; js "a"] |}.

Definition twoHighlightsText : jsstring :=
  js "{" ++ [34%N] ++ js "highlights" ++ [34%N] ++ js ":["
  ++ [34%N] ++ js "a" ++ [34%N] ++ js "," ++ [34%N] ++ js "a" ++ [34%N]
  ++ js "]}".

(** The record [{ highlights: 5 }] and its text, with the message that
    Node gives for the spread of a number. *)
Definition numberForHighlights : PythonIntegration.ParsedRecord :=
  NotIterable None (js "pythonMetrics.highlights is not iterable").

Definition numberForHighlightsText : jsstring :=
  js "{" ++ [34%N] ++ js "highlights" ++ [34%N] ++ js ":5}".

(** ** Cloning *)

(** The clones that [cloneRepo] attempts, in order: the branch asked
    for, when there is one, the five usual branches, and the clone
    without a branch. *)
Definition attempts (specificBranch : option jsstring)
  : list (option jsstring) :=
  match specificBranch with
  | Some branch => if truthy branch then [Some branch] else []
  | None => []
  end ++ List.map Some Cloning.defaultBranches ++ [None].

(** The branch that [cloneRepo] answers for an attempt. *)
Definition branchName (attempt : option jsstring) : jsstring :=
  match attempt with
  | Some branch => branch
  | None => js "default"
  end.

(** A remote that has one branch, [existing]: a clone of another branch
    fails, a clone without a branch succeeds. *)
Definition gitWithBranch (existing : jsstring) (n : nat)
    (attempt : option jsstring) : result unit :=
  match attempt with
  | Some branch =>
      if JsString.eqb branch existing then Ok tt
      else Throw (js "Remote branch not found")
  | None => Ok tt
  end.

(** A remote that cannot be reached. *)
Definition gitUnreachable (n : nat) (attempt : option jsstring)
  : result unit :=
  Throw (js "Repository not found").

(** ** Addresses *)

(** A [new URL] that is known at one address, and throws at every
    other. *)
Definition urlKnownAt (known hostname pathname : jsstring) (url : jsstring)
  : option (jsstring * jsstring) :=
  if JsString.eqb url known then Some (hostname, pathname) else None.

(** The address of a file on a branch whose name holds a slash. *)
Definition branchAddress : jsstring :=
  js "https://www.github.com/rajank18/LOL-VibeCoder/tree/feature/x".

Definition parseBranchAddress : jsstring -> option (jsstring * jsstring) :=
  urlKnownAt branchAddress (js "www.github.com")
    (js "/rajank18/LOL-VibeCoder/tree/feature/x").

(** ** Counting tables *)

(** The sum of the counts that a table holds. *)
Definition weight (o : JsObject.t) : nat :=
  list_sum (List.map (fun entry => match snd entry with
                                   | JsObject.VNum n => n
                                   | JsObject.VStr => 0
                                   end) o).

(** * Properties *)

(** ** The model on small inputs *)

Example trim_strips_unicode_space :
  trim (65279 :: js "  // note 	")%N = js "// note".
Proof. reflexivity. Qed.

Example split_keeps_empty_lines :
  split LF (js "a

b
") = [js "a"; []; js "b"; []].
Proof. reflexivity. Qed.

Example extname_of_paths :
  List.map Path.extname
    [js "/tmp/repo/src/App.test.JSX"; js "/tmp/repo/Makefile";
     js "/tmp/repo/.eslintrc"; js "/tmp/repo.d/notes."]
  = [js ".JSX"; []; []; js "."].
Proof. reflexivity. Qed.

Example generic_names_are_whole_words :
  genericCount (js "data tempVar temp_x items; handleClick(user)") = 6.
Proof. vm_compute. reflexivity. Qed.

Example boilerplate_takes_the_first_closing_brace :
  boilerplateCount
    (js "function a() { if (x) { y } }
class B { }
const c = (p, q) => { return p }
function d(x) { }")
  = 3.
Proof. vm_compute. reflexivity. Qed.

Example test_file_by_directory :
  isTestFile (js "index.js") (js "/tmp/repo/latest/index.js") = true /\
  isTestFile (js "index.js") (js "/tmp/repo/src/index.js") = false.
Proof. split; vm_compute; reflexivity. Qed.

Example normalize_collapses_whitespace :
  normalize (js "   return   a +	b;  ") = js "return a + b;".
Proof. reflexivity. Qed.

Example line_named_like_a_member_is_never_repeated :
  let ls := [js "toString"; js "toString"; js "x"; js "x"] in
  lineCountsOf ls = [(js "toString", JsObject.VStr); (js "x", JsObject.VNum 2)]
  /\ repeatedLinesOf ls = 1.
Proof. split; reflexivity. Qed.

Example last_record_line_is_parsed :
  PythonIntegration.analyzeRepository
    (fun text => Ok (Typed (errorMarker text)))
    [StdoutData (js "{ first }
Analyzing
  { se"); StdoutData (js "cond }  
done
"); Close (Some 0%Z)]
  = Resolved (Typed (errorMarker (js "{ second }"))).
Proof. reflexivity. Qed.

Example exit_code_in_message :
  PythonIntegration.analyzeRepository rejectingParse
    [StderrData (js "boom"); Close (Some 2%Z)]
  = Rejected (js "Python analyzer failed with code 2: boom").
Proof. reflexivity. Qed.

(** Ten files, a thousand lines, a hundred comment lines. *)
Example comments_ratio_of_a_tenth :
  (commentsRatioOf
     {| totalFiles := 10; totalLines := 1000; commentLines := 100;
        hasReadme := true; hasTests := false; fileTypes := JsObject.empty;
        codeSamples := []; aiPatterns := aiPatterns emptyStats |}
   == 1 # 10)%Q.
Proof. vm_compute. reflexivity. Qed.

(** ** Strings *)

Lemma eqb_eq (a b : jsstring) : JsString.eqb a b = true <-> a = b.
Proof.
  revert b; induction a as [|x a IH]; intros [|y b]; simpl;
    try (split; [discriminate | discriminate]); [tauto |].
  rewrite andb_true_iff, N.eqb_eq, IH.
  split; [intros [-> ->]; reflexivity | intros H; inversion H; auto].
Qed.

Lemma eqb_refl (a : jsstring) : JsString.eqb a a = true.
Proof. apply eqb_eq; reflexivity. Qed.

Lemma eqb_neq (a b : jsstring) : JsString.eqb a b = false <-> a <> b.
Proof.
  rewrite <- eqb_eq. destruct (JsString.eqb a b); split; congruence.
Qed.

Lemma includes_In (arr : list jsstring) (x : jsstring) :
  includes arr x = true <-> In x arr.
Proof.
  unfold includes. rewrite existsb_exists. split.
  - intros [y [Hy Heq]]. apply eqb_eq in Heq. subst; assumption.
  - intros H. exists x. split; [assumption | apply eqb_refl].
Qed.

Lemma truthy_length (s : jsstring) : truthy s = (0 <? length s).
Proof. destruct s; reflexivity. Qed.

(** ** The comment counter *)

Section CommentCounter.

Lemma extIs_outside (ext : jsstring) (s : string) :
  ~ In ext commentExtensions -> In (js s) commentExtensions ->
  extIs ext s = false.
Proof.
  intros Hout Hin. unfold extIs. apply eqb_neq. intros ->. contradiction.
Qed.

Lemma isCommentLine_outside (ext trimmed : jsstring) :
  ~ In ext commentExtensions -> isCommentLine ext trimmed = false.
Proof.
  intros Hout. unfold isCommentLine.
  repeat match goal with
  | |- context [extIs ext ?s] =>
      rewrite (extIs_outside ext s Hout)
        by (vm_compute; repeat (first [left; reflexivity | right]))
  end.
  reflexivity.
Qed.

Lemma countCommentLoop_outside (ext : jsstring) (ls : list jsstring) (n : nat) :
  ~ In ext commentExtensions -> countCommentLoop ext ls n = n.
Proof.
  intros Hout. revert n. induction ls as [|l ls IH]; intros n; simpl.
  - reflexivity.
  - rewrite (isCommentLine_outside _ _ Hout).
    destruct (negb (truthy (trim l))); apply IH.
Qed.

Lemma countCommentLoop_bound (ext : jsstring) (ls : list jsstring) (n : nat) :
  countCommentLoop ext ls n <= n + length (filter nonBlank ls).
Proof.
  revert n. induction ls as [|l ls IH]; intros n; simpl.
  - lia.
  - unfold nonBlank at 1. rewrite truthy_length.
    destruct (0 <? length (trim l)); simpl.
    + destruct (isCommentLine ext (trim l)).
      * specialize (IH (S n)). lia.
      * specialize (IH n). lia.
    + apply IH.
Qed.

Lemma analyzeFile_text_lines {F : Float64}
    (toLowerCase : jsstring -> jsstring)
    (filePath content : jsstring) (stats : Stats) :
  let ext := toLowerCase (Path.extname filePath) in
  let stats' := analyzeFile toLowerCase filePath (Some content) stats in
  isTextFile ext = true ->
  totalFiles stats' = S (totalFiles stats) /\
  totalLines stats' = totalLines stats + length (split LF content) /\
  commentLines stats' = commentLines stats + countCommentLines content ext.
Proof.
  intros ext stats' Htext. subst stats'. unfold analyzeFile.
  fold ext. rewrite Htext.
  destruct (isMainCodeFile ext && _); [destruct (extractCodeSample _ _) |];
    simpl; auto.
Qed.

(** C10. Outside the six families of extensions the comment counter
    answers 0; the formats .md, .json, .yaml, .go, .rb, .rs and .php are
    text files outside the families, so that a file of such a format adds
    its lines to [totalLines] and nothing to [commentLines]; and for every
    content and extension the count is at most the number of non-empty
    lines. *)
Theorem comment_counter_outside_families :
  (forall content ext : jsstring,
      ~ In ext commentExtensions -> countCommentLines content ext = 0) /\
  (forall ext : jsstring,
      In ext uncommentedTextExtensions ->
      isTextFile ext = true /\ ~ In ext commentExtensions) /\
  (forall (F : Float64) (toLowerCase : jsstring -> jsstring)
          (filePath content : jsstring) (stats : Stats),
      let ext := toLowerCase (Path.extname filePath) in
      let stats' := analyzeFile toLowerCase filePath (Some content) stats in
      isTextFile ext = true -> ~ In ext commentExtensions ->
      totalLines stats' = totalLines stats + length (split LF content) /\
      commentLines stats' = commentLines stats) /\
  (forall content ext : jsstring,
      countCommentLines content ext
      <= length (filter nonBlank (split LF content))).
Proof.
  split; [| split; [| split]].
  - intros content ext Hout. unfold countCommentLines.
    apply countCommentLoop_outside; assumption.
  - intros ext Hin. simpl in Hin.
    repeat (destruct Hin as [<- | Hin];
            [split; [reflexivity
                    | intros H; simpl in H;
                      repeat (destruct H as [H | H]; [discriminate H |]);
                      exact H] |]).
    contradiction.
  - intros F toLowerCase filePath content stats ext stats' Htext Hout.
    destruct (analyzeFile_text_lines toLowerCase filePath content stats Htext)
      as (_ & Hlines & Hcomments).
    fold ext in Hcomments. fold stats' in Hlines, Hcomments.
    split; [exact Hlines |].
    rewrite Hcomments. unfold countCommentLines.
    rewrite countCommentLoop_outside by assumption. lia.
  - intros content ext. unfold countCommentLines.
    apply (countCommentLoop_bound ext (split LF content) 0).
Qed.

(** A Markdown file of three lines, one of them starting like a comment
    of a shell script. *)
Lemma comment_counter_outside_families_witness :
  let content := js "# title
text
" in
  let stats' :=
    Analyzer.analyzeFile asciiLowerCase (js "/repo/docs/NOTES.MD")
      (Some content) Analyzer.emptyStats in
  countCommentLines content (js ".md") = 0 /\
  totalLines stats' = 3 /\ commentLines stats' = 0.
Proof.
  intros content stats'.
  destruct comment_counter_outside_families as (H1 & H2 & H3 & _).
  assert (Hmd : In (js ".md") uncommentedTextExtensions)
    by (vm_compute; auto).
  destruct (H2 _ Hmd) as [Htext Hout].
  split; [apply H1; exact Hout |].
  exact (H3 ExactArithmetic asciiLowerCase (js "/repo/docs/NOTES.MD")
           content Analyzer.emptyStats Htext Hout).
Defined.

End CommentCounter.

(** ** The pattern counters *)

Section PatternCounters.

Context {F : Float64}.

Lemma bump_once (tripped : bool) (n : nat) : bump tripped n = n + once tripped.
Proof. destruct tripped; simpl; lia. Qed.

Lemma analyzeCodeContent_counters (content ext : jsstring) (stats : Stats) :
  let before := aiPatterns stats in
  let after := aiPatterns (analyzeCodeContent content ext stats) in
  genericNames after = genericNames before + once (tripsGenericNames content) /\
  perfectFormatting after
  = perfectFormatting before + once (tripsPerfectFormatting content) /\
  boilerplateCode after
  = boilerplateCode before + once (tripsBoilerplateCode content) /\
  repetitivePatterns after
  = repetitivePatterns before + once (tripsRepetitivePatterns content).
Proof.
  intros before after. subst before after. simpl.
  rewrite !bump_once. repeat split; reflexivity.
Qed.

(** Of a text file that can be read, [analyzeFile] changes the counters
    through its one call of [analyzeCodeContent]. *)
Lemma analyzeFile_aiPatterns (toLowerCase : jsstring -> jsstring)
    (filePath content : jsstring) (stats : Stats) :
  let ext := toLowerCase (Path.extname filePath) in
  isTextFile ext = true ->
  aiPatterns (analyzeFile toLowerCase filePath (Some content) stats)
  = aiPatterns (analyzeCodeContent content ext stats).
Proof.
  intros ext Htext. unfold analyzeFile. fold ext. rewrite Htext.
  destruct (isMainCodeFile ext && _); [destruct (extractCodeSample _ _) |];
    reflexivity.
Qed.

(** C5. For every text file that the analyzer reads, each of the four
    counters grows by exactly 1 when its signal trips and stays as it is
    otherwise; a file with more than 5 matches of the three generic-name
    patterns adds exactly 1 to [genericNames], however many matches it
    has. *)
Theorem tripped_signal_counts_once (toLowerCase : jsstring -> jsstring)
    (filePath content : jsstring) (stats : Stats) :
  let ext := toLowerCase (Path.extname filePath) in
  let before := aiPatterns stats in
  let after :=
    aiPatterns (analyzeFile toLowerCase filePath (Some content) stats) in
  isTextFile ext = true ->
  genericNames after = genericNames before + once (tripsGenericNames content) /\
  perfectFormatting after
  = perfectFormatting before + once (tripsPerfectFormatting content) /\
  boilerplateCode after
  = boilerplateCode before + once (tripsBoilerplateCode content) /\
  repetitivePatterns after
  = repetitivePatterns before + once (tripsRepetitivePatterns content) /\
  (5 < genericCount content -> genericNames after = genericNames before + 1).
Proof.
  intros ext before after Htext. subst after.
  rewrite (analyzeFile_aiPatterns toLowerCase filePath content stats Htext).
  destruct (analyzeCodeContent_counters content ext stats)
    as (Hg & Hp & Hb & Hr).
  repeat (split; [assumption |]).
  intros Hmany. apply Nat.ltb_lt in Hmany.
  unfold tripsGenericNames in Hg. rewrite Hmany in Hg. exact Hg.
Qed.

End PatternCounters.

(** Six matches and eleven matches: one increment each. *)
Lemma tripped_signal_counts_once_witness :
  let six := js "data data data" in
  let eleven := js "const data = handle(data); run(item, temp); return data;" in
  let after content :=
    Analyzer.aiPatterns
      (Analyzer.analyzeFile asciiLowerCase (js "/tmp/repo/src/app.js")
         (Some content) Analyzer.emptyStats) in
  Analyzer.genericCount six = 6 /\
  Analyzer.genericCount eleven = 11 /\
  Analyzer.genericNames (after six) = 1 /\
  Analyzer.genericNames (after eleven) = 1.
Proof.
  intros six eleven after.
  assert (H6 : Analyzer.genericCount six = 6) by (vm_compute; reflexivity).
  assert (H11 : Analyzer.genericCount eleven = 11) by (vm_compute; reflexivity).
  split; [exact H6 | split; [exact H11 | split]].
  - apply (tripped_signal_counts_once asciiLowerCase
             (js "/tmp/repo/src/app.js") six Analyzer.emptyStats);
      [reflexivity |].
    rewrite H6. apply Nat.ltb_lt. reflexivity.
  - apply (tripped_signal_counts_once asciiLowerCase
             (js "/tmp/repo/src/app.js") eleven Analyzer.emptyStats);
      [reflexivity |].
    rewrite H11. apply Nat.ltb_lt. reflexivity.
Defined.

(** ** The metrics merger *)

Section Merger.

Lemma mergeMetrics_carries (nodeMetrics : Metrics) (pythonMetrics : PythonMetrics) :
  carries (mergeMetrics nodeMetrics pythonMetrics) nodeMetrics /\
  combined (mergeMetrics nodeMetrics pythonMetrics) = true.
Proof.
  unfold mergeMetrics, carries.
  destruct (error pythonMetrics) as [message|];
    [destruct (truthy message) |]; simpl; repeat split.
Qed.

Lemma mergeMetrics_error_branch
    (nodeMetrics : Metrics) (pythonMetrics : PythonMetrics)
    (message : jsstring) :
  error pythonMetrics = Some message -> message <> [] ->
  c_highlights (mergeMetrics nodeMetrics pythonMetrics)
  = m_highlights nodeMetrics /\
  pythonAnalysis (mergeMetrics nodeMetrics pythonMetrics)
  = AnalysisError message.
Proof.
  intros Herror Hmessage. unfold mergeMetrics. rewrite Herror.
  destruct message; [contradiction |]. split; reflexivity.
Qed.

Lemma parseOutput_rejected (JSON_parse : jsstring -> result ParsedRecord)
    (stdout message : jsstring) :
  parseOutput JSON_parse stdout = Rejected message -> message <> [].
Proof.
  unfold parseOutput.
  destruct (if negb (truthy (findJsonLine (rev (split LF (trim stdout)))))
            then Throw (js "No valid JSON found in Python output")
            else JSON_parse (findJsonLine (rev (split LF (trim stdout)))))
    as [value | thrown]; [discriminate |].
  intros H. assert (Hmessage :
    message = js "Failed to parse Python analyzer output: " ++ thrown)
    by congruence.
  rewrite Hmessage. discriminate.
Qed.

(** Whatever settles the promise, a rejection has a message that is not
    empty: each of the four starts with fixed words. *)
Lemma settle_rejected (JSON_parse : jsstring -> result ParsedRecord)
    (events : list event) :
  forall stdout stderr message,
    settle JSON_parse events stdout stderr = Rejected message ->
    message <> [].
Proof.
  induction events as [|e events IH]; intros stdout stderr message.
  - simpl. intros H. assert (Hm : message = js "Python analyzer timeout")
      by congruence.
    rewrite Hm. discriminate.
  - destruct e as [data | data | code | thrown]; cbn [settle].
    + apply IH.
    + apply IH.
    + unfold onClose.
      assert (Hexit : forall shown : jsstring,
                 Rejected (js "Python analyzer failed with code " ++ shown
                           ++ js ": " ++ stderr) = Rejected message ->
                 message <> []).
      { intros shown H.
        assert (Hm : message = js "Python analyzer failed with code "
                               ++ shown ++ js ": " ++ stderr) by congruence.
        rewrite Hm. discriminate. }
      destruct code as [[|exit|exit]|];
        [apply parseOutput_rejected | apply Hexit ..].
    + intros H.
      assert (Hm : message = js "Failed to start Python analyzer: " ++ thrown)
        by congruence.
      rewrite Hm. discriminate.
Qed.

(** The [catch] of the inner [try]: a rejection becomes the marker, and
    the merger takes it. *)
Lemma rejection_is_merged {F : Float64} (toLowerCase : jsstring -> jsstring)
    (JSON_parse : jsstring -> result ParsedRecord)
    (usedBranch tempRepoPath : jsstring) (root : list Fs.node)
    (events : list event) (message : jsstring) :
  PythonIntegration.analyzeRepository JSON_parse events = Rejected message ->
  RepoAnalyzer.analyzeRepository toLowerCase JSON_parse (Ok usedBranch)
    tempRepoPath root events
  = Ok (mergeMetrics
          (RepoAnalyzer.withBranch
             (computeMetrics toLowerCase tempRepoPath root) usedBranch)
          (errorMarker message)).
Proof.
  intros Hrejected.
  unfold RepoAnalyzer.analyzeRepository, RepoAnalyzer.runPython.
  rewrite Hrejected. reflexivity.
Qed.

(** C3. When the Python metrics carry an error marker, a message that
    is not empty, which is what the merger tests for, the merger keeps
    every field of the repository metrics, nests the error record and
    sets [combined]; it is a total function on such values.  And a
    failure of the Python analyzer never makes the analysis fail:
    whenever the adapter rejects, its message is not empty, the marker
    built from it takes that branch, and the analysis of the cloned
    repository returns the repository metrics with the message
    nested. *)
Theorem merge_keeps_metrics_on_error :
  (forall (nodeMetrics : Metrics) (pythonMetrics : PythonMetrics)
          (message : jsstring),
      error pythonMetrics = Some message -> message <> [] ->
      let c := mergeMetrics nodeMetrics pythonMetrics in
      carries c nodeMetrics /\
      c_highlights c = m_highlights nodeMetrics /\
      pythonAnalysis c = AnalysisError message /\
      combined c = true) /\
  (forall (F : Float64) (toLowerCase : jsstring -> jsstring)
          (JSON_parse : jsstring -> result ParsedRecord)
          (usedBranch tempRepoPath : jsstring) (root : list Fs.node)
          (events : list event) (message : jsstring),
      PythonIntegration.analyzeRepository JSON_parse events
      = Rejected message ->
      message <> [] /\
      exists c,
        RepoAnalyzer.analyzeRepository toLowerCase JSON_parse (Ok usedBranch)
          tempRepoPath root events = Ok c /\
        carries c (RepoAnalyzer.withBranch
                     (computeMetrics toLowerCase tempRepoPath root)
                     usedBranch) /\
        pythonAnalysis c = AnalysisError message /\
        combined c = true).
Proof.
  split.
  - intros nodeMetrics pythonMetrics message Herror Hmessage c. subst c.
    destruct (mergeMetrics_carries nodeMetrics pythonMetrics) as [Hc Hflag].
    destruct (mergeMetrics_error_branch nodeMetrics pythonMetrics message
                Herror Hmessage) as [Hhighlights Hnested].
    auto.
  - intros F toLowerCase JSON_parse usedBranch tempRepoPath root events
      message Hrejected.
    assert (Hmessage : message <> [])
      by exact (settle_rejected JSON_parse events [] [] message Hrejected).
    split; [exact Hmessage |].
    eexists. split; [apply rejection_is_merged; exact Hrejected |].
    destruct (mergeMetrics_carries
                (RepoAnalyzer.withBranch
                   (computeMetrics toLowerCase tempRepoPath root) usedBranch)
                (errorMarker message)) as [Hc Hflag].
    destruct (mergeMetrics_error_branch
                (RepoAnalyzer.withBranch
                   (computeMetrics toLowerCase tempRepoPath root) usedBranch)
                (errorMarker message) message eq_refl Hmessage)
      as [_ Hnested].
    auto.
Qed.

End Merger.

(** The marker of a timeout, and a process that exits with code 1 after
    a line on its error stream. *)
Lemma merge_keeps_metrics_on_error_witness :
  (let marker :=
     PythonIntegration.errorMarker (js "Python analyzer timeout") in
   let c := PythonIntegration.mergeMetrics emptyRepositoryMetrics marker in
   carries c emptyRepositoryMetrics /\
   PythonIntegration.c_highlights c = None /\
   PythonIntegration.pythonAnalysis c
   = PythonIntegration.AnalysisError (js "Python analyzer timeout") /\
   PythonIntegration.combined c = true) /\
  (let events := [StderrData (js "no module"); Close (Some 1%Z)] in
   let message := js "Python analyzer failed with code 1: no module" in
   PythonIntegration.analyzeRepository rejectingParse events
   = Rejected message /\
   message <> [] /\
   exists c,
     RepoAnalyzer.analyzeRepository asciiLowerCase rejectingParse
       (Ok (js "main")) (js "/tmp/repo") [] events = Ok c /\
     carries c emptyRepositoryMetrics /\
     PythonIntegration.pythonAnalysis c
     = PythonIntegration.AnalysisError message /\
     PythonIntegration.combined c = true).
Proof.
  split.
  - intros marker c.
    apply (proj1 merge_keeps_metrics_on_error emptyRepositoryMetrics marker
             (js "Python analyzer timeout")).
    + reflexivity.
    + discriminate.
  - intros events message.
    assert (Hrejected :
              PythonIntegration.analyzeRepository rejectingParse events
              = Rejected message) by reflexivity.
    split; [exact Hrejected |].
    exact (proj2 merge_keeps_metrics_on_error ExactArithmetic asciiLowerCase
             rejectingParse (js "main") (js "/tmp/repo") [] events message
             Hrejected).
Defined.

(** ** The combined highlights *)

Section Highlights.

Lemma indexOfFrom_absent (pre rest : list jsstring) (x : jsstring) (i : nat) :
  ~ In x pre ->
  indexOfFrom (pre ++ x :: rest) x i = Z.of_nat (i + length pre).
Proof.
  revert i. induction pre as [|y pre IH]; intros i Hout; simpl.
  - rewrite eqb_refl. f_equal. lia.
  - destruct (JsString.eqb y x) eqn:E.
    + apply eqb_eq in E. subst y. exfalso. apply Hout. left; reflexivity.
    + rewrite IH by (intros H; apply Hout; right; exact H). f_equal. lia.
Qed.

Lemma indexOfFrom_present (pre rest : list jsstring) (x : jsstring) (i : nat) :
  In x pre ->
  (indexOfFrom (pre ++ rest) x i < Z.of_nat (i + length pre))%Z.
Proof.
  revert i. induction pre as [|y pre IH]; intros i Hin; simpl.
  - contradiction.
  - destruct (JsString.eqb y x) eqn:E.
    + lia.
    + destruct Hin as [-> | Hin]; [rewrite eqb_refl in E; discriminate |].
      specialize (IH (S i) Hin). lia.
Qed.

Lemma filterFrom_firstOccurrences (l pre seen : list jsstring) :
  (forall x, In x seen <-> In x pre) ->
  filterFrom (fun highlight index =>
                (indexOf (pre ++ l) highlight =? Z.of_nat index)%Z)
    l (length pre)
  = firstOccurrences seen l.
Proof.
  revert pre seen. induction l as [|x l IH]; intros pre seen Hseen; simpl.
  - reflexivity.
  - assert (Hstep : forall seen',
               (forall y, In y seen' <-> In y (pre ++ [x])) ->
               filterFrom (fun highlight index =>
                   (indexOf (pre ++ x :: l) highlight =? Z.of_nat index)%Z)
                 l (S (length pre))
               = firstOccurrences seen' l).
    { intros seen' Hseen'. specialize (IH (pre ++ [x]) seen' Hseen').
      rewrite <- app_assoc, length_app in IH. simpl in IH.
      rewrite Nat.add_1_r in IH. exact IH. }
    unfold indexOf at 1.
    destruct (includes seen x) eqn:E.
    + apply includes_In in E.
      assert (Hpre : In x pre) by (apply Hseen; exact E).
      pose proof (indexOfFrom_present pre (x :: l) x 0 Hpre) as Hlt.
      destruct (Z.eqb_spec (indexOfFrom (pre ++ x :: l) x 0)
                  (Z.of_nat (length pre))) as [Heq | _];
        [simpl in Hlt; lia |].
      apply Hstep. intros y. rewrite in_app_iff, <- Hseen. simpl.
      split; [tauto | intros [H | [<- | []]]; assumption].
    + assert (Hpre : ~ In x pre).
      { intros H. apply Hseen in H. apply includes_In in H. congruence. }
      rewrite (indexOfFrom_absent pre l x 0 Hpre). simpl.
      rewrite Z.eqb_refl. f_equal.
      apply Hstep. intros y. rewrite in_app_iff, <- Hseen. simpl. tauto.
Qed.

Lemma removeDuplicates_firstOccurrences (arr : list jsstring) :
  removeDuplicates arr = firstOccurrences [] arr.
Proof.
  unfold removeDuplicates.
  apply (filterFrom_firstOccurrences arr [] []). tauto.
Qed.

Lemma firstOccurrences_In (l seen : list jsstring) (x : jsstring) :
  In x (firstOccurrences seen l) <-> In x l /\ ~ In x seen.
Proof.
  revert seen. induction l as [|y l IH]; intros seen; simpl.
  - tauto.
  - destruct (includes seen y) eqn:E.
    + apply includes_In in E. rewrite IH.
      split; [tauto | intros [[-> | H] Hout]; [contradiction | tauto]].
    + assert (Hy : ~ In y seen)
        by (intros H; apply includes_In in H; congruence).
      simpl. rewrite IH. simpl.
      destruct (JsString.eq_dec y x) as [-> | Hne]; [tauto |].
      split; [intros [H | H]; [contradiction | tauto] | tauto].
Qed.

Lemma firstOccurrences_NoDup (l seen : list jsstring) :
  NoDup (firstOccurrences seen l).
Proof.
  revert seen. induction l as [|y l IH]; intros seen; simpl.
  - constructor.
  - destruct (includes seen y); [apply IH |].
    constructor; [| apply IH].
    rewrite firstOccurrences_In. simpl. tauto.
Qed.

Lemma orZero_scoreOrZero (score : option Q) :
  (orZero score == scoreOrZero score)%Q /\ (score = None -> orZero score = 0%Q).
Proof.
  split; [| intros ->; reflexivity].
  destruct score as [q|]; simpl; [| reflexivity].
  destruct (Qeq_bool q 0) eqn:E; [| reflexivity].
  apply Qeq_bool_eq in E. symmetry. exact E.
Qed.

(** C8. When the Python metrics carry no error (the property is absent or
    empty), the merger copies every field of the repository metrics,
    nests the four scores with 0 for a missing one and the highlights of
    the Python metrics, and builds [combinedHighlights] from the
    highlights of the repository metrics followed by those of the Python
    metrics: every string once, in the order of first occurrence. *)
Theorem merge_combines_metrics
    (nodeMetrics : Metrics) (pythonMetrics : PythonMetrics) :
  error pythonMetrics = None \/ error pythonMetrics = Some [] ->
  let c := mergeMetrics nodeMetrics pythonMetrics in
  let all := orEmpty (m_highlights nodeMetrics)
             ++ orEmpty (highlights pythonMetrics) in
  carries c nodeMetrics /\
  combined c = true /\
  (exists cs ns ts es,
      pythonAnalysis c
      = AnalysisScores cs ns ts es (orEmpty (highlights pythonMetrics)) /\
      (cs == scoreOrZero (comments_score pythonMetrics))%Q /\
      (ns == scoreOrZero (naming_score pythonMetrics))%Q /\
      (ts == scoreOrZero (tests_score pythonMetrics))%Q /\
      (es == scoreOrZero (examples_score pythonMetrics))%Q /\
      (comments_score pythonMetrics = None -> cs = 0%Q) /\
      (naming_score pythonMetrics = None -> ns = 0%Q) /\
      (tests_score pythonMetrics = None -> ts = 0%Q) /\
      (examples_score pythonMetrics = None -> es = 0%Q)) /\
  (exists combinedList,
      combinedHighlights c = Some combinedList /\
      combinedList = firstOccurrences [] all /\
      NoDup combinedList /\
      (forall x, In x combinedList <-> In x all)).
Proof.
  intros Herror c all.
  destruct (mergeMetrics_carries nodeMetrics pythonMetrics) as [Hc Hflag].
  split; [exact Hc | split; [exact Hflag |]].
  assert (Hmerged :
            pythonAnalysis c
            = AnalysisScores (orZero (comments_score pythonMetrics))
                (orZero (naming_score pythonMetrics))
                (orZero (tests_score pythonMetrics))
                (orZero (examples_score pythonMetrics))
                (orEmpty (highlights pythonMetrics)) /\
            combinedHighlights c = Some (removeDuplicates all)).
  { subst c all. unfold mergeMetrics.
    destruct Herror as [-> | ->]; simpl; split; reflexivity. }
  destruct Hmerged as [Hscores Hcombined]. split.
  - exists (orZero (comments_score pythonMetrics)),
           (orZero (naming_score pythonMetrics)),
           (orZero (tests_score pythonMetrics)),
           (orZero (examples_score pythonMetrics)).
    split; [exact Hscores |].
    repeat split; apply orZero_scoreOrZero.
  - exists (removeDuplicates all). split; [exact Hcombined |].
    rewrite removeDuplicates_firstOccurrences.
    split; [reflexivity | split; [apply firstOccurrences_NoDup |]].
    intros x. rewrite firstOccurrences_In. simpl. tauto.
Qed.

End Highlights.

(** Repository highlights [a; b; a], Python highlights [b; c; a], and a
    Python record that lacks [tests_score]. *)
Lemma merge_combines_metrics_witness :
  let a := js "Well documented" in
  let b := js "Test files found" in
  let c := js "Good naming" in
  let nodeMetrics :=
    {| Analyzer.m_totalFiles := 10;
       Analyzer.m_totalLines := 1000;
       Analyzer.m_commentLines := 100;
       Analyzer.m_commentsRatio := 0.1%Q;
       Analyzer.m_hasReadme := true;
       Analyzer.m_hasTests := false;
       Analyzer.m_fileTypes := [(js ".js", JsObject.VNum 10)];
       Analyzer.m_codeSamples := [];
       Analyzer.m_aiPatterns := Analyzer.aiPatterns Analyzer.emptyStats;
       Analyzer.m_usedBranch := Some (js "main");
       Analyzer.m_highlights := Some [a; b; a] |} in
  let pythonMetrics :=
    {| PythonIntegration.error := None;
       PythonIntegration.comments_score := Some 6%Q;
       PythonIntegration.naming_score := Some 7%Q;
       PythonIntegration.tests_score := None;
       PythonIntegration.examples_score := Some 8%Q;
       PythonIntegration.highlights := Some [b; c; a] |} in
  let merged := PythonIntegration.mergeMetrics nodeMetrics pythonMetrics in
  PythonIntegration.combinedHighlights merged = Some [a; b; c] /\
  PythonIntegration.pythonAnalysis merged
  = PythonIntegration.AnalysisScores 6 7 0 8 [b; c; a] /\
  carries merged nodeMetrics.
Proof.
  intros a b c nodeMetrics pythonMetrics merged.
  destruct (merge_combines_metrics nodeMetrics pythonMetrics
              (or_introl eq_refl)) as (Hc & _ & _ & (l & Hl & Heq & _)).
  split; [| split; [reflexivity | exact Hc]].
  fold merged in Hl. rewrite Hl, Heq. reflexivity.
Defined.

(** ** The failures of the Python analyzer *)

Section SecondaryAnalyzer.

Context {F : Float64}.
Variable toLowerCase : jsstring -> jsstring.
Variable JSON_parse : jsstring -> result ParsedRecord.

Lemma settle_data (output rest : list event) (stdout stderr : jsstring) :
  forallb isData output = true ->
  settle JSON_parse (output ++ rest) stdout stderr
  = settle JSON_parse rest (stdout ++ stdoutOf output)
      (stderr ++ stderrOf output).
Proof.
  revert stdout stderr.
  induction output as [|e output IH]; intros stdout stderr Hdata; simpl.
  - rewrite !app_nil_r. reflexivity.
  - simpl in Hdata. apply andb_true_iff in Hdata. destruct Hdata as [He Hdata].
    destruct e; try discriminate He; rewrite IH by exact Hdata;
      rewrite <- ?app_assoc; reflexivity.
Qed.

Lemma findJsonLine_spec (ls : list jsstring) :
  (findJsonLine ls = [] /\ forall l, In l ls -> looksLikeRecord l = false) \/
  (exists l, In l ls /\ looksLikeRecord l = true /\ findJsonLine ls = trim l).
Proof.
  induction ls as [|l ls IH]; simpl.
  - left. split; [reflexivity | intros l []].
  - fold (looksLikeRecord l). destruct (looksLikeRecord l) eqn:E.
    + right. exists l. auto.
    + destruct IH as [[Hnone Hall] | (l' & Hin & Hl' & Hfound)].
      * left. split; [exact Hnone |].
        intros l0 [<- | H]; [exact E | apply Hall; exact H].
      * right. exists l'. auto.
Qed.

Lemma parseOutput_rejects (stdout : jsstring) :
  (forall line, In line (split LF (trim stdout)) ->
                looksLikeRecord line = true ->
                exists message, JSON_parse (trim line) = Throw message) ->
  exists message,
    parseOutput JSON_parse stdout
    = Rejected (js "Failed to parse Python analyzer output: " ++ message).
Proof.
  intros Hnone. unfold parseOutput.
  destruct (findJsonLine_spec (rev (split LF (trim stdout))))
    as [[Hempty _] | (l & Hin & Hl & Hfound)].
  - rewrite Hempty. simpl. eexists. reflexivity.
  - rewrite Hfound. apply in_rev in Hin.
    destruct (Hnone l Hin Hl) as [message Hthrow]. rewrite Hthrow.
    destruct (negb (truthy (trim l))); eexists; reflexivity.
Qed.

(** Every failure rejects the promise, with a message that is not empty. *)
Lemma fails_rejected (events : list event) :
  Fails JSON_parse events ->
  exists message,
    PythonIntegration.analyzeRepository JSON_parse events = Rejected message /\
    message <> [].
Proof.
  unfold PythonIntegration.analyzeRepository.
  intros [output rest code Hdata Hcode | output rest Hdata Hparse
          | output Hdata].
  - rewrite settle_data by exact Hdata. simpl.
    destruct code as [[| |]|]; try contradiction;
      (eexists; split; [reflexivity | discriminate]).
  - rewrite settle_data by exact Hdata. simpl.
    destruct (parseOutput_rejects (stdoutOf output) Hparse) as [message H].
    rewrite H. eexists; split; [reflexivity | discriminate].
  - rewrite <- (app_nil_r output), settle_data by exact Hdata. simpl.
    eexists; split; [reflexivity | discriminate].
Qed.

(** C7. When the Python process exits with a code other than 0, or when
    none of the lines of its output that look like a record parses, or
    when the timer of 60 seconds fires first, the promise of the adapter
    is rejected, [RepoAnalyzer.analyzeRepository] catches the rejection
    and returns, without throwing, the repository metrics with the error
    record nested. *)
Theorem secondary_failure_is_absorbed
    (usedBranch tempRepoPath : jsstring) (root : list Fs.node)
    (events : list event) :
  Fails JSON_parse events ->
  exists message c,
    PythonIntegration.analyzeRepository JSON_parse events = Rejected message /\
    RepoAnalyzer.analyzeRepository toLowerCase JSON_parse (Ok usedBranch)
      tempRepoPath root events = Ok c /\
    carries c (RepoAnalyzer.withBranch
                 (computeMetrics toLowerCase tempRepoPath root) usedBranch) /\
    pythonAnalysis c = AnalysisError message /\
    combined c = true.
Proof.
  intros Hfails.
  destruct (fails_rejected events Hfails) as (message & Hrejected & Hmessage).
  exists message. eexists. split; [exact Hrejected |].
  unfold RepoAnalyzer.analyzeRepository, RepoAnalyzer.runPython.
  rewrite Hrejected. split; [reflexivity |].
  destruct (mergeMetrics_carries
              (RepoAnalyzer.withBranch
                 (computeMetrics toLowerCase tempRepoPath root) usedBranch)
              (errorMarker message)) as [Hc Hflag].
  destruct (mergeMetrics_error_branch
              (RepoAnalyzer.withBranch
                 (computeMetrics toLowerCase tempRepoPath root) usedBranch)
              (errorMarker message) message eq_refl Hmessage) as [_ Herror].
  auto.
Qed.

End SecondaryAnalyzer.

(** A process that exits with code 1, a process whose only record is
    refused by the parser, and a process that is still writing when the
    timer fires. *)
Lemma secondary_failure_is_absorbed_witness :
  let absorbed events :=
    exists message c,
      PythonIntegration.analyzeRepository rejectingParse events
      = PythonIntegration.Rejected message /\
      RepoAnalyzer.analyzeRepository asciiLowerCase rejectingParse
        (Ok (js "main")) (js "/tmp/repo") [] events = Ok c /\
      carries c emptyRepositoryMetrics /\
      PythonIntegration.pythonAnalysis c
      = PythonIntegration.AnalysisError message /\
      PythonIntegration.combined c = true in
  absorbed [PythonIntegration.StderrData (js "Traceback");
            PythonIntegration.Close (Some 1%Z)] /\
  absorbed [PythonIntegration.StdoutData (js "Analyzing
{ comments_score: 6 }
");
            PythonIntegration.Close (Some 0%Z)] /\
  absorbed [PythonIntegration.StdoutData (js "Analyzing")].
Proof.
  intros absorbed. subst absorbed. cbv beta.
  split; [| split];
    apply (secondary_failure_is_absorbed asciiLowerCase rejectingParse
             (js "main") (js "/tmp/repo") []).
  - apply (fails_exit rejectingParse
             [PythonIntegration.StderrData (js "Traceback")] []
             (Some 1%Z));
      [reflexivity | discriminate].
  - apply (fails_parse rejectingParse
             [PythonIntegration.StdoutData (js "Analyzing
{ comments_score: 6 }
")] []); [reflexivity |].
    intros line _ _. exists (js "Unexpected token"). reflexivity.
  - apply (fails_timeout rejectingParse
             [PythonIntegration.StdoutData (js "Analyzing")]).
    reflexivity.
Defined.

(** ** The directory walker *)

Section DirectoryWalker.

Context {F : Float64}.
Variable toLowerCase : jsstring -> jsstring.

Lemma skipped_ignoredName (item : jsstring) :
  skipped item = true <-> ignoredName item.
Proof.
  unfold skipped, ignoredName. rewrite orb_true_iff, includes_In. reflexivity.
Qed.

(** The loop of [analyzeDirectory], one entry at a time. *)
Lemma analyzeDirectory_cons (dirPath : jsstring) (i : Fs.node)
    (rest : list Fs.node) (stats : Stats) :
  analyzeDirectory toLowerCase dirPath (i :: rest) stats
  = if statThrows i then stats
    else if skipped (Fs.name i)
         then analyzeDirectory toLowerCase dirPath rest stats
         else analyzeDirectory toLowerCase dirPath rest
                (analyzeItem toLowerCase (Path.join dirPath (Fs.name i))
                   i stats).
Proof. reflexivity. Qed.

Lemma analyzeItem_dir (itemPath name : jsstring) (entries : list Fs.node)
    (stats : Stats) :
  analyzeItem toLowerCase itemPath (Fs.Dir name entries) stats
  = analyzeDirectory toLowerCase itemPath entries stats.
Proof. reflexivity. Qed.

Lemma analyzeDirectory_sameOutsideIgnored (items1 items2 : list Fs.node) :
  sameOutsideIgnored items1 items2 ->
  forall (dirPath : jsstring) (stats : Stats),
    analyzeDirectory toLowerCase dirPath items1 stats
    = analyzeDirectory toLowerCase dirPath items2 stats.
Proof.
  induction 1 as [| a b rest1 rest2 Hname Hignored Ha Hb _ IHrest
                  | name entries1 entries2 rest1 rest2 _ IHentries _ IHrest
                  | a rest1 rest2 _ IHrest];
    intros dirPath stats.
  - reflexivity.
  - rewrite !analyzeDirectory_cons, Ha, Hb, <- Hname.
    apply skipped_ignoredName in Hignored. rewrite Hignored. apply IHrest.
  - rewrite !analyzeDirectory_cons. simpl statThrows. cbv iota.
    simpl Fs.name. destruct (skipped name); [apply IHrest |].
    rewrite !analyzeItem_dir, IHentries. apply IHrest.
  - rewrite !analyzeDirectory_cons.
    destruct (statThrows a); [reflexivity |].
    destruct (skipped (Fs.name a)); apply IHrest.
Qed.

(** C9. The walker passes over every entry named node_modules, dist,
    build or .git and every entry whose name starts with a dot: the loop
    goes on with the statistics unchanged, and the metrics of two trees
    that differ only below such entries are equal. *)
Theorem walker_ignores_hidden_and_vendored :
  (forall (dirPath : jsstring) (i : Fs.node) (rest : list Fs.node)
          (stats : Stats),
      ignoredName (Fs.name i) -> statThrows i = false ->
      analyzeDirectory toLowerCase dirPath (i :: rest) stats
      = analyzeDirectory toLowerCase dirPath rest stats) /\
  (forall (repoPath : jsstring) (root1 root2 : list Fs.node),
      sameOutsideIgnored root1 root2 ->
      computeMetrics toLowerCase repoPath root1
      = computeMetrics toLowerCase repoPath root2).
Proof.
  split.
  - intros dirPath i rest stats Hignored Hstat.
    rewrite analyzeDirectory_cons, Hstat.
    apply skipped_ignoredName in Hignored. rewrite Hignored. reflexivity.
  - intros repoPath root1 root2 Hsame. unfold computeMetrics.
    rewrite (analyzeDirectory_sameOutsideIgnored root1 root2 Hsame).
    reflexivity.
Qed.

End DirectoryWalker.

(** A repository with a vendored directory, a [.git] directory, a dot
    file and a nested [dist], and the same repository with these emptied
    or rewritten. *)
Lemma walker_ignores_hidden_and_vendored_witness :
  let code := Some (js "const data = 1;
// note
") in
  let junk := Some (js "// generated
// generated
") in
  let root1 :=
    [Fs.Dir (js "node_modules") [Fs.File (js "index.js") junk];
     Fs.File (js ".env") junk;
     Fs.Dir (js "src")
       [Fs.File (js "main.js") code;
        Fs.Dir (js "dist") [Fs.File (js "bundle.js") junk]];
     Fs.Dir (js ".git") [Fs.File (js "config.js") junk]] in
  let root2 :=
    [Fs.Dir (js "node_modules") [];
     Fs.Dir (js ".env") [Fs.File (js "a.py") junk];
     Fs.Dir (js "src")
       [Fs.File (js "main.js") code;
        Fs.File (js "dist") None];
     Fs.Dir (js ".git") []] in
  Analyzer.computeMetrics asciiLowerCase (js "/tmp/repo") root1
  = Analyzer.computeMetrics asciiLowerCase (js "/tmp/repo") root2 /\
  Analyzer.m_totalLines
    (Analyzer.computeMetrics asciiLowerCase (js "/tmp/repo") root1) = 3.
Proof.
  intros code junk root1 root2. split; [| vm_compute; reflexivity].
  apply (proj2 (walker_ignores_hidden_and_vendored asciiLowerCase)).
  apply same_ignored;
    [reflexivity | right; simpl; tauto | reflexivity | reflexivity |].
  apply same_ignored;
    [reflexivity | left; reflexivity | reflexivity | reflexivity |].
  apply same_dir.
  - apply same_entry.
    apply same_ignored;
      [reflexivity | right; simpl; tauto | reflexivity | reflexivity |].
    apply same_nil.
  - apply same_ignored;
      [reflexivity | left; reflexivity | reflexivity | reflexivity |].
    apply same_nil.
Defined.

(** ** Rounding *)

Section Rounding.

Context {F : Float64}.

Local Open Scope Q_scope.

Lemma fl_proper (x y : Q) : x == y -> fl x == fl y.
Proof.
  intros H. apply Qle_antisym; apply fl_mono; rewrite H; apply Qle_refl.
Qed.

#[export] Instance fl_Proper : Proper (Qeq ==> Qeq) fl.
Proof. intros x y H. apply fl_proper. exact H. Qed.

Lemma fl_bounds (x : Q) :
  min_normal <= x -> x <= max_normal ->
  x - unit_roundoff * x <= fl x /\ fl x <= x + unit_roundoff * x.
Proof.
  intros Hlo Hhi.
  assert (Hpos : 0 <= x).
  { apply Qle_trans with min_normal; [discriminate | exact Hlo]. }
  pose proof (Qabs_pos x Hpos) as Habs.
  pose proof (fl_error x) as H.
  rewrite Habs in H. specialize (H Hlo Hhi).
  apply Qabs_Qle_condition in H. destruct H as [H1 H2]. split; lra.
Qed.

Lemma gt_true (x y : Q) : Number.gt x y = true <-> y < x.
Proof.
  unfold Number.gt. rewrite negb_true_iff.
  destruct (Qle_bool x y) eqn:E.
  - apply Qle_bool_iff in E. split; [discriminate | intros H; lra].
  - split; [intros _ | reflexivity].
    apply Qnot_le_lt. intros H. apply Qle_bool_iff in H. congruence.
Qed.

Lemma inject_Z_pos (z : Z) : (0 < z)%Z -> 0 < inject_Z z.
Proof. intros H. change 0 with (inject_Z 0). rewrite <- Zlt_Qlt. exact H. Qed.

Lemma Qdiv_le_cross (m n a b : Q) :
  0 < n -> 0 < b -> (m / n <= a / b <-> m * b <= a * n).
Proof.
  intros Hn Hb.
  assert (Hnb : 0 < n * b) by (apply Qmult_lt_0_compat; assumption).
  rewrite <- (Qmult_le_r (m / n) (a / b) (n * b) Hnb).
  setoid_replace (m / n * (n * b)) with (m * b) by (field; lra).
  setoid_replace (a / b * (n * b)) with (a * n) by (field; lra).
  reflexivity.
Qed.

Lemma ofNat_ratio_le (m n : nat) (a b : positive) :
  (0 < n)%nat ->
  (Number.ofNat m / Number.ofNat n <= Z.pos a # b
   <-> (Z.of_nat m * Z.pos b <= Z.pos a * Z.of_nat n)%Z).
Proof.
  intros Hn. unfold Number.ofNat.
  rewrite (Qmake_Qdiv (Z.pos a) b), Qdiv_le_cross
    by (apply inject_Z_pos; lia).
  rewrite Zle_Qle, !inject_Z_mult. reflexivity.
Qed.

Lemma unit_roundoff_inv : unit_roundoff * inject_Z (2 ^ 53) == 1.
Proof. reflexivity. Qed.

Lemma unit_roundoff_pos : 0 < unit_roundoff.
Proof. reflexivity. Qed.

(** A ratio of two integers of at most 53 bits is in the normal range. *)
Lemma ratio_normal (M N : Q) :
  1 <= M -> 1 <= N -> M <= inject_Z (2 ^ 53) -> N <= inject_Z (2 ^ 53) ->
  min_normal <= M / N /\ M / N <= max_normal.
Proof.
  intros HM HN HM' HN'.
  assert (H0 : 0 < N) by lra.
  split.
  - apply Qle_trans with (1 / inject_Z (2 ^ 53)); [vm_compute; discriminate |].
    apply Qdiv_le_cross; [reflexivity | exact H0 |].
    apply Qle_trans with (1 * inject_Z (2 ^ 53)).
    + rewrite !Qmult_1_l. exact HN'.
    + apply Qmult_le_r; [reflexivity | exact HM].
  - apply Qle_trans with (inject_Z (2 ^ 53)); [| vm_compute; discriminate].
    apply Qle_shift_div_r; [exact H0 |].
    apply Qle_trans with (inject_Z (2 ^ 53) * 1).
    + rewrite Qmult_1_r. exact HM'.
    + apply Qmult_le_l; [reflexivity | exact HN].
Qed.

Lemma fl_ratio_lt_core (M N A B : Q) :
  1 <= M -> 1 <= N -> 1 <= A -> 1 <= B ->
  1 <= M * B - A * N -> M * B + A * N < inject_Z (2 ^ 53) ->
  fl (A / B) < fl (M / N).
Proof.
  intros HM HN HA HB Hgap Hsum.
  assert (HMB : M <= M * B).
  { rewrite <- (Qmult_1_r M) at 1. apply Qmult_le_l; lra. }
  assert (HAN : N <= A * N).
  { rewrite <- (Qmult_1_l N) at 1. apply Qmult_le_r; lra. }
  assert (HAB : A <= A * N).
  { rewrite <- (Qmult_1_r A) at 1. apply Qmult_le_l; lra. }
  assert (HBM : B <= M * B).
  { rewrite <- (Qmult_1_l B) at 1. apply Qmult_le_r; lra. }
  destruct (ratio_normal M N) as [Hx1 Hx2]; try lra.
  destruct (ratio_normal A B) as [Hq1 Hq2]; try lra.
  destruct (fl_bounds (M / N) Hx1 Hx2) as [Hx _].
  destruct (fl_bounds (A / B) Hq1 Hq2) as [_ Hq].
  assert (HP : 0 < N * B) by (apply Qmult_lt_0_compat; lra).
  assert (Hdiff : (M / N - A / B) * (N * B) == M * B - A * N)
    by (field; lra).
  assert (Hadd : (M / N + A / B) * (N * B) == M * B + A * N)
    by (field; lra).
  assert (Hu : unit_roundoff * ((M / N + A / B) * (N * B)) < 1).
  { rewrite Hadd, <- unit_roundoff_inv.
    apply Qmult_lt_l; [apply unit_roundoff_pos | exact Hsum]. }
  assert (Hkey : unit_roundoff * (M / N + A / B) < M / N - A / B).
  { apply (Qmult_lt_r _ _ (N * B) HP).
    rewrite Hdiff, <- Qmult_assoc. lra. }
  lra.
Qed.

(** The comparison of a rounded ratio of two counters with a rounded
    constant decides the comparison of the exact values, as long as the
    cross products stay below 2^53. *)
Lemma fl_ratio_gt (m n : nat) (a b : positive) :
  (0 < n)%nat ->
  (Z.of_nat m * Z.pos b + Z.pos a * Z.of_nat n < 2 ^ 53)%Z ->
  (Number.gt (fl (Number.ofNat m / Number.ofNat n)) (fl (Z.pos a # b)) = true
   <-> (Z.pos a * Z.of_nat n < Z.of_nat m * Z.pos b)%Z).
Proof.
  intros Hn Hsmall. rewrite gt_true. split.
  - intros Hgt. apply Z.nle_gt. intros Hle.
    apply (ofNat_ratio_le m n a b Hn) in Hle.
    apply fl_mono in Hle. lra.
  - intros Hlt.
    rewrite (Qmake_Qdiv (Z.pos a) b). unfold Number.ofNat.
    apply fl_ratio_lt_core;
      try (change 1 with (inject_Z 1); rewrite <- Zle_Qle; nia).
    + unfold Qminus.
      rewrite <- !inject_Z_mult, <- inject_Z_opp, <- inject_Z_plus.
      change 1 with (inject_Z 1). rewrite <- Zle_Qle. lia.
    + rewrite <- !inject_Z_mult, <- inject_Z_plus, <- Zlt_Qlt. exact Hsmall.
Qed.

End Rounding.

(** ** Perfect formatting *)

Section PerfectFormatting.

Context {F : Float64}.

Lemma tabsOf_positive (indentations : list nat) :
  tabsOf indentations = length (filter (fun indent => 0 <? indent) indentations).
Proof.
  reflexivity.
Qed.

Lemma filter_length_le {A : Type} (p : A -> bool) (l : list A) :
  length (filter p l) <= length l.
Proof.
  induction l as [|x l IH]; simpl; [lia |].
  destruct (p x); simpl; lia.
Qed.

Lemma one_beats_threshold : Number.gt 1 (fl (95 # 100)) = true.
Proof.
  apply gt_true.
  destruct (fl_bounds (95 # 100)) as [_ H]; [vm_compute; discriminate .. |].
  apply Qle_lt_trans with (1 := H). reflexivity.
Qed.

(** C6, as amended. The perfectFormatting signal trips if and only if
    the file has no non-empty line, or the larger of two counts, the
    non-empty lines whose leading whitespace has a length divisible by 4
    and the non-empty lines with any leading whitespace at all, is more
    than 0.95 of the number of non-empty lines (for files of fewer than
    2^45 lines, where rounding cannot change the comparison). *)
Theorem perfect_formatting_trips (content : jsstring) :
  let indentations := indentationsOf (split LF content) in
  let n := length indentations in
  let byFour :=
    length (filter (fun indent => indent mod 4 =? 0) indentations) in
  let indented :=
    length (filter (fun indent => 0 <? indent) indentations) in
  (Z.of_nat n < 2 ^ 45)%Z ->
  (tripsPerfectFormatting content = true
   <-> n = 0 \/ 95 * n < 100 * Nat.max byFour indented).
Proof.
  intros indentations n byFour indented Hsize.
  unfold tripsPerfectFormatting, checkIndentationConsistency.
  fold indentations. fold n.
  rewrite tabsOf_positive. unfold spacesOf. fold byFour. fold indented.
  destruct (Nat.eqb_spec n 0) as [Hzero | Hpos].
  - split; [intros _; left; exact Hzero | intros _; apply one_beats_threshold].
  - assert (H4 : byFour <= n) by apply filter_length_le.
    assert (Hi : indented <= n) by apply filter_length_le.
    rewrite (fl_ratio_gt (Nat.max byFour indented) n 95 100) by lia.
    split; [intros H; right; lia | intros [H | H]; [contradiction | lia]].
Qed.

(** One line indented by two spaces trips the signal, under every
    rounding. *)
Lemma two_spaces_trip : tripsPerfectFormatting (js "  x") = true.
Proof.
  unfold tripsPerfectFormatting, checkIndentationConsistency. simpl.
  apply (fl_ratio_gt 1 1 95 100); [lia | reflexivity | lia].
Qed.

End PerfectFormatting.

Lemma perfect_formatting_trips_witness :
  let content := js "if (x) {
    y();
}" in
  Analyzer.indentationsOf (split LF content) = [0; 4; 0] /\
  Analyzer.tripsPerfectFormatting content = true.
Proof.
  intros content. split; [reflexivity |].
  apply (perfect_formatting_trips content); [reflexivity |].
  right. vm_compute. lia.
Defined.

(** C6 as stated fails for a line indented by two spaces: no leading
    whitespace has a length divisible by 4 and none holds a tab, so the
    stated ratio is 0 whichever of the two counts is taken, and the signal
    trips, because the line counts as indented. *)
Lemma perfect_formatting_two_spaces :
  let content := js "  x" in
  let indentations := Analyzer.indentationsOf (split LF content) in
  let n := length indentations in
  let byFour :=
    length (filter (fun indent => indent mod 4 =? 0) indentations) in
  let byTab := length (tabIndented content) in
  indentations = [2] /\
  ~ (Analyzer.tripsPerfectFormatting content = true
     <-> n = 0 \/ 95 * n < 100 * Nat.max byFour byTab).
Proof.
  intros content indentations n byFour byTab. split; [reflexivity |].
  intros [Htrips _].
  assert (H : n = 0 \/ 95 * n < 100 * Nat.max byFour byTab)
    by (apply Htrips; vm_compute; reflexivity).
  vm_compute in H. destruct H as [H | H]; [discriminate | lia].
Qed.

(** ** Repetitive patterns *)

Section RepetitivePatterns.

Lemma getOwn_tableOf (count : jsstring -> nat) (keys : list jsstring)
    (k : jsstring) :
  JsObject.getOwn (tableOf count keys) k
  = if in_dec JsString.eq_dec k keys then Some (JsObject.VNum (count k))
    else None.
Proof.
  induction keys as [|k' keys IH]; simpl; [reflexivity |].
  destruct (JsString.eqb k k') eqn:E.
  - apply eqb_eq in E. subst k'.
    destruct (JsString.eq_dec k k); [reflexivity | congruence].
  - apply eqb_neq in E. rewrite IH.
    destruct (JsString.eq_dec k' k); [congruence |].
    destruct (in_dec JsString.eq_dec k keys); reflexivity.
Qed.

Lemma setOwn_tableOf_absent (count : jsstring -> nat) (keys : list jsstring)
    (k : jsstring) (v : JsObject.value) :
  ~ In k keys ->
  JsObject.setOwn (tableOf count keys) k v = tableOf count keys ++ [(k, v)].
Proof.
  induction keys as [|k' keys IH]; intros Hout; simpl; [reflexivity |].
  destruct (JsString.eqb k k') eqn:E.
  - apply eqb_eq in E. subst k'. exfalso. apply Hout. left; reflexivity.
  - rewrite IH by (intros H; apply Hout; right; exact H). reflexivity.
Qed.

Lemma setOwn_tableOf_present (count : jsstring -> nat) (keys : list jsstring)
    (k : jsstring) (n : nat) :
  In k keys -> NoDup keys ->
  JsObject.setOwn (tableOf count keys) k (JsObject.VNum n)
  = tableOf (fun k' => if JsString.eq_dec k' k then n else count k') keys.
Proof.
  induction keys as [|k' keys IH]; intros Hin Hnodup; simpl; [contradiction |].
  inversion Hnodup as [|? ? Hfresh Hnodup']; subst.
  destruct (JsString.eqb k k') eqn:E.
  - apply eqb_eq in E. subst k'.
    destruct (JsString.eq_dec k k); [| congruence]. f_equal.
    apply map_ext_in. intros k' Hk'.
    destruct (JsString.eq_dec k' k); [subst; contradiction | reflexivity].
  - apply eqb_neq in E.
    destruct (JsString.eq_dec k' k); [congruence |]. f_equal.
    apply IH; [| exact Hnodup'].
    destruct Hin as [-> | Hin]; [congruence | exact Hin].
Qed.

Lemma firstOccurrences_snoc (l seen : list jsstring) (x : jsstring) :
  firstOccurrences seen (l ++ [x])
  = firstOccurrences seen l
    ++ (if in_dec JsString.eq_dec x (seen ++ l) then [] else [x]).
Proof.
  revert seen. induction l as [|y l IH]; intros seen; simpl.
  - rewrite app_nil_r.
    destruct (includes seen x) eqn:E;
      destruct (in_dec JsString.eq_dec x seen) as [Hin | Hout];
      try reflexivity.
    + apply includes_In in E. contradiction.
    + apply includes_In in Hin. congruence.
  - assert (Hsame : forall seen',
               (forall z, In z (seen' ++ l) <-> In z (seen ++ y :: l)) ->
               (if in_dec JsString.eq_dec x (seen' ++ l) then []
                else [x])
               = (if in_dec JsString.eq_dec x (seen ++ y :: l) then []
                  else [x])).
    { intros seen' Hiff.
      destruct (in_dec JsString.eq_dec x (seen' ++ l)) as [H1 | H1];
        destruct (in_dec JsString.eq_dec x (seen ++ y :: l)) as [H2 | H2];
        try reflexivity; exfalso; [apply H2 | apply H1]; apply Hiff;
        assumption. }
    destruct (includes seen y) eqn:E.
    + rewrite IH, (Hsame seen); [reflexivity |]. intros z.
      apply includes_In in E. rewrite !in_app_iff. simpl.
      split; [tauto | intros [H | [<- | H]]; tauto].
    + simpl. rewrite IH, (Hsame (y :: seen)); [reflexivity |]. intros z.
      simpl. rewrite !in_app_iff. simpl. tauto.
Qed.

Lemma occurrences_snoc (forms : list jsstring) (x k : jsstring) :
  occurrences (forms ++ [x]) k
  = if JsString.eq_dec k x then S (occurrences forms k)
    else occurrences forms k.
Proof.
  unfold occurrences. rewrite count_occ_app. simpl.
  destruct (JsString.eq_dec x k) as [Heq | Hne];
    destruct (JsString.eq_dec k x) as [Heq' | Hne']; try congruence; lia.
Qed.

(** The table [lineCounts], when no form is the name of a member of
    [Object.prototype]: every distinct form with the number of its
    occurrences, in the order of first occurrence. *)
Lemma lineCounts_tableOf (forms : list jsstring) :
  (forall form, In form forms -> ~ In form JsObject.prototypeKeys) ->
  fold_left JsObject.increment forms JsObject.empty
  = tableOf (occurrences forms) (firstOccurrences [] forms).
Proof.
  induction forms as [|x forms IH] using rev_ind; intros Hplain.
  - reflexivity.
  - rewrite fold_left_app. simpl.
    rewrite IH by (intros form H; apply Hplain, in_app_iff; left; exact H).
    assert (Hx : ~ In x JsObject.prototypeKeys).
    { apply Hplain, in_app_iff. right. left. reflexivity. }
    unfold JsObject.increment. rewrite getOwn_tableOf.
    rewrite firstOccurrences_snoc. cbn [app].
    destruct (in_dec JsString.eq_dec x (firstOccurrences [] forms))
      as [Hin | Hout];
      destruct (in_dec JsString.eq_dec x forms) as [Hin' | Hout'];
      try (exfalso; rewrite firstOccurrences_In in *; simpl in *; tauto).
    + rewrite app_nil_r.
      rewrite setOwn_tableOf_present
        by (try exact Hin; apply firstOccurrences_NoDup).
      apply map_ext. intros k. rewrite occurrences_snoc.
      destruct (JsString.eq_dec k x) as [-> | _]; reflexivity.
    + assert (Hproto : JsString.eqb x (js "__proto__") = false).
      { apply eqb_neq. intros ->. apply Hx. vm_compute. tauto. }
      assert (Hmember : includes JsObject.prototypeKeys x = false).
      { destruct (includes JsObject.prototypeKeys x) eqn:E; [| reflexivity].
        apply includes_In in E. contradiction. }
      rewrite Hproto, Hmember, setOwn_tableOf_absent by exact Hout.
      unfold tableOf. rewrite map_app. simpl. f_equal.
      * apply map_ext_in. intros k Hk. rewrite occurrences_snoc.
        destruct (JsString.eq_dec k x) as [-> | _]; [contradiction |].
        reflexivity.
      * rewrite occurrences_snoc.
        destruct (JsString.eq_dec x x); [| congruence].
        unfold occurrences.
        rewrite (proj1 (count_occ_not_In JsString.eq_dec forms x) Hout').
        reflexivity.
Qed.

Lemma lineCountsOf_forms (ls : list jsstring) :
  lineCountsOf ls
  = fold_left JsObject.increment (List.map normalize ls) JsObject.empty.
Proof.
  unfold lineCountsOf. generalize JsObject.empty.
  induction ls as [|l ls IH]; intros o; simpl; [reflexivity | apply IH].
Qed.

Lemma repeated_tableOf (count : jsstring -> nat) (keys : list jsstring) :
  length (filter JsObject.gt1 (JsObject.values (tableOf count keys)))
  = length (filter (fun k => 1 <? count k) keys).
Proof.
  induction keys as [|k keys IH]; simpl; [reflexivity |].
  destruct (1 <? count k); simpl; rewrite IH; reflexivity.
Qed.

Lemma repeatedLinesOf_repeatedForms (ls : list jsstring) :
  (forall form, In form (List.map normalize ls) ->
                ~ In form JsObject.prototypeKeys) ->
  repeatedLinesOf ls = length (repeatedForms (List.map normalize ls)).
Proof.
  intros Hplain. unfold repeatedLinesOf, repeatedForms.
  rewrite lineCountsOf_forms, lineCounts_tableOf by exact Hplain.
  apply repeated_tableOf.
Qed.

Lemma firstOccurrences_length (l seen : list jsstring) :
  length (firstOccurrences seen l) <= length l.
Proof.
  revert seen. induction l as [|x l IH]; intros seen; simpl; [lia |].
  destruct (includes seen x); simpl.
  - specialize (IH seen). lia.
  - specialize (IH (x :: seen)). lia.
Qed.

Lemma repeatedForms_length (forms : list jsstring) :
  length (repeatedForms forms) <= length forms.
Proof.
  unfold repeatedForms.
  pose proof (filter_length_le (fun form => 1 <? occurrences forms form)
                (firstOccurrences [] forms)).
  pose proof (firstOccurrences_length forms []). lia.
Qed.

Context {F : Float64}.

Lemma zero_below_threshold : Number.gt 0 (fl (3 # 10)) = false.
Proof.
  destruct (Number.gt 0 (fl (3 # 10))) eqn:E; [| reflexivity].
  apply gt_true in E.
  assert (H : (fl 0 <= fl (3 # 10))%Q) by (apply fl_mono; discriminate).
  pose proof fl_zero as Hz. lra.
Qed.

Lemma tripsRepetitivePatterns_ratio (content : jsstring) :
  let ls := filter nonBlank (split LF content) in
  (Z.of_nat (length ls) < 2 ^ 45)%Z ->
  repeatedLinesOf ls <= length ls ->
  (tripsRepetitivePatterns content = true
   <-> 5 <= length ls /\ 3 * length ls < 10 * repeatedLinesOf ls).
Proof.
  intros ls Hsize Hle.
  unfold tripsRepetitivePatterns, detectRepetitivePatterns. fold ls.
  destruct (Nat.ltb_spec (length ls) 5) as [Hfew | Hmany].
  - rewrite zero_below_threshold. split; [discriminate | lia].
  - rewrite (fl_ratio_gt (repeatedLinesOf ls) (length ls) 3 10) by lia.
    split; [intros H; split; lia | intros [_ H]; lia].
Qed.

(** C4, as amended. A content with fewer than 5 non-empty lines never
    trips the signal. Otherwise, when no normalized line is the name of
    a member of [Object.prototype], the signal trips if and only if the
    number of distinct normalized forms that occur more than once,
    divided by the number of non-empty lines, is more than 0.3 (for
    files of fewer than 2^45 lines, where rounding cannot change the
    comparison). *)
Theorem repetitive_patterns_trips (content : jsstring) :
  let ls := filter nonBlank (split LF content) in
  let forms := List.map normalize ls in
  let n := length ls in
  (n < 5 -> tripsRepetitivePatterns content = false) /\
  ((Z.of_nat n < 2 ^ 45)%Z ->
   (forall form, In form forms -> ~ In form JsObject.prototypeKeys) ->
   (tripsRepetitivePatterns content = true
    <-> 5 <= n /\ 3 * n < 10 * length (repeatedForms forms))).
Proof.
  intros ls forms n. split.
  - intros Hfew. unfold tripsRepetitivePatterns, detectRepetitivePatterns.
    fold ls. fold n. apply Nat.ltb_lt in Hfew. rewrite Hfew.
    apply zero_below_threshold.
  - intros Hsize Hplain.
    pose proof (repeatedLinesOf_repeatedForms ls Hplain) as Hcount.
    fold forms in Hcount.
    assert (Hle : repeatedLinesOf ls <= length ls).
    { rewrite Hcount, <- (length_map normalize ls).
      apply repeatedForms_length. }
    rewrite <- Hcount.
    exact (tripsRepetitivePatterns_ratio content Hsize Hle).
Qed.

(** Five equal lines make one repeated form, and 1/5 is below the
    threshold under every rounding. *)
Lemma five_equal_lines_do_not_trip :
  tripsRepetitivePatterns (js "a();
a();
a();
a();
a();") = false.
Proof.
  match goal with
  | |- ?t = false => destruct t eqn:E; [| reflexivity]
  end.
  apply tripsRepetitivePatterns_ratio in E;
    [vm_compute in E; lia | reflexivity | vm_compute; lia].
Qed.

End RepetitivePatterns.

(** Six lines, two forms that occur twice each. *)
Lemma repetitive_patterns_trips_witness :
  let content := js "x = 1;
y  =  2;
x = 1;
  y = 2;
return x;
done" in
  let forms :=
    List.map Analyzer.normalize
      (filter Analyzer.nonBlank (split LF content)) in
  repeatedForms forms = [js "x = 1;"; js "y = 2;"] /\
  Analyzer.tripsRepetitivePatterns content = true /\
  Analyzer.tripsRepetitivePatterns (js "a
a
a
a") = false.
Proof.
  intros content forms. split; [reflexivity |]. split.
  - apply (proj2 (repetitive_patterns_trips content)).
    + reflexivity.
    + intros form Hin Hproto. vm_compute in Hin, Hproto.
      repeat (destruct Hin as [<- | Hin];
              [repeat (destruct Hproto as [Hproto | Hproto];
                       [discriminate Hproto |]); exact Hproto |]).
      exact Hin.
    + vm_compute. lia.
  - apply (proj1 (repetitive_patterns_trips (js "a
a
a
a"))). vm_compute. lia.
Defined.

(** C4 as stated fails for five equal lines: each of the five lines has
    a form that occurs more than once, so the stated ratio is 5/5, and
    the signal does not trip, because the five lines make one repeated
    form. *)
Lemma repetitive_patterns_five_equal_lines :
  let content := js "a();
a();
a();
a();
a();" in
  let ls := filter Analyzer.nonBlank (split LF content) in
  let forms := List.map Analyzer.normalize ls in
  let n := length ls in
  n = 5 /\ length (linesOfRepeatedForms forms) = 5 /\
  length (repeatedForms forms) = 1 /\
  ~ (Analyzer.tripsRepetitivePatterns content = true
     <-> 5 <= n /\ 3 * n < 10 * length (linesOfRepeatedForms forms)).
Proof.
  intros content ls forms n.
  split; [reflexivity | split; [reflexivity | split; [reflexivity |]]].
  intros [_ Htrips].
  assert (H : Analyzer.tripsRepetitivePatterns content = true)
    by (apply Htrips; vm_compute; lia).
  vm_compute in H. discriminate H.
Qed.

(** ** The comment ratio *)

Section CommentRatio.

Context {F : Float64}.
Variable toLowerCase : jsstring -> jsstring.

(** Induction over a file tree. *)
Lemma node_rect_nested (P : Fs.node -> Prop) :
  (forall name content, P (Fs.File name content)) ->
  (forall name entries, Forall P entries -> P (Fs.Dir name entries)) ->
  (forall name, P (Fs.UnreadableDir name)) ->
  (forall name, P (Fs.Other name)) ->
  (forall name, P (Fs.Broken name)) ->
  forall n, P n.
Proof.
  intros Hfile Hdir Hunreadable Hother Hbroken.
  fix IH 1. intros [name content | name entries | name | name | name].
  - apply Hfile.
  - apply Hdir. induction entries as [|e entries IHentries].
    + constructor.
    + constructor; [apply IH | exact IHentries].
  - apply Hunreadable.
  - apply Hother.
  - apply Hbroken.
Qed.

Lemma nonBlank_le_lines (content : jsstring) :
  length (filter nonBlank (split LF content)) <= length (split LF content).
Proof. apply filter_length_le. Qed.

Lemma analyzeFile_commentsWithinLines
    (filePath : jsstring) (content : option jsstring) (stats : Stats) :
  commentsWithinLines stats ->
  commentsWithinLines (analyzeFile toLowerCase filePath content stats).
Proof.
  unfold commentsWithinLines. intros Hinv.
  destruct content as [content |].
  - destruct (isTextFile (toLowerCase (Path.extname filePath))) eqn:Htext.
    + destruct (analyzeFile_text_lines toLowerCase filePath content stats Htext)
        as (_ & -> & ->).
      pose proof (countCommentLoop_bound
                    (toLowerCase (Path.extname filePath))
                    (split LF content) 0) as Hbound.
      pose proof (nonBlank_le_lines content).
      unfold countCommentLines. lia.
    + unfold analyzeFile. rewrite Htext. exact Hinv.
  - unfold analyzeFile.
    destruct (isTextFile (toLowerCase (Path.extname filePath)));
      exact Hinv.
Qed.

Lemma analyzeItem_commentsWithinLines (item : Fs.node) :
  forall (itemPath : jsstring) (stats : Stats),
    commentsWithinLines stats ->
    commentsWithinLines (analyzeItem toLowerCase itemPath item stats).
Proof.
  induction item as [name content | name entries IH | name | name | name]
    using node_rect_nested; intros itemPath stats Hinv;
    try exact Hinv.
  - apply analyzeFile_commentsWithinLines. exact Hinv.
  - change (commentsWithinLines
              (analyzeDirectory toLowerCase itemPath entries stats)).
    revert stats Hinv.
    induction IH as [|i rest Hi _ IHrest]; intros stats Hinv.
    + exact Hinv.
    + change (analyzeDirectory toLowerCase itemPath (i :: rest) stats)
        with (if statThrows i then stats
              else if skipped (Fs.name i)
                   then analyzeDirectory toLowerCase itemPath rest stats
                   else analyzeDirectory toLowerCase itemPath rest
                          (analyzeItem toLowerCase
                             (Path.join itemPath (Fs.name i)) i stats)).
      destruct (statThrows i); [exact Hinv |].
      destruct (skipped (Fs.name i)); apply IHrest;
        [exact Hinv | apply Hi; exact Hinv].
Qed.

Lemma computeMetrics_commentsWithinLines
    (repoPath : jsstring) (root : list Fs.node) :
  m_commentLines (computeMetrics toLowerCase repoPath root)
  <= m_totalLines (computeMetrics toLowerCase repoPath root).
Proof.
  apply (analyzeItem_commentsWithinLines (Fs.Dir [] root) repoPath emptyStats).
  unfold commentsWithinLines. simpl. lia.
Qed.

Local Open Scope Q_scope.

Lemma Math_round_bounds (y : Q) :
  inject_Z (Math_round y) <= y + (1 # 2) /\
  y + (1 # 2) < inject_Z (Math_round y) + 1.
Proof.
  unfold Math_round. split; [apply Qfloor_le |].
  pose proof (Qlt_floor (y + (1 # 2))) as H.
  rewrite inject_Z_plus in H. exact H.
Qed.

(** The two roundings before [Math.round] move the hundredfold ratio by
    less than the distance of a half-integer multiple of 1/t from it. *)
Lemma round_hundredths (c t : Z) :
  (1 <= c)%Z -> (c <= t)%Z -> (t < 2 ^ 44)%Z ->
  let k := Math_round (fl (fl (inject_Z c / inject_Z t) * 100)) in
  (2 * (k * t) - 200 * c - t <= 0)%Z /\
  (200 * c - t - 2 * (k * t) <= 0)%Z.
Proof.
  intros Hc Hct Ht k. subst k.
  set (C := inject_Z c). set (T := inject_Z t).
  assert (HC1 : 1 <= C) by (change 1 with (inject_Z 1); unfold C;
                            rewrite <- Zle_Qle; exact Hc).
  assert (HCT : C <= T) by (unfold C, T; rewrite <- Zle_Qle; exact Hct).
  assert (HT : T < inject_Z (2 ^ 44))
    by (unfold T; rewrite <- Zlt_Qlt; exact Ht).
  assert (H44 : inject_Z (2 ^ 44) == 17592186044416) by reflexivity.
  assert (H53 : inject_Z (2 ^ 44) <= inject_Z (2 ^ 53))
    by (rewrite <- Zle_Qle; lia).
  assert (HT0 : 0 < T) by lra.
  set (x := C / T).
  assert (HxT : x * T == C) by (unfold x; field; lra).
  assert (Hx1 : x <= 1).
  { unfold x. apply Qle_shift_div_r; [exact HT0 | lra]. }
  destruct (ratio_normal C T) as [Hxlo Hxhi]; try lra.
  fold x in Hxlo, Hxhi.
  destruct (fl_bounds x Hxlo Hxhi) as [Hr1 Hr2].
  set (r := fl x) in *.
  assert (Hmin : 0 < min_normal) by reflexivity.
  assert (Hmax : 200 <= max_normal) by (vm_compute; discriminate).
  change unit_roundoff with (1 # 9007199254740992) in Hr1, Hr2.
  destruct (fl_bounds (r * 100)) as [Hy1 Hy2]; try lra.
  set (y := fl (r * 100)) in *.
  change unit_roundoff with (1 # 9007199254740992) in Hy1, Hy2.
  destruct (Math_round_bounds y) as [Hk1 Hk2].
  set (k := Math_round y) in *. set (K := inject_Z k) in *.
  assert (Hup : K * T <= (100 * x + (1 # 2) + (1 # 40000000000000) * x) * T).
  { apply Qmult_le_r; [exact HT0 | lra]. }
  assert (Hlow : (100 * x - (1 # 2) - (1 # 40000000000000) * x) * T < K * T).
  { apply Qmult_lt_r; [exact HT0 | lra]. }
  setoid_replace ((100 * x + (1 # 2) + (1 # 40000000000000) * x) * T)
    with (100 * (x * T) + (1 # 2) * T + (1 # 40000000000000) * (x * T))
    in Hup by ring.
  setoid_replace ((100 * x - (1 # 2) - (1 # 40000000000000) * x) * T)
    with (100 * (x * T) - (1 # 2) * T - (1 # 40000000000000) * (x * T))
    in Hlow by ring.
  rewrite HxT in Hup, Hlow.
  assert (HZ1 : inject_Z (2 * (k * t) - 200 * c - t) < inject_Z 1).
  { unfold Z.sub. rewrite !inject_Z_plus, !inject_Z_opp, !inject_Z_mult.
    fold C T K. change (inject_Z 2) with 2. change (inject_Z 200) with 200.
    change (inject_Z 1) with 1. lra. }
  assert (HZ2 : inject_Z (200 * c - t - 2 * (k * t)) < inject_Z 1).
  { unfold Z.sub. rewrite !inject_Z_plus, !inject_Z_opp, !inject_Z_mult.
    fold C T K. change (inject_Z 2) with 2. change (inject_Z 200) with 200.
    change (inject_Z 1) with 1. lra. }
  rewrite <- Zlt_Qlt in HZ1, HZ2. lia.
Qed.

Lemma Math_round_of_zero (x : Q) :
  x == 0 -> Math_round (fl (fl x * 100)) = 0%Z.
Proof.
  intros Hx. unfold Math_round.
  assert (H : fl (fl x * 100) == 0).
  { rewrite Hx, fl_zero. setoid_replace (0 * 100) with 0 by ring.
    apply fl_zero. }
  rewrite H. reflexivity.
Qed.

Lemma hundredths_nearest (c t k : Z) :
  (0 < t)%Z ->
  (2 * (k * t) - 200 * c - t <= 0)%Z ->
  (200 * c - t - 2 * (k * t) <= 0)%Z ->
  Qabs (inject_Z k / 100 - inject_Z c / inject_Z t) <= 1 # 200.
Proof.
  intros Ht H1 H2.
  assert (HT : 0 < inject_Z t) by (apply inject_Z_pos; exact Ht).
  rewrite Zle_Qle in H1, H2. unfold Z.sub in H1, H2.
  rewrite !inject_Z_plus, !inject_Z_opp, !inject_Z_mult in H1, H2.
  change (inject_Z 2) with 2 in H1, H2.
  change (inject_Z 200) with 200 in H1, H2.
  change (inject_Z 0) with 0 in H1, H2.
  revert HT H1 H2.
  generalize (inject_Z k) (inject_Z c) (inject_Z t). intros K C T HT H1 H2.
  assert (H200 : 0 < 200 * T) by lra.
  apply Qabs_Qle_condition. split.
  - apply (Qmult_le_r _ _ (200 * T) H200).
    setoid_replace ((K / 100 - C / T) * (200 * T))
      with (2 * (K * T) - 200 * C) by (field; lra).
    lra.
  - apply (Qmult_le_r _ _ (200 * T) H200).
    setoid_replace ((K / 100 - C / T) * (200 * T))
      with (2 * (K * T) - 200 * C) by (field; lra).
    lra.
Qed.

Lemma commentsRatioOf_rounded (stats : Stats) :
  (commentLines stats <= totalLines stats)%nat ->
  (totalLines stats = 0%nat -> commentsRatioOf stats == 0) /\
  ((Z.of_nat (totalLines stats) < 2 ^ 44)%Z ->
   exists k : Z,
     commentsRatioOf stats = fl (inject_Z k / 100) /\
     (totalLines stats <> 0%nat ->
      Qabs (inject_Z k / 100
            - Number.ofNat (commentLines stats)
              / Number.ofNat (totalLines stats)) <= 1 # 200)).
Proof.
  intros Hle. unfold commentsRatioOf. split.
  - intros ->. simpl.
    assert (H : fl (0 * 100) == 0).
    { setoid_replace (0 * 100) with 0 by ring. apply fl_zero. }
    unfold Math_round. rewrite H. simpl.
    setoid_replace (0 / 100) with 0 by reflexivity. apply fl_zero.
  - intros Hsize. eexists. split; [reflexivity |].
    intros Hlines.
    destruct (Nat.ltb_spec 0 (totalLines stats)) as [Hpos | Hzero]; [| lia].
    unfold Number.ofNat.
    destruct (Nat.eq_dec (commentLines stats) 0) as [Hnone | Hsome].
    + rewrite Hnone. simpl (Z.of_nat 0).
      rewrite Math_round_of_zero
        by (unfold Qdiv; apply Qmult_0_l).
      apply hundredths_nearest; lia.
    + destruct (round_hundredths (Z.of_nat (commentLines stats))
                  (Z.of_nat (totalLines stats))) as [H1 H2]; try lia.
      apply hundredths_nearest; [lia | exact H1 | exact H2].
Qed.

(** C1. The [commentsRatio] that [computeMetrics] returns is 0 when
    [totalLines] is 0; otherwise it is the number k/100, as binary64
    holds it, of an integer k such that k/100 is within half a hundredth
    of [commentLines / totalLines]: the ratio rounded to 2 decimals
    (for repositories of fewer than 2^44 lines, where the roundings of
    the division and of the product cannot move the result to another
    hundredth). *)
Theorem comments_ratio_rounded (repoPath : jsstring) (root : list Fs.node) :
  let m := computeMetrics toLowerCase repoPath root in
  (m_totalLines m = 0%nat -> m_commentsRatio m == 0) /\
  ((Z.of_nat (m_totalLines m) < 2 ^ 44)%Z ->
   exists k : Z,
     m_commentsRatio m = fl (inject_Z k / 100) /\
     (m_totalLines m <> 0%nat ->
      Qabs (inject_Z k / 100
            - Number.ofNat (m_commentLines m) / Number.ofNat (m_totalLines m))
      <= 1 # 200)).
Proof.
  intros m.
  apply (commentsRatioOf_rounded
           (analyzeDirectory toLowerCase repoPath root emptyStats)).
  apply computeMetrics_commentsWithinLines.
Qed.

End CommentRatio.

(** A script of three lines with one comment: 1/3 rounds to 0.33. *)
Lemma comments_ratio_rounded_witness :
  let root :=
    [Fs.File (js "run.py") (Some (js "# entry point
import app
app.main()"))] in
  let m := Analyzer.computeMetrics asciiLowerCase (js "/tmp/repo") root in
  (Analyzer.m_commentLines m = 1%nat /\ Analyzer.m_totalLines m = 3%nat) /\
  exists k : Z,
    Analyzer.m_commentsRatio m = fl (inject_Z k / 100) /\
    (Analyzer.m_totalLines m <> 0%nat ->
     (Qabs (inject_Z k / 100
            - Number.ofNat (Analyzer.m_commentLines m)
              / Number.ofNat (Analyzer.m_totalLines m)) <= 1 # 200)%Q).
Proof.
  intros root m. split; [split; reflexivity |].
  apply (proj2 (comments_ratio_rounded asciiLowerCase (js "/tmp/repo") root)).
  reflexivity.
Defined.

(** ** Lines *)

Section Lines.

Lemma split_nonempty (sep : N) (s : jsstring) : split sep s <> [].
Proof.
  destruct s as [|c s]; simpl; [discriminate |].
  destruct (c =? sep)%N; [discriminate |].
  destruct (split sep s); discriminate.
Qed.

Lemma split_length (sep : N) (s : jsstring) :
  length (split sep s) = S (count_occ N.eq_dec s sep).
Proof.
  induction s as [|c s IH]; simpl; [reflexivity |].
  destruct (N.eqb_spec c sep) as [-> | Hne].
  - destruct (N.eq_dec sep sep); [| congruence]. simpl. rewrite IH. reflexivity.
  - destruct (N.eq_dec c sep); [congruence |].
    destruct (split sep s) eqn:E; [exfalso; exact (split_nonempty sep s E) |].
    exact IH.
Qed.

Lemma split_app (sep : N) (a b : jsstring) :
  split sep (a ++ sep :: b) = split sep a ++ split sep b.
Proof.
  induction a as [|c a IH]; simpl.
  - rewrite N.eqb_refl. reflexivity.
  - destruct (c =? sep)%N; rewrite IH; [reflexivity |].
    destruct (split sep a) eqn:E; [exfalso; exact (split_nonempty sep a E) |].
    reflexivity.
Qed.

Lemma join_split (sep : N) (s : jsstring) : join [sep] (split sep s) = s.
Proof.
  induction s as [|c s IH]; simpl; [reflexivity |].
  destruct (N.eqb_spec c sep) as [-> | Hne].
  - destruct (split sep s) eqn:E; [exfalso; exact (split_nonempty sep s E) |].
    simpl in *. rewrite IH. reflexivity.
  - destruct (split sep s) as [|l ls] eqn:E;
      [exfalso; exact (split_nonempty sep s E) |].
    destruct ls; simpl in *; rewrite <- IH; reflexivity.
Qed.

End Lines.

(** ** One file *)

Section OneFile.

Context {F : Float64}.
Variable toLowerCase : jsstring -> jsstring.

(** What [analyzeFile] does, case by case. *)
Lemma analyzeFile_cases (filePath : jsstring) (content : option jsstring)
    (stats : Stats) :
  let fileName := Path.basename filePath in
  let ext := toLowerCase (Path.extname filePath) in
  let stats' := analyzeFile toLowerCase filePath content stats in
  (hasReadme stats'
   = (if startsWith (toLowerCase fileName) (js "readme") then true
      else hasReadme stats) /\
   hasTests stats'
   = (if isTestFile fileName filePath then true else hasTests stats) /\
   fileTypes stats'
   = (if truthy ext then JsObject.increment (fileTypes stats) ext
      else fileTypes stats)) /\
  (((isTextFile ext = false \/ content = None) /\
    totalFiles stats' = totalFiles stats /\
    totalLines stats' = totalLines stats /\
    commentLines stats' = commentLines stats /\
    aiPatterns stats' = aiPatterns stats /\
    codeSamples stats' = codeSamples stats)
   \/
   (exists text,
       content = Some text /\ isTextFile ext = true /\
       totalFiles stats' = S (totalFiles stats) /\
       totalLines stats' = totalLines stats + length (split LF text) /\
       commentLines stats' = commentLines stats + countCommentLines text ext /\
       aiPatterns stats' = aiPatterns (analyzeCodeContent text ext stats) /\
       (codeSamples stats' = codeSamples stats \/
        exists s,
          isMainCodeFile ext = true /\
          length (codeSamples stats) < 20 /\
          extractCodeSample text ext = Some s /\
          codeSamples stats'
          = codeSamples stats
            ++ [{| file := fileName; extension := ext; sample := s;
                   lines := length (split LF text) |}]))).
Proof.
  intros fileName ext stats'. subst stats'. unfold analyzeFile.
  fold fileName. fold ext.
  destruct (isTextFile ext) eqn:Htext.
  - destruct content as [text |].
    + destruct (isMainCodeFile ext) eqn:Hmain; simpl.
      * destruct (length (codeSamples stats) <? 20) eqn:Hcap; simpl.
        -- destruct (extractCodeSample text ext) as [s |] eqn:Hsample; simpl.
           ++ split; [auto |]. right. exists text.
              repeat (split; [reflexivity |]). right. exists s.
              apply Nat.ltb_lt in Hcap. auto.
           ++ split; [auto |]. right. exists text.
              repeat (split; [reflexivity |]). left. reflexivity.
        -- split; [auto |]. right. exists text.
           repeat (split; [reflexivity |]). left. reflexivity.
      * split; [auto |]. right. exists text.
        repeat (split; [reflexivity |]). left. reflexivity.
    + simpl. split; [auto |]. left. auto 10.
  - simpl. split; [auto |]. left. auto 10.
Qed.

End OneFile.

(** ** Code samples *)

Section CodeSamples.

Lemma join_cons_char (sep : N) (c : N) (l : jsstring) (rest : list jsstring) :
  join [sep] ((c :: l) :: rest) = c :: join [sep] (l :: rest).
Proof. destruct rest; reflexivity. Qed.

(** The first [k] lines, joined again, open the content. *)
Lemma join_firstn_split_prefix (sep : N) (s : jsstring) (k : nat) :
  exists rest, s = join [sep] (firstn k (split sep s)) ++ rest.
Proof.
  revert k. induction s as [|c s IH]; intros k.
  - exists []. destruct k as [|[|k]]; reflexivity.
  - destruct k as [|k]; [exists (c :: s); reflexivity |].
    simpl split. destruct (N.eqb_spec c sep) as [-> | Hne].
    + destruct (IH k) as [rest Hrest].
      destruct (firstn k (split sep s)) as [|l ls] eqn:E.
      * exists (sep :: s). simpl. rewrite E. reflexivity.
      * exists rest. simpl firstn. rewrite E.
        change (join [sep] ([] :: l :: ls))
          with (sep :: join [sep] (l :: ls)).
        rewrite <- app_comm_cons. f_equal. exact Hrest.
    + destruct (split sep s) as [|l ls] eqn:E;
        [exfalso; exact (split_nonempty sep s E) |].
      destruct (IH (S k)) as [rest Hrest]. exists rest.
      simpl firstn in *. rewrite join_cons_char, <- app_comm_cons.
      f_equal. exact Hrest.
Qed.

Lemma extractCodeSample_spec (content ext s : jsstring) :
  extractCodeSample content ext = Some s ->
  100 < length (trim s) /\
  length s <= 2003 /\
  ((length s <= 2000 /\ exists rest, content = s ++ rest) \/
   (exists head rest,
       length head = 2000 /\ s = head ++ js "..." /\
       content = head ++ rest)).
Proof.
  unfold extractCodeSample.
  set (joined := join [LF] (firstn 50 (split LF content))).
  destruct (join_firstn_split_prefix LF content 50) as [rest Hrest].
  fold joined in Hrest.
  destruct (Nat.ltb_spec 2000 (length joined)) as [Hlong | Hshort].
  - assert (Hhead : length (firstn 2000 joined) = 2000)
      by (apply firstn_length_le; lia).
    assert (Hcut : joined = firstn 2000 joined ++ skipn 2000 joined)
      by (symmetry; apply firstn_skipn).
    set (head := firstn 2000 joined) in *. clearbody head.
    destruct (100 <? length (trim (head ++ js "..."))) eqn:E;
      [| discriminate].
    intros H. injection H as <-. apply Nat.ltb_lt in E.
    split; [exact E |]. split.
    + rewrite length_app, Hhead. simpl. lia.
    + right. exists head, (skipn 2000 joined ++ rest).
      split; [exact Hhead |]. split; [reflexivity |].
      rewrite app_assoc, <- Hcut. exact Hrest.
  - destruct (100 <? length (trim joined)) eqn:E; [| discriminate].
    intros H. injection H as <-. apply Nat.ltb_lt in E.
    split; [exact E |]. split; [lia |].
    left. split; [exact Hshort |]. exists rest. exact Hrest.
Qed.

Lemma count_occ_reach (sep : N) (s : jsstring) :
  forall k, k < count_occ N.eq_dec s sep ->
  exists first rest,
    s = first ++ sep :: rest /\ count_occ N.eq_dec first sep = k.
Proof.
  induction s as [|c s IH]; intros k Hk; simpl in Hk; [lia |].
  destruct (N.eq_dec c sep) as [-> | Hne].
  - destruct k as [|k]; [exists [], s; auto |].
    destruct (IH k) as (first & rest & -> & Hcount); [lia |].
    exists (sep :: first), rest. simpl.
    destruct (N.eq_dec sep sep); [| congruence]. auto.
  - destruct (IH k Hk) as (first & rest & -> & Hcount).
    exists (c :: first), rest. simpl.
    destruct (N.eq_dec c sep); [congruence |]. auto.
Qed.

Lemma upToLine_exists (n : nat) (content : jsstring) :
  0 < n -> exists first, upToLine n content first.
Proof.
  intros Hn. unfold upToLine.
  destruct (Nat.lt_ge_cases (count_occ N.eq_dec content LF) n) as [Hfew | Hmany].
  - exists content. left. auto.
  - destruct (count_occ_reach LF content (n - 1)) as (first & rest & H & Hcount);
      [lia |].
    exists first. right. exists rest. split; [exact H | lia].
Qed.

(** [lines.slice(0, n).join('\n')] is the content up to its [n]th
    line. *)
Lemma join_firstn_split (n : nat) (content first : jsstring) :
  upToLine n content first ->
  join [LF] (firstn n (split LF content)) = first.
Proof.
  intros [[Hfew ->] | (rest & -> & Hcount)].
  - rewrite firstn_all2 by (rewrite split_length; lia). apply join_split.
  - rewrite split_app, firstn_app.
    assert (Hlength : length (split LF first) = n)
      by (rewrite split_length; exact Hcount).
    rewrite Hlength, Nat.sub_diag, firstn_O, app_nil_r.
    rewrite firstn_all2 by lia. apply join_split.
Qed.

(** X1. A sample is taken from the first 50 lines of the content: the
    content up to the end of its 50th line, whole when that is at most
    2000 code units, and otherwise its first 2000 code units followed
    by three dots. That text is the sample when it has more than 100
    code units once trimmed, and otherwise there is no sample. A sample
    has at most 2003 code units. *)
Theorem code_sample_is_a_bounded_prefix (content ext : jsstring) :
  (exists first, upToLine 50 content first) /\
  (forall first,
      upToLine 50 content first ->
      extractCodeSample content ext
      = if 100 <? length (trim (cutAt2000 first))
        then Some (cutAt2000 first) else None) /\
  (forall s,
      extractCodeSample content ext = Some s ->
      100 < length (trim s) /\ length s <= 2003).
Proof.
  split; [apply upToLine_exists; lia |]. split.
  - intros first Hfirst. unfold extractCodeSample, cutAt2000.
    rewrite (join_firstn_split 50 content first Hfirst). reflexivity.
  - intros s Hs.
    destruct (extractCodeSample_spec content ext s Hs)
      as (Htrimmed & Hlength & _).
    auto.
Qed.

End CodeSamples.

(** Of sixty lines the sample is the first fifty, without the line feed
    that ends them. *)
Lemma code_sample_is_a_bounded_prefix_witness :
  upToLine 50 sixtyLines fiftyLines /\
  extractCodeSample sixtyLines (js ".js") = Some fiftyLines.
Proof.
  assert (H : upToLine 50 sixtyLines fiftyLines).
  { right. exists (join [LF] (repeat (js "  total += price * quantity;") 10)).
    split; vm_compute; reflexivity. }
  split; [exact H |].
  rewrite (proj1 (proj2 (code_sample_is_a_bounded_prefix sixtyLines (js ".js")))
             fiftyLines H).
  vm_compute. reflexivity.
Defined.

(** ** Invariants of the walk *)

Section WalkInvariants.

Context {F : Float64}.
Variable toLowerCase : jsstring -> jsstring.

(** What every call of [analyzeFile] keeps, the walk keeps. *)
Lemma analyzeItem_preserves (P : Stats -> Prop) :
  (forall filePath content stats,
      P stats -> P (analyzeFile toLowerCase filePath content stats)) ->
  forall (item : Fs.node) (itemPath : jsstring) (stats : Stats),
    P stats -> P (analyzeItem toLowerCase itemPath item stats).
Proof.
  intros Hfile item.
  induction item as [name content | name entries IH | name | name | name]
    using node_rect_nested; intros itemPath stats HP; try exact HP.
  - apply Hfile. exact HP.
  - rewrite analyzeItem_dir. revert stats HP.
    induction IH as [|i rest Hi _ IHrest]; intros stats HP; [exact HP |].
    rewrite analyzeDirectory_cons.
    destruct (statThrows i); [exact HP |].
    destruct (skipped (Fs.name i)); apply IHrest; [exact HP |].
    apply Hi. exact HP.
Qed.

Lemma analyzeDirectory_preserves (P : Stats -> Prop) :
  (forall filePath content stats,
      P stats -> P (analyzeFile toLowerCase filePath content stats)) ->
  forall (dirPath : jsstring) (items : list Fs.node) (stats : Stats),
    P stats -> P (analyzeDirectory toLowerCase dirPath items stats).
Proof.
  intros Hfile dirPath items stats HP.
  apply (analyzeItem_preserves P Hfile (Fs.Dir [] items) dirPath stats HP).
Qed.

Lemma statsLe_refl (a : Stats) : statsLe a a.
Proof.
  unfold statsLe. repeat (split; [solve [auto] |]).
  exists []. rewrite app_nil_r. reflexivity.
Qed.

Lemma statsLe_trans (a b c : Stats) : statsLe a b -> statsLe b c -> statsLe a c.
Proof.
  unfold statsLe.
  intros (H1 & H2 & H3 & H4 & H5 & H6 & H7 & H8 & H9 & more1 & H10)
         (K1 & K2 & K3 & K4 & K5 & K6 & K7 & K8 & K9 & more2 & K10).
  repeat (split; [solve [auto | lia] |]).
  exists (more1 ++ more2). rewrite K10, H10, app_assoc. reflexivity.
Qed.

Lemma once_le_1 (b : bool) : once b <= 1.
Proof. destruct b; simpl; lia. Qed.

Lemma analyzeFile_statsLe (filePath : jsstring) (content : option jsstring)
    (stats : Stats) :
  statsLe stats (analyzeFile toLowerCase filePath content stats).
Proof.
  destruct (analyzeFile_cases toLowerCase filePath content stats)
    as [(Hreadme & Htests & _) Hcases].
  unfold statsLe. rewrite Hreadme, Htests.
  assert (Hr : hasReadme stats = true ->
               (if startsWith (toLowerCase (Path.basename filePath))
                     (js "readme")
                then true else hasReadme stats) = true)
    by (intros ->; destruct (startsWith _ _); reflexivity).
  assert (Ht : hasTests stats = true ->
               (if isTestFile (Path.basename filePath) filePath
                then true else hasTests stats) = true)
    by (intros ->; destruct (isTestFile _ _); reflexivity).
  destruct Hcases as [(_ & -> & -> & -> & -> & ->)
                     | (text & _ & _ & -> & -> & -> & -> & Hsamples)].
  - repeat (split; [solve [auto] |]). exists []. rewrite app_nil_r. reflexivity.
  - destruct (analyzeCodeContent_counters text
                (toLowerCase (Path.extname filePath)) stats)
      as (-> & -> & -> & ->).
    repeat (split; [solve [auto | lia] |]).
    destruct Hsamples as [-> | (s & _ & _ & _ & ->)].
    + exists []. rewrite app_nil_r. reflexivity.
    + eexists. reflexivity.
Qed.

Lemma analyzeFile_countersWithinFiles
    (filePath : jsstring) (content : option jsstring) (stats : Stats) :
  countersWithinFiles stats ->
  countersWithinFiles (analyzeFile toLowerCase filePath content stats).
Proof.
  unfold countersWithinFiles. intros (H1 & H2 & H3 & H4 & H5 & H6).
  destruct (analyzeFile_cases toLowerCase filePath content stats)
    as [_ [(_ & -> & -> & _ & -> & ->)
          | (text & _ & _ & -> & -> & _ & -> & Hsamples)]].
  - auto 10.
  - destruct (analyzeCodeContent_counters text
                (toLowerCase (Path.extname filePath)) stats)
      as (-> & -> & -> & ->).
    pose proof (split_length LF text) as Hlines.
    pose proof (once_le_1 (tripsGenericNames text)).
    pose proof (once_le_1 (tripsPerfectFormatting text)).
    pose proof (once_le_1 (tripsBoilerplateCode text)).
    pose proof (once_le_1 (tripsRepetitivePatterns text)).
    repeat (split; [lia |]).
    destruct Hsamples as [-> | (s & _ & _ & _ & ->)];
      [| rewrite length_app; simpl]; lia.
Qed.

Lemma includes_mainCode_text (ext : jsstring) :
  isMainCodeFile ext = true -> isTextFile ext = true.
Proof.
  unfold isMainCodeFile, isTextFile. rewrite !includes_In. intros H.
  simpl in H.
  repeat (destruct H as [<- | H]; [vm_compute; tauto |]).
  contradiction.
Qed.

Lemma analyzeFile_samplesWithinCap
    (filePath : jsstring) (content : option jsstring) (stats : Stats) :
  samplesWithinCap stats ->
  samplesWithinCap (analyzeFile toLowerCase filePath content stats).
Proof.
  unfold samplesWithinCap. intros [Hcap Hall].
  destruct (analyzeFile_cases toLowerCase filePath content stats)
    as [_ [(_ & _ & _ & _ & _ & ->)
          | (text & _ & Htext & _ & _ & _ & _ & Hsamples)]].
  - auto.
  - destruct Hsamples as [-> | (s & Hmain & Hroom & Hs & ->)]; [auto |].
    split; [rewrite length_app; simpl; lia |].
    apply Forall_app. split; [exact Hall |].
    constructor; [| constructor].
    destruct (extractCodeSample_spec text _ s Hs) as (Htrim & Hlen & _).
    pose proof (split_length LF text).
    unfold wellFormedSample. simpl. repeat split; (assumption || lia).
Qed.

Lemma analyzeDirectory_statsLe (dirPath : jsstring) (items : list Fs.node)
    (stats : Stats) :
  statsLe stats (analyzeDirectory toLowerCase dirPath items stats).
Proof.
  apply (analyzeDirectory_preserves (statsLe stats)); [| apply statsLe_refl].
  intros filePath content stats' Hle.
  apply statsLe_trans with stats'; [exact Hle | apply analyzeFile_statsLe].
Qed.

(** X2. The walk only adds: along [analyzeDirectory] no counter
    decreases, the README and test flags are never cleared, and the list
    of samples only grows at its end. *)
Theorem walk_only_adds (dirPath : jsstring) (items : list Fs.node)
    (stats : Stats) :
  statsLe stats (analyzeDirectory toLowerCase dirPath items stats).
Proof.
  apply (analyzeDirectory_preserves (statsLe stats)); [| apply statsLe_refl].
  intros filePath content stats' Hle.
  apply statsLe_trans with stats'; [exact Hle | apply analyzeFile_statsLe].
Qed.

(** X3. In the metrics of a repository, every counted file has at least
    one line, comment lines are at most the lines, and each of the four
    signal counters and the number of samples are at most the number of
    files. *)
Theorem metrics_counters_within_files
    (repoPath : jsstring) (root : list Fs.node) :
  let m := computeMetrics toLowerCase repoPath root in
  m_totalFiles m <= m_totalLines m /\
  m_commentLines m <= m_totalLines m /\
  genericNames (m_aiPatterns m) <= m_totalFiles m /\
  perfectFormatting (m_aiPatterns m) <= m_totalFiles m /\
  boilerplateCode (m_aiPatterns m) <= m_totalFiles m /\
  repetitivePatterns (m_aiPatterns m) <= m_totalFiles m /\
  length (m_codeSamples m) <= m_totalFiles m.
Proof.
  intros m.
  assert (H : countersWithinFiles
                (analyzeDirectory toLowerCase repoPath root emptyStats)).
  { apply analyzeDirectory_preserves.
    - apply analyzeFile_countersWithinFiles.
    - unfold countersWithinFiles. simpl. lia. }
  destruct H as (H1 & H2 & H3 & H4 & H5 & H6).
  pose proof (computeMetrics_commentsWithinLines toLowerCase repoPath root)
    as Hcomments.
  subst m. unfold computeMetrics in *.
  cbn [m_totalFiles m_totalLines m_commentLines m_aiPatterns m_codeSamples]
    in *.
  set (stats := analyzeDirectory toLowerCase repoPath root emptyStats) in *.
  pose proof (length_firstn 10 (codeSamples stats)).
  repeat split; (assumption || lia).
Qed.

(** X4. The walk keeps at most 20 samples and [computeMetrics] returns at
    most 10 of them, the first ones; each comes from a main-code file,
    has at most 2003 code units, more than 100 once trimmed, and the
    line count of its file. *)
Theorem samples_are_capped (repoPath : jsstring) (root : list Fs.node) :
  let stats := analyzeDirectory toLowerCase repoPath root emptyStats in
  let m := computeMetrics toLowerCase repoPath root in
  length (codeSamples stats) <= 20 /\
  m_codeSamples m = firstn 10 (codeSamples stats) /\
  length (m_codeSamples m) <= 10 /\
  Forall wellFormedSample (m_codeSamples m).
Proof.
  intros stats m.
  assert (H : samplesWithinCap stats).
  { apply analyzeDirectory_preserves.
    - apply analyzeFile_samplesWithinCap.
    - split; [simpl; lia | constructor]. }
  destruct H as [Hcap Hall].
  split; [exact Hcap |]. split; [reflexivity |]. split.
  - subst m. unfold computeMetrics. cbn [m_codeSamples].
    rewrite length_firstn. lia.
  - subst m. unfold computeMetrics. cbn [m_codeSamples]. fold stats.
    rewrite <- (firstn_skipn 10 (codeSamples stats)) in Hall.
    apply Forall_app in Hall. apply Hall.
Qed.

End WalkInvariants.

(** ** The order of the walk *)

Section WalkOrder.

Context {F : Float64}.
Variable toLowerCase : jsstring -> jsstring.

Lemma analyzeDirectory_app (dirPath : jsstring) (a b : list Fs.node)
    (stats : Stats) :
  existsb statThrows a = false ->
  analyzeDirectory toLowerCase dirPath (a ++ b) stats
  = analyzeDirectory toLowerCase dirPath b
      (analyzeDirectory toLowerCase dirPath a stats).
Proof.
  revert stats. induction a as [|i a IH]; intros stats Hstat.
  - reflexivity.
  - simpl in Hstat. apply orb_false_iff in Hstat. destruct Hstat as [Hi Ha].
    rewrite <- app_comm_cons, !analyzeDirectory_cons, Hi.
    destruct (skipped (Fs.name i)); apply IH; exact Ha.
Qed.

(** X5. The entries of a directory are handled in order, each on the
    statistics that the entries before it left; an entry for which
    [stat] throws ends the walk of its directory, and the entries after
    it are not analyzed. *)
Theorem walk_in_order_until_stat_fails (dirPath : jsstring)
    (before rest : list Fs.node) (stats : Stats) :
  existsb statThrows before = false ->
  analyzeDirectory toLowerCase dirPath (before ++ rest) stats
  = analyzeDirectory toLowerCase dirPath rest
      (analyzeDirectory toLowerCase dirPath before stats) /\
  forall name,
    analyzeDirectory toLowerCase dirPath (before ++ Fs.Broken name :: rest)
      stats
    = analyzeDirectory toLowerCase dirPath before stats.
Proof.
  intros Hstat. split; [apply analyzeDirectory_app; exact Hstat |].
  intros name. rewrite analyzeDirectory_app by exact Hstat.
  rewrite analyzeDirectory_cons. reflexivity.
Qed.

Lemma reaches_analyzed (dirPath : jsstring) (items : list Fs.node)
    (filePath : jsstring) (content : option jsstring) :
  reaches dirPath items filePath content ->
  forall stats, exists before,
    statsLe stats before /\
    statsLe (analyzeFile toLowerCase filePath content before)
      (analyzeDirectory toLowerCase dirPath items stats).
Proof.
  induction 1 as [dirPath name content before rest Hstat Hname
                 | dirPath name filePath content entries before rest
                     Hstat Hname _ IH]; intros stats.
  - exists (analyzeDirectory toLowerCase dirPath before stats).
    split; [apply analyzeDirectory_statsLe |].
    rewrite analyzeDirectory_app by exact Hstat.
    rewrite analyzeDirectory_cons. simpl statThrows. cbv iota.
    simpl Fs.name. rewrite Hname. apply analyzeDirectory_statsLe.
  - destruct (IH (analyzeDirectory toLowerCase dirPath before stats))
      as (at_file & Hbefore & Hafter).
    exists at_file. split.
    + apply statsLe_trans
        with (analyzeDirectory toLowerCase dirPath before stats);
        [apply analyzeDirectory_statsLe | exact Hbefore].
    + rewrite analyzeDirectory_app by exact Hstat.
      rewrite analyzeDirectory_cons. simpl statThrows. cbv iota.
      simpl Fs.name. rewrite Hname, analyzeItem_dir.
      eapply statsLe_trans; [exact Hafter | apply analyzeDirectory_statsLe].
Qed.

(** X6. Every file that the walk reaches is analyzed and what it adds
    stays: a reached file whose lower-cased name starts with [readme]
    sets [hasReadme], a reached file whose name or path matches a test
    pattern sets [hasTests], and a reached text file that can be read is
    counted with all its lines. *)
Theorem reached_file_is_counted (repoPath : jsstring) (root : list Fs.node)
    (filePath : jsstring) (content : option jsstring) :
  reaches repoPath root filePath content ->
  let m := computeMetrics toLowerCase repoPath root in
  (startsWith (toLowerCase (Path.basename filePath)) (js "readme") = true ->
   m_hasReadme m = true) /\
  (isTestFile (Path.basename filePath) filePath = true ->
   m_hasTests m = true) /\
  (forall text,
      content = Some text ->
      isTextFile (toLowerCase (Path.extname filePath)) = true ->
      1 <= m_totalFiles m /\ length (split LF text) <= m_totalLines m).
Proof.
  intros Hreaches m.
  destruct (reaches_analyzed repoPath root filePath content Hreaches emptyStats)
    as (before & Hbefore & Hafter).
  destruct (analyzeFile_cases toLowerCase filePath content before)
    as [(Hreadme & Htests & _) Hcases].
  destruct Hafter as (H1 & H2 & _ & H4 & H5 & _).
  subst m. unfold computeMetrics.
  cbn [m_hasReadme m_hasTests m_totalFiles m_totalLines].
  split; [| split].
  - intros Hname. apply H4. rewrite Hreadme, Hname. reflexivity.
  - intros Htest. apply H5. rewrite Htests, Htest. reflexivity.
  - intros text -> Htext.
    destruct Hcases as [([Hno | Hno] & _)
                       | (text' & Heq & _ & Hfiles & Hlines & _)];
      [congruence | discriminate |].
    injection Heq as <-. lia.
Qed.

End WalkOrder.

Lemma walk_in_order_until_stat_fails_witness :
  let source := Fs.File (js "a.py") (Some (js "# a
x = 1")) in
  let later := Fs.File (js "b.py") (Some (js "y = 2")) in
  let m root := computeMetrics asciiLowerCase (js "/tmp/repo") root in
  m [source; Fs.Broken (js "dangling"); later] = m [source] /\
  m_totalFiles (m [source; later]) = 2.
Proof.
  intros source later m. split; [| reflexivity].
  unfold m, computeMetrics.
  rewrite (proj2 (walk_in_order_until_stat_fails asciiLowerCase
                    (js "/tmp/repo") [source] [later] emptyStats
                    eq_refl) (js "dangling")).
  reflexivity.
Defined.

Lemma reached_file_is_counted_witness :
  let readme := Fs.File (js "ReadMe.txt") (Some (js "About
this")) in
  let root := [Fs.Dir (js "docs") [Fs.Other (js "socket"); readme]] in
  let m := computeMetrics asciiLowerCase (js "/tmp/repo") root in
  m_hasReadme m = true /\ 1 <= m_totalFiles m /\ 2 <= m_totalLines m.
Proof.
  intros readme root m.
  assert (H : reaches (js "/tmp/repo") root (js "/tmp/repo/docs/ReadMe.txt")
                (Some (js "About
this"))).
  { apply (reaches_below (js "/tmp/repo") (js "docs") _ _ _ [] []);
      [reflexivity | reflexivity |].
    apply (reaches_file (js "/tmp/repo/docs") (js "ReadMe.txt") _
             [Fs.Other (js "socket")] []); reflexivity. }
  destruct (reached_file_is_counted asciiLowerCase _ _ _ _ H)
    as (Hreadme & _ & Htext).
  split; [apply Hreadme; reflexivity |].
  apply (Htext _ eq_refl). reflexivity.
Defined.

(** ** What one file adds *)

Section FileContribution.

Context {F : Float64}.
Variable toLowerCase : jsstring -> jsstring.

(** X7. A file that is not a text file, or that cannot be read, leaves
    the counts of files, lines and comment lines, the signal counters
    and the samples as they are; and the README flag, the test flag and
    the table of extensions that [analyzeFile] leaves do not depend on
    the content of the file, nor on whether it can be read. *)
Theorem only_readable_text_is_counted (filePath : jsstring)
    (content : option jsstring) (stats : Stats) :
  let ext := toLowerCase (Path.extname filePath) in
  let stats' := analyzeFile toLowerCase filePath content stats in
  (isTextFile ext = false \/ content = None ->
   totalFiles stats' = totalFiles stats /\
   totalLines stats' = totalLines stats /\
   commentLines stats' = commentLines stats /\
   aiPatterns stats' = aiPatterns stats /\
   codeSamples stats' = codeSamples stats) /\
  (forall other,
      let stats'' := analyzeFile toLowerCase filePath other stats in
      hasReadme stats' = hasReadme stats'' /\
      hasTests stats' = hasTests stats'' /\
      fileTypes stats' = fileTypes stats'').
Proof.
  intros ext stats'.
  destruct (analyzeFile_cases toLowerCase filePath content stats)
    as [(Hreadme & Htests & Htypes) Hcases].
  fold stats' in Hreadme, Htests, Htypes, Hcases. split.
  - intros Hno.
    destruct Hcases as [(_ & H) | (text & -> & Htext & _)]; [exact H |].
    fold ext in Htext. destruct Hno; congruence.
  - intros other stats''.
    destruct (analyzeFile_cases toLowerCase filePath other stats)
      as [(Hreadme' & Htests' & Htypes') _].
    fold stats'' in Hreadme', Htests', Htypes'.
    rewrite Hreadme, Htests, Htypes, Hreadme', Htests', Htypes'. auto.
Qed.

(** X8. A text file that is read adds one file and one more line than it
    has line feeds: the empty file counts for one line, and a file that
    ends with a line feed counts the empty line after it. *)
Theorem text_file_adds_line_feeds_plus_one (filePath content : jsstring)
    (stats : Stats) :
  let ext := toLowerCase (Path.extname filePath) in
  let stats' := analyzeFile toLowerCase filePath (Some content) stats in
  isTextFile ext = true ->
  totalFiles stats' = totalFiles stats + 1 /\
  totalLines stats'
  = totalLines stats + 1 + count_occ N.eq_dec content LF.
Proof.
  intros ext stats' Htext.
  destruct (analyzeFile_text_lines toLowerCase filePath content stats Htext)
    as (Hfiles & Hlines & _).
  fold stats' in Hfiles, Hlines.
  rewrite Hfiles, Hlines, split_length. lia.
Qed.

End FileContribution.

Lemma only_readable_text_is_counted_witness :
  let stats' :=
    analyzeFile asciiLowerCase (js "/tmp/repo/tests/logo.PNG") None emptyStats in
  totalFiles stats' = 0 /\ totalLines stats' = 0 /\
  hasTests stats' = true /\
  fileTypes stats' = [(js ".png", JsObject.VNum 1)].
Proof.
  intros stats'.
  destruct (proj1 (only_readable_text_is_counted asciiLowerCase
                     (js "/tmp/repo/tests/logo.PNG") None emptyStats)
              (or_intror eq_refl)) as (Hfiles & Hlines & _).
  split; [exact Hfiles | split; [exact Hlines |]].
  split; reflexivity.
Defined.

Lemma text_file_adds_line_feeds_plus_one_witness :
  let lines content :=
    totalLines (analyzeFile asciiLowerCase (js "/tmp/repo/notes.txt")
                  (Some content) emptyStats) in
  lines [] = 1 /\ lines (js "a
b
") = 3.
Proof.
  intros lines. split.
  - apply (text_file_adds_line_feeds_plus_one asciiLowerCase
             (js "/tmp/repo/notes.txt") [] emptyStats). reflexivity.
  - apply (text_file_adds_line_feeds_plus_one asciiLowerCase
             (js "/tmp/repo/notes.txt") (js "a
b
") emptyStats). reflexivity.
Defined.

(** ** Comment lines of a concatenation *)

Section CommentsCompose.

Lemma countCommentLoop_acc (ext : jsstring) (ls : list jsstring) (n : nat) :
  countCommentLoop ext ls n = n + countCommentLoop ext ls 0.
Proof.
  revert n. induction ls as [|l ls IH]; intros n; simpl; [lia |].
  destruct (negb (truthy (trim l))); [apply IH |].
  destruct (isCommentLine ext (trim l)); [| apply IH].
  rewrite (IH (S n)), (IH 1). lia.
Qed.

Lemma countCommentLoop_app (ext : jsstring) (a b : list jsstring) (n : nat) :
  countCommentLoop ext (a ++ b) n
  = countCommentLoop ext b (countCommentLoop ext a n).
Proof.
  revert n. induction a as [|l a IH]; intros n; simpl; [reflexivity |].
  destruct (negb (truthy (trim l))); [apply IH |].
  destruct (isCommentLine ext (trim l)); apply IH.
Qed.

(** X9. Comment lines are counted line by line: the count of two contents
    joined by a line feed is the sum of their counts, and so is the
    number of lines. *)
Theorem comment_lines_add_up (a b ext : jsstring) :
  countCommentLines (a ++ LF :: b) ext
  = countCommentLines a ext + countCommentLines b ext /\
  length (split LF (a ++ LF :: b))
  = length (split LF a) + length (split LF b).
Proof.
  unfold countCommentLines. rewrite split_app, countCommentLoop_app.
  rewrite length_app. split; [apply countCommentLoop_acc | reflexivity].
Qed.

End CommentsCompose.

(** ** Test files *)

Section TestFiles.

Import Regex.

Lemma rmatch_lit_i (part : jsstring) :
  part <> [] ->
  forall (prev : option N) (s : jsstring)
         (k : option N -> jsstring -> option pos),
    rmatch (lit_i part) prev s k
    = if foldStarts s part
      then k (Some (nth (length part - 1) s 0%N)) (skipn (length part) s)
      else None.
Proof.
  induction part as [|c part IH]; intros Hne prev s k; [congruence |].
  destruct part as [|c' part].
  - destruct s as [|x s]; [reflexivity |].
    cbn [lit_i rmatch chr_i foldStarts length Nat.sub nth skipn].
    destruct (N.eqb (canonicalize x) (canonicalize c)); [| reflexivity].
    destruct s; reflexivity.
  - change (lit_i (c :: c' :: part))
      with (Seq (chr_i c) (lit_i (c' :: part))).
    cbn [rmatch chr_i]. destruct s as [|x s]; [reflexivity |].
    cbn [foldStarts].
    destruct (N.eqb (canonicalize x) (canonicalize c)); [| reflexivity].
    rewrite IH by discriminate. cbn [andb].
    destruct (foldStarts s (c' :: part)); [| reflexivity].
    cbn [length skipn Nat.sub nth]. rewrite Nat.sub_0_r. reflexivity.
Qed.

Lemma test_lit_i (part s : jsstring) :
  part <> [] -> test (lit_i part) s = foldContains s part.
Proof.
  intros Hne. unfold test. generalize (@None N).
  induction s as [|x s IH]; intros prev.
  - simpl testFrom. unfold matchAt. rewrite rmatch_lit_i by exact Hne.
    cbn [foldContains]. destruct (foldStarts [] part); reflexivity.
  - cbn [testFrom foldContains]. unfold matchAt.
    rewrite rmatch_lit_i by exact Hne.
    destruct (foldStarts (x :: s) part); [reflexivity |]. apply IH.
Qed.

Lemma foldStarts_spec (s part : jsstring) :
  foldStarts s part = true <->
  exists found after,
    s = found ++ after /\
    List.map canonicalize found = List.map canonicalize part.
Proof.
  revert s. induction part as [|c part IH]; intros s.
  - split; [intros _; exists [], s; auto | intros _; destruct s; reflexivity].
  - destruct s as [|x s]; simpl.
    + split; [discriminate |].
      intros (found & after & Hs & Hmap).
      destruct found; [discriminate Hmap | discriminate Hs].
    + rewrite andb_true_iff, N.eqb_eq, IH. split.
      * intros (Hx & found & after & -> & Hmap).
        exists (x :: found), after. simpl. rewrite Hx, Hmap. auto.
      * intros (found & after & Hs & Hmap).
        destruct found as [|y found]; [discriminate Hmap |].
        simpl in Hs, Hmap. injection Hs as <- ->. injection Hmap as Hx Hmap.
        split; [exact Hx |]. exists found, after. auto.
Qed.

Lemma foldContains_spec (s part : jsstring) :
  foldContains s part = true <-> containsIgnoringCase s part.
Proof.
  unfold containsIgnoringCase. induction s as [|x s IH].
  - cbn [foldContains]. rewrite orb_false_r, foldStarts_spec. split.
    + intros (found & after & Hs & Hmap). exists [], found, after. auto.
    + intros (before & found & after & Hs & Hmap).
      destruct before; [| discriminate Hs]. exists found, after. auto.
  - cbn [foldContains]. rewrite orb_true_iff, IH, foldStarts_spec. split.
    + intros [(found & after & Hs & Hmap)
             | (before & found & after & -> & Hmap)].
      * exists [], found, after. auto.
      * exists (x :: before), found, after. auto.
    + intros (before & found & after & Hs & Hmap).
      destruct before as [|y before].
      * left. exists found, after. auto.
      * right. simpl in Hs. injection Hs as _ ->.
        exists before, found, after. auto.
Qed.

(** A text that contains the longer word contains the part of it. *)
Lemma containsIgnoringCase_part (s left part right : jsstring) :
  containsIgnoringCase s (left ++ part ++ right) ->
  containsIgnoringCase s part.
Proof.
  intros (before & found & after & -> & Hmap).
  rewrite !map_app in Hmap.
  exists (before ++ firstn (length left) found),
         (firstn (length part) (skipn (length left) found)),
         (skipn (length part) (skipn (length left) found) ++ after).
  split.
  - rewrite <- !app_assoc. f_equal.
    rewrite (app_assoc (firstn _ (skipn _ found))), firstn_skipn.
    rewrite app_assoc, firstn_skipn. reflexivity.
  - rewrite <- firstn_map, <- skipn_map, Hmap.
    rewrite <- (length_map canonicalize left), skipn_app, skipn_all.
    rewrite Nat.sub_diag. simpl.
    rewrite <- (length_map canonicalize part), firstn_app, firstn_all.
    rewrite Nat.sub_diag. simpl. apply app_nil_r.
Qed.

(** X10. A file is a test file if and only if its name or its path
    contains [test] or [spec], whatever the case of the letters: the
    three longer patterns add nothing, and a directory such as [latest]
    or [inspector] anywhere in the path is enough. *)
Theorem test_file_iff_test_or_spec (fileName filePath : jsstring) :
  isTestFile fileName filePath = true <->
  containsIgnoringCase fileName (js "test") \/
  containsIgnoringCase filePath (js "test") \/
  containsIgnoringCase fileName (js "spec") \/
  containsIgnoringCase filePath (js "spec").
Proof.
  unfold isTestFile, testPatterns. cbn [existsb].
  rewrite !test_lit_i by discriminate.
  rewrite !orb_true_iff, !foldContains_spec.
  assert (H1 : forall s, containsIgnoringCase s (js "__tests__") ->
                         containsIgnoringCase s (js "test"))
    by (intros s; apply (containsIgnoringCase_part s (js "__") (js "test")
                           (js "s__"))).
  assert (H2 : forall s, containsIgnoringCase s (js ".test.") ->
                         containsIgnoringCase s (js "test"))
    by (intros s; apply (containsIgnoringCase_part s (js ".") (js "test")
                           (js "."))).
  assert (H3 : forall s, containsIgnoringCase s (js ".spec.") ->
                         containsIgnoringCase s (js "spec"))
    by (intros s; apply (containsIgnoringCase_part s (js ".") (js "spec")
                           (js "."))).
  split; [| tauto].
  intros [[H | H] | [[H | H] | [[H | H] | [[H | H] | [[H | H] | H]]]]];
    auto; discriminate H.
Qed.

End TestFiles.

(** ** The record of the Python analyzer *)

Section PythonRecord.

Context {F : Float64}.
Variable toLowerCase : jsstring -> jsstring.
Variable JSON_parse : jsstring -> result ParsedRecord.

Lemma findJsonLine_last (before after : list jsstring) (line : jsstring) :
  looksLikeRecord line = true ->
  (forall l, In l after -> looksLikeRecord l = false) ->
  findJsonLine (rev (before ++ line :: after)) = trim line.
Proof.
  intros Hline Hafter.
  rewrite rev_app_distr. simpl rev. rewrite <- app_assoc. simpl app.
  assert (Hrev : forall l, In l (rev after) -> looksLikeRecord l = false)
    by (intros l H; apply Hafter, in_rev; exact H).
  induction (rev after) as [|l ls IH].
  - simpl. fold (looksLikeRecord line). rewrite Hline. reflexivity.
  - simpl. fold (looksLikeRecord l).
    rewrite (Hrev l) by (left; reflexivity).
    apply IH. intros l' H. apply Hrev. right. exact H.
Qed.

Lemma looksLikeRecord_truthy (line : jsstring) :
  looksLikeRecord line = true -> truthy (trim line) = true.
Proof.
  unfold looksLikeRecord. intros H. apply andb_true_iff in H.
  destruct H as [H _]. destruct (trim line); [discriminate H | reflexivity].
Qed.

(** X11. When the process exits with code 0, the adapter settles on the
    last line of the trimmed output that looks like a record, and only
    on it: it resolves with what [JSON.parse] makes of that line, and
    when the parser refuses the line it rejects, without trying an
    earlier record. *)
Theorem exit_zero_settles_on_last_record
    (output rest : list event) (before after : list jsstring)
    (line : jsstring) :
  forallb isData output = true ->
  split LF (trim (stdoutOf output)) = before ++ line :: after ->
  looksLikeRecord line = true ->
  (forall l, In l after -> looksLikeRecord l = false) ->
  PythonIntegration.analyzeRepository JSON_parse
    (output ++ Close (Some 0%Z) :: rest)
  = match JSON_parse (trim line) with
    | Ok value => Resolved value
    | Throw message =>
        Rejected (js "Failed to parse Python analyzer output: " ++ message)
    end.
Proof.
  intros Hdata Hlines Hline Hafter.
  unfold PythonIntegration.analyzeRepository.
  rewrite settle_data by exact Hdata. cbn [settle onClose app].
  unfold parseOutput. rewrite Hlines, findJsonLine_last by assumption.
  rewrite (looksLikeRecord_truthy line Hline). reflexivity.
Qed.

(** X12. When the process cannot be started, or fails before it closes,
    the adapter rejects with the message of the error behind a fixed
    prefix, whatever was written before, and the pipeline returns the
    repository metrics with that message nested. *)
Theorem process_error_is_absorbed
    (usedBranch tempRepoPath : jsstring) (root : list Fs.node)
    (output rest : list event) (message : jsstring) :
  forallb isData output = true ->
  let failure := js "Failed to start Python analyzer: " ++ message in
  PythonIntegration.analyzeRepository JSON_parse
    (output ++ ProcessError message :: rest) = Rejected failure /\
  exists c,
    RepoAnalyzer.analyzeRepository toLowerCase JSON_parse (Ok usedBranch)
      tempRepoPath root (output ++ ProcessError message :: rest) = Ok c /\
    carries c (RepoAnalyzer.withBranch
                 (computeMetrics toLowerCase tempRepoPath root) usedBranch) /\
    pythonAnalysis c = AnalysisError failure.
Proof.
  intros Hdata failure.
  assert (Hrejected :
            PythonIntegration.analyzeRepository JSON_parse
              (output ++ ProcessError message :: rest) = Rejected failure).
  { unfold PythonIntegration.analyzeRepository.
    rewrite settle_data by exact Hdata. reflexivity. }
  split; [exact Hrejected |].
  eexists. unfold RepoAnalyzer.analyzeRepository, RepoAnalyzer.runPython.
  rewrite Hrejected. split; [reflexivity |].
  split; [apply mergeMetrics_carries |].
  apply (mergeMetrics_error_branch _ (errorMarker failure) failure eq_refl).
  discriminate.
Qed.

(** X13. When the adapter resolves with a record of the types of the
    Python analyzer that carries no error, the analysis returns the
    repository metrics with the branch used, and its combined highlights
    are the highlights of the record alone, each once in the order of
    first occurrence: the repository metrics never bring highlights of
    their own.  When the record carries no error and its highlights
    cannot be spread, the merger throws and the analysis throws the
    message of the [TypeError] behind its prefix, although the
    repository was cloned and measured. *)
Theorem resolved_record_gives_its_highlights
    (usedBranch tempRepoPath : jsstring) (root : list Fs.node)
    (events : list event) :
  (forall value : PythonMetrics,
      PythonIntegration.analyzeRepository JSON_parse events
      = Resolved (Typed value) ->
      error value = None \/ error value = Some [] ->
      exists c,
        RepoAnalyzer.analyzeRepository toLowerCase JSON_parse (Ok usedBranch)
          tempRepoPath root events = Ok c /\
        c_usedBranch c = Some usedBranch /\
        c_highlights c = None /\
        combinedHighlights c
        = Some (firstOccurrences [] (orEmpty (highlights value)))) /\
  (forall (marker : option jsstring) (typeError : jsstring),
      PythonIntegration.analyzeRepository JSON_parse events
      = Resolved (NotIterable marker typeError) ->
      marker = None \/ marker = Some [] ->
      RepoAnalyzer.analyzeRepository toLowerCase JSON_parse (Ok usedBranch)
        tempRepoPath root events
      = Throw (js "Failed to analyze repository: " ++ typeError)).
Proof.
  split.
  - intros value Hresolved Herror. eexists.
    unfold RepoAnalyzer.analyzeRepository, RepoAnalyzer.runPython.
    rewrite Hresolved. cbn [mergeParsed]. split; [reflexivity |].
    rewrite <- removeDuplicates_firstOccurrences.
    unfold mergeMetrics. destruct Herror as [-> | ->]; simpl; auto.
  - intros marker typeError Hresolved Hmarker.
    unfold RepoAnalyzer.analyzeRepository, RepoAnalyzer.runPython.
    rewrite Hresolved. cbn [mergeParsed].
    destruct Hmarker as [-> | ->]; reflexivity.
Qed.

End PythonRecord.

Lemma exit_zero_settles_on_last_record_witness :
  let output :=
    [StdoutData (js "{broken}
{}"); StderrData (js "warning"); StdoutData (js "
done
")] in
  split LF (trim (stdoutOf output)) = [js "{broken}"; js "{}"; js "done"] /\
  PythonIntegration.analyzeRepository rejectingParse
    (output ++ [Close (Some 0%Z)])
  = match rejectingParse (trim (js "{}")) with
    | Ok value => Resolved value
    | Throw message =>
        Rejected (js "Failed to parse Python analyzer output: " ++ message)
    end.
Proof.
  intros output. split; [reflexivity |].
  apply (exit_zero_settles_on_last_record rejectingParse output []
           [js "{broken}"] [js "done"] (js "{}")).
  - reflexivity.
  - reflexivity.
  - reflexivity.
  - intros l [<- | []]. reflexivity.
Defined.

Lemma process_error_is_absorbed_witness :
  let events := [StderrData (js "spawn"); ProcessError (js "ENOENT")] in
  PythonIntegration.analyzeRepository rejectingParse events
  = Rejected (js "Failed to start Python analyzer: ENOENT") /\
  exists c,
    RepoAnalyzer.analyzeRepository asciiLowerCase rejectingParse
      (Ok (js "main")) (js "/tmp/repo") [] events = Ok c /\
    carries c (RepoAnalyzer.withBranch
                 (Analyzer.computeMetrics asciiLowerCase (js "/tmp/repo") [])
                 (js "main")) /\
    pythonAnalysis c
    = AnalysisError (js "Failed to start Python analyzer: ENOENT").
Proof.
  intros events.
  apply (process_error_is_absorbed asciiLowerCase rejectingParse (js "main")
           (js "/tmp/repo") [] [StderrData (js "spawn")] [] (js "ENOENT")).
  reflexivity.
Defined.

Lemma resolved_record_gives_its_highlights_witness :
  (let parse := parseKnownAt twoHighlightsText (Typed twoHighlights) in
   let events := [StdoutData twoHighlightsText; Close (Some 0%Z)] in
   PythonIntegration.analyzeRepository parse events
   = Resolved (Typed twoHighlights) /\
   exists c,
     RepoAnalyzer.analyzeRepository asciiLowerCase parse (Ok (js "main"))
       (js "/tmp/repo") [] events = Ok c /\
     c_usedBranch c = Some (js "main") /\
     c_highlights c = None /\
     combinedHighlights c = Some [js "a"]) /\
  (let parse := parseKnownAt numberForHighlightsText numberForHighlights in
   let events := [StdoutData numberForHighlightsText; Close (Some 0%Z)] in
   PythonIntegration.analyzeRepository parse events
   = Resolved numberForHighlights /\
   RepoAnalyzer.analyzeRepository asciiLowerCase parse (Ok (js "main"))
     (js "/tmp/repo") [] events
   = Throw (js "Failed to analyze repository: pythonMetrics.highlights is not iterable")).
Proof.
  split.
  - intros parse events. split; [reflexivity |].
    apply (proj1 (resolved_record_gives_its_highlights asciiLowerCase parse
                    (js "main") (js "/tmp/repo") [] events) twoHighlights).
    + reflexivity.
    + left. reflexivity.
  - intros parse events. split; [reflexivity |].
    apply (proj2 (resolved_record_gives_its_highlights asciiLowerCase parse
                    (js "main") (js "/tmp/repo") [] events) None
             (js "pythonMetrics.highlights is not iterable")).
    + reflexivity.
    + left. reflexivity.
Defined.

(** ** Cloning *)

Section Clones.

Import Cloning Server.

Variable setup : result unit.
Variable git : nat -> option jsstring -> result unit.

(** The loop over the usual branches and the clone without a branch. *)
Lemma usual_branches_first (branches : list jsstring) :
  forall (n i : nat) (attempt : option jsstring),
    nth_error (List.map Some branches ++ [None]) i = Some attempt ->
    git (n + i) attempt = Ok tt ->
    (forall j a, j < i ->
                 nth_error (List.map Some branches ++ [None]) j = Some a ->
                 exists message, git (n + j) a = Throw message) ->
    match tryBranches git n branches with
    | Some branch => Ok branch
    | None =>
        match git (n + length branches) None with
        | Ok _ => Ok (js "default")
        | Throw message =>
            Throw (js "Failed to clone repository: "
                   ++ js "Failed to clone repository with any branch: "
                   ++ message)
        end
    end = Ok (branchName attempt).
Proof.
  induction branches as [|b branches IH]; intros n i attempt Hnth Hgit Hbefore.
  - destruct i as [|i]; [| destruct i; discriminate Hnth].
    injection Hnth as <-. simpl. rewrite Hgit. reflexivity.
  - destruct i as [|i].
    + injection Hnth as <-. simpl. rewrite Nat.add_0_r in Hgit.
      rewrite Hgit. reflexivity.
    + destruct (Hbefore 0 (Some b)) as [message Hfail];
        [lia | reflexivity |].
      rewrite Nat.add_0_r in Hfail. cbn [tryBranches]. rewrite Hfail.
      replace (n + length (b :: branches)) with (S n + length branches)
        by (simpl; lia).
      apply (IH (S n) i attempt Hnth).
      * replace (S n + i) with (n + S i) by lia. exact Hgit.
      * intros j a Hj Ha.
        replace (S n + j) with (n + S j) by lia.
        apply Hbefore; [lia | exact Ha].
Qed.

Lemma usual_branches_all_fail (branches : list jsstring) :
  forall n : nat,
    (forall j a, nth_error (List.map Some branches ++ [None]) j = Some a ->
                 exists message, git (n + j) a = Throw message) ->
    exists message,
      git (n + length branches) None = Throw message /\
      match tryBranches git n branches with
      | Some branch => Ok branch
      | None =>
          match git (n + length branches) None with
          | Ok _ => Ok (js "default")
          | Throw message =>
              Throw (js "Failed to clone repository: "
                     ++ js "Failed to clone repository with any branch: "
                     ++ message)
          end
      end
      = Throw (js "Failed to clone repository: "
               ++ js "Failed to clone repository with any branch: "
               ++ message).
Proof.
  induction branches as [|b branches IH]; intros n Hall.
  - destruct (Hall 0 None eq_refl) as [message Hfail].
    exists message. simpl. rewrite Nat.add_0_r in *. rewrite Hfail. auto.
  - destruct (Hall 0 (Some b) eq_refl) as [message Hfail].
    rewrite Nat.add_0_r in Hfail. cbn [tryBranches]. rewrite Hfail.
    replace (n + length (b :: branches)) with (S n + length branches)
      by (simpl; lia).
    apply IH. intros j a Ha.
    replace (S n + j) with (n + S j) by lia. apply Hall. exact Ha.
Qed.

(** X14. [cloneRepo] answers the first attempt that clones: the branch
    asked for, then [main], [master], [develop], [dev] and [trunk], then
    the clone without a branch, which it names [default]. The attempts
    after the first success are not made. *)
Theorem clone_answers_first_attempt_that_clones
    (specificBranch : option jsstring) (i : nat)
    (attempt : option jsstring) :
  setup = Ok tt ->
  nth_error (attempts specificBranch) i = Some attempt ->
  git i attempt = Ok tt ->
  (forall j a, j < i -> nth_error (attempts specificBranch) j = Some a ->
               exists message, git j a = Throw message) ->
  cloneRepo setup git specificBranch = Ok (branchName attempt).
Proof.
  intros Hsetup Hnth Hgit Hbefore. unfold cloneRepo. rewrite Hsetup.
  assert (Hlength : length defaultBranches = 5) by reflexivity.
  unfold attempts in Hnth, Hbefore.
  destruct specificBranch as [branch|];
    [destruct (truthy branch) eqn:Hasked |].
  - destruct i as [|i].
    + injection Hnth as <-. rewrite Hgit. reflexivity.
    + destruct (Hbefore 0 (Some branch)) as [message Hfail];
        [lia | reflexivity |].
      rewrite Hfail.
      apply (usual_branches_first defaultBranches 1 i attempt Hnth Hgit).
      intros j a Hj Ha. apply (Hbefore (S j)); [lia | exact Ha].
  - apply (usual_branches_first defaultBranches 0 i attempt Hnth Hgit).
    exact Hbefore.
  - apply (usual_branches_first defaultBranches 0 i attempt Hnth Hgit).
    exact Hbefore.
Qed.

(** X15. When every attempt fails, [cloneRepo] throws the message of the
    last one, the clone without a branch, behind two prefixes; the
    messages of the attempts on the branches are lost. *)
Theorem clone_throws_last_message (specificBranch : option jsstring) :
  setup = Ok tt ->
  (forall j a, nth_error (attempts specificBranch) j = Some a ->
               exists message, git j a = Throw message) ->
  exists message,
    git (length (attempts specificBranch) - 1) None = Throw message /\
    cloneRepo setup git specificBranch
    = Throw (js "Failed to clone repository: "
             ++ js "Failed to clone repository with any branch: "
             ++ message).
Proof.
  intros Hsetup Hall. unfold cloneRepo. rewrite Hsetup.
  unfold attempts in *.
  destruct specificBranch as [branch|];
    [destruct (truthy branch) eqn:Hasked |].
  - destruct (Hall 0 (Some branch) eq_refl) as [message Hfail].
    rewrite Hfail.
    apply (usual_branches_all_fail defaultBranches 1).
    intros j a Ha. apply (Hall (S j)). exact Ha.
  - apply (usual_branches_all_fail defaultBranches 0). exact Hall.
  - apply (usual_branches_all_fail defaultBranches 0). exact Hall.
Qed.

Lemma startsWith_app (prefix rest : jsstring) :
  startsWith (prefix ++ rest) prefix = true.
Proof.
  induction prefix as [|c prefix IH]; simpl.
  - destruct rest; reflexivity.
  - rewrite N.eqb_refl. exact IH.
Qed.

Lemma includesText_app (before part after : jsstring) :
  includesText (before ++ part ++ after) part = true.
Proof.
  induction before as [|c before IH].
  - simpl app. destruct (part ++ after) eqn:E; cbn [includesText];
      rewrite <- E, startsWith_app; reflexivity.
  - simpl app. cbn [includesText]. rewrite IH. apply orb_true_r.
Qed.

Lemma cloneRepo_throws (specificBranch : option jsstring)
    (message : jsstring) :
  cloneRepo setup git specificBranch = Throw message ->
  exists reason, message = js "Failed to clone repository: " ++ reason.
Proof.
  unfold cloneRepo. intros H.
  repeat match type of H with
         | match ?x with _ => _ end = _ => destruct x
         | (if ?x then _ else _) = _ => destruct x
         | (let _ := _ in _) = _ => cbv zeta in H
         end;
    try discriminate H; injection H as <-; eexists; reflexivity.
Qed.

Context {F : Float64}.
Variable toLowerCase : jsstring -> jsstring.
Variable JSON_parse : jsstring -> result ParsedRecord.

(** X16. When [cloneRepo] throws, the analysis throws its message
    behind one more prefix, and the handler of [/analyze] never answers
    that error with status 500: the message holds the words of a failed
    clone, so the status is 404, or 400 when the message also holds one
    of the two phrases of a refused request. *)
Theorem clone_failure_is_a_client_error
    (specificBranch : option jsstring) (tempRepoPath : jsstring)
    (root : list Fs.node) (events : list event) (thrown : jsstring) :
  cloneRepo setup git specificBranch = Throw thrown ->
  let message := js "Failed to analyze repository: " ++ thrown in
  (exists reason, thrown = js "Failed to clone repository: " ++ reason) /\
  RepoAnalyzer.analyzeRepository toLowerCase JSON_parse
    (cloneRepo setup git specificBranch) tempRepoPath root events
  = Throw message /\
  statusCode message
  = if includesText message (js "Invalid GitHub URL")
       || includesText message (js "Missing required parameter")
    then 400 else 404.
Proof.
  intros Hthrown message.
  destruct (cloneRepo_throws specificBranch thrown Hthrown) as [reason Hreason].
  split; [exists reason; exact Hreason |].
  split; [rewrite Hthrown; reflexivity |].
  subst message. rewrite Hreason. unfold statusCode.
  destruct (includesText _ (js "Invalid GitHub URL")
            || includesText _ (js "Missing required parameter"));
    [reflexivity |].
  change (js "Failed to analyze repository: "
          ++ js "Failed to clone repository: " ++ reason)
    with (js "Failed to analyze repository: "
          ++ js "Failed to clone repository" ++ js ": " ++ reason).
  rewrite includesText_app. reflexivity.
Qed.

End Clones.

Lemma clone_answers_first_attempt_that_clones_witness :
  let git := gitWithBranch (js "master") in
  let asked := Some (js "feature") in
  nth_error (attempts asked) 2 = Some (Some (js "master")) /\
  Cloning.cloneRepo (Ok tt) git asked = Ok (js "master").
Proof.
  intros git asked. split; [reflexivity |].
  apply (clone_answers_first_attempt_that_clones (Ok tt) git asked 2
           (Some (js "master"))).
  - reflexivity.
  - reflexivity.
  - reflexivity.
  - intros j a Hj Ha. destruct j as [|[|j]]; [| | lia];
      injection Ha as <-; eexists; reflexivity.
Defined.

Lemma clone_throws_last_message_witness :
  exists message,
    gitUnreachable (length (attempts None) - 1) None = Throw message /\
    Cloning.cloneRepo (Ok tt) gitUnreachable None
    = Throw (js "Failed to clone repository: "
             ++ js "Failed to clone repository with any branch: "
             ++ message).
Proof.
  apply (clone_throws_last_message (Ok tt) gitUnreachable None).
  - reflexivity.
  - intros j a _. eexists. reflexivity.
Defined.

Lemma clone_failure_is_a_client_error_witness :
  let cloned := Cloning.cloneRepo (Ok tt) gitUnreachable (Some (js "main")) in
  let thrown :=
    js "Failed to clone repository: Failed to clone repository with any branch: Repository not found" in
  let message := js "Failed to analyze repository: " ++ thrown in
  cloned = Throw thrown /\
  RepoAnalyzer.analyzeRepository asciiLowerCase rejectingParse cloned
    (js "/tmp/repo") [] [] = Throw message /\
  Server.statusCode message = 404.
Proof.
  intros cloned thrown message.
  assert (H : cloned = Throw thrown) by reflexivity.
  split; [exact H |].
  exact (proj2 (clone_failure_is_a_client_error (Ok tt) gitUnreachable
                  asciiLowerCase rejectingParse (Some (js "main"))
                  (js "/tmp/repo") [] [] thrown H)).
Defined.

(** ** The address of the repository *)

Section Addresses.

Import Server.

Variable URL_parse : jsstring -> option (jsstring * jsstring).

Lemma split_no_separator (sep : N) (s part : jsstring) :
  In part (split sep s) -> ~ In sep part.
Proof.
  revert part. induction s as [|c s IH]; intros part; simpl.
  - intros [<- | []]. intros [].
  - destruct (N.eqb_spec c sep) as [-> | Hne].
    + intros [<- | H]; [intros [] | apply IH; exact H].
    + destruct (split sep s) as [|l ls] eqn:E;
        [exfalso; exact (split_nonempty sep s E) |].
      intros [<- | H].
      * intros [Hc | Hl]; [congruence |].
        apply (IH l); [left; reflexivity | exact Hl].
      * apply IH. right. exact H.
Qed.

Lemma pathPartsOf_segment (pathname part : jsstring) :
  In part (pathPartsOf pathname) -> part <> [] /\ ~ In SLASH part.
Proof.
  unfold pathPartsOf. rewrite filter_In. intros [Hin Hlength]. split.
  - intros ->. discriminate Hlength.
  - apply (split_no_separator SLASH pathname). exact Hin.
Qed.

(** X17. A URL that the validator accepts is on [github.com] or
    [www.github.com] and its path has at least two segments, the second
    of which does not end with [.git]. For such a URL [extractRepoInfo]
    answers the address [https://github.com/user/repo] made of these
    two segments as they are: its removal of a [.git] suffix never
    applies, and neither does its fallback to the URL as given. *)
Theorem accepted_url_has_canonical_base (url : jsstring) :
  isValidGitHubUrl URL_parse url = true ->
  exists hostname pathname user repo rest,
    URL_parse url = Some (hostname, pathname) /\
    (hostname = js "github.com" \/ hostname = js "www.github.com") /\
    pathPartsOf pathname = user :: repo :: rest /\
    user <> [] /\ ~ In SLASH user /\
    repo <> [] /\ ~ In SLASH repo /\
    endsWith repo (js ".git") = false /\
    baseUrl (extractRepoInfo URL_parse url)
    = js "https://github.com/" ++ user ++ js "/" ++ repo.
Proof.
  unfold isValidGitHubUrl, extractRepoInfo.
  destruct (URL_parse url) as [[hostname pathname]|]; [| discriminate].
  destruct (JsString.eqb hostname (js "github.com")
            || JsString.eqb hostname (js "www.github.com")) eqn:Hhost;
    [| discriminate].
  cbn [negb]. cbv zeta.
  destruct (pathPartsOf pathname) as [|user [|repo rest]] eqn:Hparts;
    try discriminate.
  cbn [length nth Nat.leb andb]. intros Hrepo.
  apply negb_true_iff in Hrepo.
  exists hostname, pathname, user, repo, rest.
  destruct (pathPartsOf_segment pathname user) as [Hu1 Hu2];
    [rewrite Hparts; left; reflexivity |].
  destruct (pathPartsOf_segment pathname repo) as [Hr1 Hr2];
    [rewrite Hparts; right; left; reflexivity |].
  rewrite Hrepo. cbn [baseUrl].
  apply orb_true_iff in Hhost. rewrite !eqb_eq in Hhost.
  repeat (split; [first [reflexivity | assumption] |]). reflexivity.
Qed.

(** X18. The branch that [extractRepoInfo] reads off a URL is one segment
    of the path, the fourth, after [tree] or [blob]: it is not empty and
    holds no slash, so that of a branch named with a slash only the part
    before the slash is kept. *)
Theorem branch_of_url_is_one_segment (url name : jsstring) :
  branch (extractRepoInfo URL_parse url) = Some name ->
  name <> [] /\ ~ In SLASH name /\
  exists hostname pathname user repo kind rest,
    URL_parse url = Some (hostname, pathname) /\
    pathPartsOf pathname = user :: repo :: kind :: name :: rest /\
    (kind = js "tree" \/ kind = js "blob").
Proof.
  unfold extractRepoInfo.
  destruct (URL_parse url) as [[hostname pathname]|]; [| discriminate].
  destruct (pathPartsOf pathname) as [|user [|repo [|kind [|found rest]]]]
    eqn:Hparts; try discriminate.
  cbn [branch].
  destruct (JsString.eqb kind (js "tree") || JsString.eqb kind (js "blob"))
    eqn:Hkind; [| discriminate].
  intros H. injection H as ->.
  destruct (pathPartsOf_segment pathname name) as [Hn1 Hn2];
    [rewrite Hparts; do 3 right; left; reflexivity |].
  split; [exact Hn1 | split; [exact Hn2 |]].
  exists hostname, pathname, user, repo, kind, rest.
  apply orb_true_iff in Hkind. rewrite !eqb_eq in Hkind. auto.
Qed.

End Addresses.

Lemma accepted_url_has_canonical_base_witness :
  Server.isValidGitHubUrl parseBranchAddress branchAddress = true /\
  exists hostname pathname user repo rest,
    parseBranchAddress branchAddress = Some (hostname, pathname) /\
    (hostname = js "github.com" \/ hostname = js "www.github.com") /\
    Server.pathPartsOf pathname = user :: repo :: rest /\
    user <> [] /\ ~ In SLASH user /\
    repo <> [] /\ ~ In SLASH repo /\
    endsWith repo (js ".git") = false /\
    Server.baseUrl (Server.extractRepoInfo parseBranchAddress branchAddress)
    = js "https://github.com/" ++ user ++ js "/" ++ repo.
Proof.
  split; [reflexivity |].
  apply (accepted_url_has_canonical_base parseBranchAddress branchAddress).
  reflexivity.
Defined.

Lemma branch_of_url_is_one_segment_witness :
  Server.branch (Server.extractRepoInfo parseBranchAddress branchAddress)
  = Some (js "feature") /\
  js "feature" <> [] /\ ~ In SLASH (js "feature") /\
  exists hostname pathname user repo kind rest,
    parseBranchAddress branchAddress = Some (hostname, pathname) /\
    Server.pathPartsOf pathname
    = user :: repo :: kind :: js "feature" :: rest /\
    (kind = js "tree" \/ kind = js "blob").
Proof.
  split; [reflexivity |].
  apply (branch_of_url_is_one_segment parseBranchAddress branchAddress
           (js "feature")).
  reflexivity.
Defined.

(** ** Counting tables *)

Section CountingTables.

Import JsObject.

Lemma getOwn_setOwn (o : JsObject.t) (k k' : jsstring) (v : value) :
  getOwn (setOwn o k v) k'
  = if JsString.eqb k' k then Some v else getOwn o k'.
Proof.
  induction o as [|[k0 v0] o IH]; simpl; [reflexivity |].
  destruct (JsString.eqb k k0) eqn:E; simpl.
  - apply eqb_eq in E. subst k0.
    destruct (JsString.eqb k' k); reflexivity.
  - rewrite IH. destruct (JsString.eqb k' k0) eqn:E0; [| reflexivity].
    apply eqb_eq in E0. subst k0.
    destruct (JsString.eqb k' k) eqn:E1; [| reflexivity].
    apply eqb_eq in E1. subst k'. rewrite eqb_refl in E. discriminate E.
Qed.

Lemma getOwn_increment_other (o : JsObject.t) (k k' : jsstring) :
  k' <> k -> getOwn (increment o k) k' = getOwn o k'.
Proof.
  intros Hne. apply eqb_neq in Hne. unfold increment.
  destruct (getOwn o k) as [[n|]|];
    [| | destruct (JsString.eqb k (js "__proto__")); [reflexivity |];
         destruct (includes prototypeKeys k)];
    rewrite getOwn_setOwn, Hne; reflexivity.
Qed.

Lemma getOwn_increment_plain (o : JsObject.t) (k : jsstring) :
  ~ In k prototypeKeys ->
  getOwn (increment o k) k
  = match getOwn o k with
    | Some (VNum n) => Some (VNum (S n))
    | Some VStr => Some VStr
    | None => Some (VNum 1)
    end.
Proof.
  intros Hplain. unfold increment.
  assert (Hproto : JsString.eqb k (js "__proto__") = false).
  { apply eqb_neq. intros ->. apply Hplain. vm_compute. tauto. }
  assert (Hmember : includes prototypeKeys k = false).
  { destruct (includes prototypeKeys k) eqn:E; [| reflexivity].
    apply includes_In in E. contradiction. }
  destruct (getOwn o k) as [[n|]|]; rewrite ?Hproto, ?Hmember;
    rewrite getOwn_setOwn, eqb_refl; reflexivity.
Qed.

Lemma getOwn_increment_member (o : JsObject.t) (k : jsstring) :
  In k prototypeKeys ->
  getOwn (increment o k) k
  = match getOwn o k with
    | Some (VNum n) => Some (VNum (S n))
    | Some VStr => Some VStr
    | None => if JsString.eqb k (js "__proto__") then None else Some VStr
    end.
Proof.
  intros Hmember. apply includes_In in Hmember. unfold increment.
  destruct (getOwn o k) as [[n|]|] eqn:E; rewrite ?Hmember;
    [rewrite getOwn_setOwn, eqb_refl; reflexivity ..|].
  destruct (JsString.eqb k (js "__proto__")); [exact E |].
  rewrite getOwn_setOwn, eqb_refl. reflexivity.
Qed.

(** X19. The table that [obj[key] = (obj[key] || 0) + 1] fills from an
    empty object holds, for a key that is not the name of a member of
    [Object.prototype], the number of times the key came, and nothing
    when it never came; for the name of such a member it never holds a
    number. *)
Theorem counting_table_lookup (keys : list jsstring) (k : jsstring) :
  let table := fold_left increment keys empty in
  (~ In k prototypeKeys ->
   getOwn table k
   = if occurrences keys k =? 0 then None
     else Some (VNum (occurrences keys k))) /\
  (In k prototypeKeys -> forall n, getOwn table k <> Some (VNum n)).
Proof.
  induction keys as [|x keys IH] using rev_ind; simpl.
  - split; [reflexivity | discriminate].
  - rewrite fold_left_app. cbn [fold_left]. rewrite occurrences_snoc.
    simpl in IH. destruct IH as [IHplain IHmember]. split.
    + intros Hplain. specialize (IHplain Hplain).
      destruct (JsString.eq_dec k x) as [<- | Hne].
      * rewrite getOwn_increment_plain, IHplain by exact Hplain.
        destruct (Nat.eqb_spec (occurrences keys k) 0) as [-> | _];
          reflexivity.
      * rewrite getOwn_increment_other by exact Hne. exact IHplain.
    + intros Hmember n. specialize (IHmember Hmember).
      destruct (JsString.eq_dec k x) as [<- | Hne].
      * rewrite getOwn_increment_member by exact Hmember.
        destruct (getOwn (fold_left increment keys empty) k) as [[m|]|];
          [exfalso; exact (IHmember m eq_refl) | discriminate |].
        destruct (JsString.eqb k (js "__proto__")); discriminate.
      * rewrite getOwn_increment_other by exact Hne. apply IHmember.
Qed.

Lemma weight_app (o o' : JsObject.t) : weight (o ++ o') = weight o + weight o'.
Proof.
  unfold weight. rewrite map_app, list_sum_app. reflexivity.
Qed.

Lemma weight_setOwn (o : JsObject.t) (k : jsstring) (v : value) :
  weight (setOwn o k v)
  + weight (match getOwn o k with Some old => [(k, old)] | None => [] end)
  = weight o + weight [(k, v)].
Proof.
  induction o as [|[k0 v0] o IH]; simpl; [unfold weight; simpl; lia |].
  destruct (JsString.eqb k k0) eqn:E.
  - unfold weight. simpl. lia.
  - unfold weight in *. simpl in *. lia.
Qed.

Lemma weight_increment (o : JsObject.t) (k : jsstring) :
  weight (increment o k) <= S (weight o).
Proof.
  unfold increment.
  destruct (getOwn o k) as [[n|]|] eqn:E.
  - pose proof (weight_setOwn o k (VNum (S n))) as H. rewrite E in H.
    unfold weight in *. simpl in *. lia.
  - pose proof (weight_setOwn o k VStr) as H. rewrite E in H.
    unfold weight in *. simpl in *. lia.
  - destruct (JsString.eqb k (js "__proto__")); [lia |].
    destruct (includes prototypeKeys k).
    + pose proof (weight_setOwn o k VStr) as H. rewrite E in H.
      unfold weight in *. simpl in *. lia.
    + pose proof (weight_setOwn o k (VNum 1)) as H. rewrite E in H.
      unfold weight in *. simpl in *. lia.
Qed.

Lemma weight_lineCounts (ls : list jsstring) (o : JsObject.t) :
  weight (fold_left (fun lineCounts line => increment lineCounts (normalize line))
            ls o)
  <= weight o + length ls.
Proof.
  revert o. induction ls as [|l ls IH]; intros o; simpl; [lia |].
  specialize (IH (increment o (normalize l))).
  pose proof (weight_increment o (normalize l)). lia.
Qed.

Lemma repeated_weight (o : JsObject.t) :
  2 * length (filter gt1 (values o)) <= weight o.
Proof.
  unfold weight, values.
  induction o as [|[k [n|]] o IH]; simpl in *; [lia | | lia].
  destruct (Nat.ltb_spec 1 n); simpl; lia.
Qed.

Context {F : Float64}.

(** X20. At most half of the non-empty lines of a content are counted as
    repeated forms, since a repeated form takes two lines at least: the
    repetition ratio is never above one half, as binary64 holds it. *)
Theorem repetition_ratio_at_most_half (content : jsstring) :
  let ls := filter nonBlank (split LF content) in
  2 * repeatedLinesOf ls <= length ls /\
  (detectRepetitivePatterns content <= fl (1 # 2))%Q.
Proof.
  intros ls.
  assert (Hhalf : 2 * repeatedLinesOf ls <= length ls).
  { unfold repeatedLinesOf, lineCountsOf.
    pose proof (repeated_weight
                  (fold_left (fun lineCounts line =>
                                increment lineCounts (normalize line))
                     ls empty)) as H1.
    pose proof (weight_lineCounts ls empty) as H2.
    change (weight empty) with 0 in H2. lia. }
  split; [exact Hhalf |].
  unfold detectRepetitivePatterns. fold ls.
  destruct (Nat.ltb_spec (length ls) 5) as [Hfew | Hmany].
  - apply Qle_trans with (fl 0).
    + rewrite fl_zero. apply Qle_refl.
    + apply fl_mono. discriminate.
  - apply fl_mono. apply (ofNat_ratio_le _ _ 1 2); lia.
Qed.

End CountingTables.

Lemma counting_table_lookup_witness :
  let keys := [js "a"; js "constructor"; js "a"; js "constructor"] in
  let table := fold_left JsObject.increment keys JsObject.empty in
  JsObject.getOwn table (js "a") = Some (JsObject.VNum 2) /\
  forall n, JsObject.getOwn table (js "constructor") <> Some (JsObject.VNum n).
Proof.
  intros keys table. split.
  - apply (proj1 (counting_table_lookup keys (js "a"))).
    vm_compute. intuition discriminate.
  - apply (proj2 (counting_table_lookup keys (js "constructor"))).
    vm_compute. tauto.
Defined.

(** ** Uniform indentation *)

Section UniformIndentation.

Context {F : Float64}.

Lemma filter_all {A : Type} (p : A -> bool) (l : list A) :
  (forall x, In x l -> p x = true) -> filter p l = l.
Proof.
  induction l as [|x l IH]; intros Hall; simpl; [reflexivity |].
  rewrite (Hall x) by (left; reflexivity). f_equal.
  apply IH. intros y Hy. apply Hall. right. exact Hy.
Qed.

(** X21. A content whose non-empty lines all start with whitespace, or
    whose non-empty lines all have a leading whitespace of a length
    divisible by 4, trips the perfectFormatting signal whatever its
    size: so does every content without any indentation. *)
Theorem uniform_indentation_trips (content : jsstring) :
  let indentations := indentationsOf (split LF content) in
  (forall indent, In indent indentations -> indent mod 4 = 0) \/
  (forall indent, In indent indentations -> 0 < indent) ->
  tripsPerfectFormatting content = true.
Proof.
  intros indentations Huniform.
  unfold tripsPerfectFormatting, checkIndentationConsistency.
  fold indentations.
  destruct (Nat.eqb_spec (length indentations) 0) as [Hzero | Hpos];
    [apply one_beats_threshold |].
  assert (Hmax : Nat.max (spacesOf indentations) (tabsOf indentations)
                 = length indentations).
  { pose proof (filter_length_le (fun indent => indent mod 4 =? 0)
                  indentations) as H4.
    pose proof (filter_length_le (fun indent => 0 <? indent) indentations)
      as Hi.
    rewrite tabsOf_positive. unfold spacesOf in *.
    destruct Huniform as [Hall | Hall].
    - rewrite (filter_all (fun indent => indent mod 4 =? 0) indentations)
        by (intros x Hx; apply Nat.eqb_eq, Hall; exact Hx).
      lia.
    - rewrite (filter_all (fun indent => 0 <? indent) indentations)
        by (intros x Hx; apply Nat.ltb_lt, Hall; exact Hx).
      lia. }
  rewrite Hmax. apply gt_true.
  assert (Hone : (Number.ofNat (length indentations)
                  / Number.ofNat (length indentations)
                  == Number.ofNat 1 / Number.ofNat 1)%Q).
  { unfold Number.ofNat. field. change 0%Q with (inject_Z 0).
    rewrite inject_Z_injective. lia. }
  rewrite (fl_proper _ _ Hone). apply gt_true.
  apply (fl_ratio_gt 1 1 95 100); [lia | reflexivity | lia].
Qed.

End UniformIndentation.

Lemma uniform_indentation_trips_witness :
  let content := js "import a
import b

run()" in
  Analyzer.indentationsOf (split LF content) = [0; 0; 0] /\
  Analyzer.tripsPerfectFormatting content = true.
Proof.
  intros content. split; [reflexivity |].
  apply (uniform_indentation_trips content).
  left. intros indent Hin. vm_compute in Hin.
  destruct Hin as [<- | [<- | [<- | []]]]; reflexivity.
Defined.

(** ** The range of the comment ratio *)

Section CommentRatioRange.

Context {F : Float64}.
Variable toLowerCase : jsstring -> jsstring.

Local Open Scope Q_scope.

Lemma fl_nonneg (x : Q) : 0 <= x -> 0 <= fl x.
Proof.
  intros H. apply Qle_trans with (fl 0); [rewrite fl_zero; apply Qle_refl |].
  apply fl_mono. exact H.
Qed.

Lemma Math_round_range (y : Q) :
  0 <= y -> y < 201 # 2 -> (0 <= Math_round y <= 100)%Z.
Proof.
  intros Hlo Hhi. destruct (Math_round_bounds y) as [H1 H2]. split.
  - apply Z.lt_succ_r. rewrite Zlt_Qlt.
    unfold Z.succ. rewrite inject_Z_plus.
    change (inject_Z 0) with 0. change (inject_Z 1) with 1. lra.
  - apply Z.lt_succ_r. rewrite Zlt_Qlt.
    change (inject_Z (Z.succ 100)) with 101. lra.
Qed.

Lemma commentsRatioOf_range (stats : Stats) :
  (commentLines stats <= totalLines stats)%nat ->
  exists k : Z,
    (0 <= k <= 100)%Z /\ commentsRatioOf stats = fl (inject_Z k / 100).
Proof.
  intros Hle. unfold commentsRatioOf. eexists. split; [| reflexivity].
  set (ratio := if (0 <? totalLines stats)%nat
                then fl (Number.ofNat (commentLines stats)
                         / Number.ofNat (totalLines stats))
                else 0).
  assert (Hone : fl 1 <= 1 + unit_roundoff).
  { destruct (fl_bounds 1) as [_ H]; [vm_compute; discriminate .. |].
    rewrite Qmult_1_r in H. exact H. }
  assert (Hratio : 0 <= ratio /\ ratio <= 1 + unit_roundoff).
  { subst ratio.
    destruct (Nat.ltb_spec 0 (totalLines stats)) as [Hpos | Hzero];
      [| split; [apply Qle_refl | vm_compute; discriminate]].
    assert (HT : 0 < Number.ofNat (totalLines stats))
      by (apply inject_Z_pos; lia).
    split.
    - apply fl_nonneg. apply Qle_shift_div_l; [exact HT |].
      rewrite Qmult_0_l. unfold Number.ofNat.
      change 0 with (inject_Z 0). rewrite <- Zle_Qle. lia.
    - apply Qle_trans with (fl 1); [| exact Hone].
      apply fl_mono. apply Qle_shift_div_r; [exact HT |].
      rewrite Qmult_1_l. unfold Number.ofNat. rewrite <- Zle_Qle. lia. }
  destruct Hratio as [Hlo Hhi].
  apply Math_round_range.
  - apply fl_nonneg. lra.
  - apply Qle_lt_trans with (fl ((1 + unit_roundoff) * 100)).
    + apply fl_mono. lra.
    + destruct (fl_bounds ((1 + unit_roundoff) * 100)) as [_ H];
        [vm_compute; discriminate .. |].
      apply Qle_lt_trans with (1 := H). vm_compute. reflexivity.
Qed.

(** X22. The [commentsRatio] of the metrics is one of the 101 hundredths
    from 0 to 1, as binary64 holds them, whatever the size of the
    repository. *)
Theorem comments_ratio_is_a_hundredth
    (repoPath : jsstring) (root : list Fs.node) :
  exists k : Z,
    (0 <= k <= 100)%Z /\
    m_commentsRatio (computeMetrics toLowerCase repoPath root)
    = fl (inject_Z k / 100).
Proof.
  apply (commentsRatioOf_range
           (analyzeDirectory toLowerCase repoPath root emptyStats)).
  apply computeMetrics_commentsWithinLines.
Qed.

End CommentRatioRange.
